(** * WikiProfile: moderation, access control and ban expiry

    A shallow embedding of the server side of the WikiProfile repository:
    the drizzle table declarations and zod schemas of [shared/schema.ts],
    the [DatabaseStorage] class of [server/storage.ts] and the route
    handlers of [server/routes.ts].

    Conventions of the model:
    - a table is the list of its rows, oldest insertion first; a query is a
      [filter], an update a [fmap], the first row of a result is [head];
    - the store is threaded explicitly: an operation that writes takes the
      store and returns the new one;
    - a timestamp is the number of milliseconds since the epoch, in [Z];
      every [new Date()] / [defaultNow()] of the source is a parameter;
    - [gen_random_uuid()] and [randomBytes] are parameters too;
    - a request body is a finite map from property names to JSON values;
    - a nullable column is an [option]; a property that a parsed payload
      may leave [undefined] is an [option] around that. *)

From Stdlib Require Import ZArith Ascii String List.
From Stdlib.Strings Require Import Byte.
From stdpp Require Import base option numbers list sorting strings gmap.

Open Scope string_scope.
Open Scope Z_scope.

(** ** Rows: [users], [wiki_entries], [likes] (shared/schema.ts) *)

Module User.
Record t : Type := mk {
  id : string;
  email : option string;
  username : option string;
  password : option string;
  firstName : option string;
  lastName : option string;
  profileImageUrl : option string;
  profileBackgroundUrl : option string;
  bio : option string;
  isAdmin : bool;
  role : string;
  badge : option string;
  isBanned : bool;
  bannedUntil : option Z;
  banReason : option string;
  createdAt : option Z;
  updatedAt : option Z }.
End User.

Module WikiEntry.
Record t : Type := mk {
  id : string;
  userId : string;
  title : string;
  description : string;
  imageUrl : option string;
  status : string;
  verification : option string;
  isSpecial : bool;
  specialAccessToken : option string;
  createdAt : option Z;
  updatedAt : option Z }.
End WikiEntry.

Module Like.
Record t : Type := mk {
  id : string;
  entryId : string;
  userId : string;
  createdAt : option Z }.
End Like.

(** The part of the database the moderation and access rules touch.
    [user_images], [content_reports], [comments] and [sessions] are only
    inserted into, listed and deleted by the source and are left out. *)
Record Store : Type := mkStore {
  users : list User.t;
  wikiEntries : list WikiEntry.t;
  likes : list Like.t }.

(** Outcome of a statement that the database may refuse (primary key,
    foreign key or unique violation): the driver throws, the route's
    [catch] answers. *)
Inductive DbResult (A : Type) : Type :=
| DbOk (a : A)
| DbError.
Arguments DbOk {A} a.
Arguments DbError {A}.

(** ** JSON values and request bodies *)

Inductive jval : Type :=
| JNull
| JBool (b : bool)
| JNum (n : Z)
| JStr (s : string)
| JCompound.

Abbreviation body := (gmap string jval).

(** ** zod schemas generated from the tables (drizzle-zod)

    [None] is a [ZodError]. A [varchar] column is a string, with its
    declared length as maximum; a nullable column accepts [null]; a column
    that is nullable or has a default is optional. *)

Definition z_string (max : option nat) (v : jval) : option string :=
  match v with
  | JStr s =>
      match max with
      | Some n => if decide (String.length s ≤ n)%nat then Some s else None
      | None => Some s
      end
  | _ => None
  end.

Definition z_boolean (v : jval) : option bool :=
  match v with
  | JBool b => Some b
  | _ => None
  end.

Definition z_nullable {A} (p : jval → option A) (v : jval) : option (option A) :=
  match v with
  | JNull => Some None
  | _ => Some <$> p v
  end.

Definition required {A} (p : jval → option A) (k : string) (b : body) : option A :=
  b !! k ≫= p.

Definition optional {A} (p : jval → option A) (k : string) (b : body) : option (option A) :=
  match b !! k with
  | None => Some None
  | Some v => Some <$> p v
  end.

(** [.strict()]: a key outside the schema's shape is an error; without it
    such keys are dropped from the result. *)
Definition strict (shape : list string) (b : body) : option unit :=
  if decide (dom b ⊆ (list_to_set shape : gset string)) then Some tt else None.

Record InsertWikiEntry : Type := mkInsertWikiEntry {
  ins_userId : string;
  ins_title : string;
  ins_description : string;
  ins_imageUrl : option (option string);
  ins_status : option string;
  ins_verification : option (option string);
  ins_isSpecial : option bool;
  ins_specialAccessToken : option (option string) }.

(** [createInsertSchema(wikiEntries).omit({ id, createdAt, updatedAt })] *)
Definition insertWikiEntrySchema (b : body) : option InsertWikiEntry :=
  userId ← required (z_string None) "userId" b;
  title ← required (z_string (Some 255%nat)) "title" b;
  description ← required (z_string None) "description" b;
  imageUrl ← optional (z_nullable (z_string None)) "imageUrl" b;
  status ← optional (z_string (Some 50%nat)) "status" b;
  verification ← optional (z_nullable (z_string (Some 50%nat))) "verification" b;
  isSpecial ← optional z_boolean "isSpecial" b;
  specialAccessToken ← optional (z_nullable (z_string None)) "specialAccessToken" b;
  Some (mkInsertWikiEntry userId title description imageUrl status
          verification isSpecial specialAccessToken).

Record UpdateWikiEntry : Type := mkUpdateWikiEntry {
  upd_title : option string;
  upd_description : option string;
  upd_imageUrl : option (option string);
  upd_verification : option (option string);
  upd_isSpecial : option bool;
  upd_specialAccessToken : option (option string) }.

Definition updateWikiEntryShape : list string :=
  ["title"; "description"; "imageUrl"; "verification"; "isSpecial";
   "specialAccessToken"].

(** [createInsertSchema(wikiEntries)
      .omit({ id, userId, status, createdAt, updatedAt }).partial().strict()] *)
Definition updateWikiEntrySchema (b : body) : option UpdateWikiEntry :=
  _ ← strict updateWikiEntryShape b;
  title ← optional (z_string (Some 255%nat)) "title" b;
  description ← optional (z_string None) "description" b;
  imageUrl ← optional (z_nullable (z_string None)) "imageUrl" b;
  verification ← optional (z_nullable (z_string (Some 50%nat))) "verification" b;
  isSpecial ← optional z_boolean "isSpecial" b;
  specialAccessToken ← optional (z_nullable (z_string None)) "specialAccessToken" b;
  Some (mkUpdateWikiEntry title description imageUrl verification isSpecial
          specialAccessToken).

Record InsertLike : Type := mkInsertLike {
  il_entryId : string;
  il_userId : string }.

(** [createInsertSchema(likes).omit({ id, createdAt })] *)
Definition insertLikeSchema (b : body) : option InsertLike :=
  entryId ← required (z_string None) "entryId" b;
  userId ← required (z_string None) "userId" b;
  Some (mkInsertLike entryId userId).

(** ** The storage layer ([DatabaseStorage], server/storage.ts) *)

(** [ORDER BY created_at DESC]; PostgreSQL puts NULL first when descending. *)
Definition newer_first (a b : option Z) : Prop :=
  match a, b with
  | None, _ => True
  | Some _, None => False
  | Some x, Some y => y ≤ x
  end.

#[global] Instance newer_first_dec a b : Decision (newer_first a b).
Proof. destruct a, b; simpl; apply _. Defined.

Definition orderBy_desc {A} (key : A → option Z) (rows : list A) : list A :=
  merge_sort (λ r1 r2, newer_first (key r1) (key r2)) rows.

(** [const [row] = await db.select().from(t).where(eq(t.key, k))] *)
Definition first_with {A} (key : A → string) (k : string) (rows : list A)
  : option A :=
  head (filter (λ r, key r = k) rows).

(** [db.update(t).set(..).where(eq(t.key, k))], [f] being the assignment. *)
Definition rewrite_with {A} (key : A → string) (f : A → A) (k : string)
    (rows : list A) : list A :=
  (λ r, if decide (key r = k) then f r else r) <$> rows.

Definition getUser (db : Store) (id : string) : option User.t :=
  first_with User.id id (users db).

Definition getEntry (db : Store) (id : string) : option WikiEntry.t :=
  first_with WikiEntry.id id (wikiEntries db).

Definition getUserEntries (db : Store) (userId : string) : list WikiEntry.t :=
  orderBy_desc WikiEntry.createdAt
    (filter (λ e, WikiEntry.userId e = userId) (wikiEntries db)).

(** The profile is the user row with a [wikiEntries] property added. *)
Definition getUserProfile (db : Store) (userId : string)
  : option (User.t * list WikiEntry.t) :=
  match getUser db userId with
  | None => None
  | Some user => Some (user, getUserEntries db userId)
  end.

(** The row [db.insert(wikiEntries).values(entryData)] writes: a property
    the payload leaves undefined takes the column's default. *)
Definition entry_row (entryData : InsertWikiEntry) (newId : string) (now : Z)
  : WikiEntry.t :=
  WikiEntry.mk newId
    (ins_userId entryData)
    (ins_title entryData)
    (ins_description entryData)
    (default None (ins_imageUrl entryData))
    (default "pending" (ins_status entryData))
    (default (Some "unknown") (ins_verification entryData))
    (default false (ins_isSpecial entryData))
    (default None (ins_specialAccessToken entryData))
    (Some now) (Some now).

(** [newId] is the value of [gen_random_uuid()], [now] of [defaultNow()].
    The insert is refused when the primary key is taken or the owner does
    not exist. *)
Definition createEntry (entryData : InsertWikiEntry) (newId : string) (now : Z)
    (db : Store) : DbResult (WikiEntry.t * Store) :=
  if decide (is_Some (getEntry db newId)) then DbError
  else if decide (getUser db (ins_userId entryData) = None) then DbError
  else
    let entry := entry_row entryData newId now in
    DbOk (entry, mkStore (users db) (wikiEntries db ++ [entry]) (likes db)).

(** [innerJoin(users, eq(wikiEntries.userId, users.id))] *)
Definition join_users (db : Store) (entries : list WikiEntry.t)
  : list (WikiEntry.t * User.t) :=
  e ← entries;
  u ← filter (λ u, User.id u = WikiEntry.userId e) (users db);
  [(e, u)].

Definition getApprovedEntries (db : Store) : list (WikiEntry.t * User.t) :=
  orderBy_desc (λ row, WikiEntry.createdAt row.1)
    (filter (λ row, WikiEntry.status row.1 = "approved")
       (join_users db (wikiEntries db))).

Definition getAllEntriesWithUsers (db : Store) : list (WikiEntry.t * User.t) :=
  orderBy_desc (λ row, WikiEntry.createdAt row.1)
    (join_users db (wikiEntries db)).

(** [.set({ ...entryData, updatedAt: new Date() })]: drizzle skips the
    properties that are undefined. *)
Definition set_entry (entryData : UpdateWikiEntry) (now : Z) (e : WikiEntry.t)
  : WikiEntry.t :=
  WikiEntry.mk (WikiEntry.id e) (WikiEntry.userId e)
    (default (WikiEntry.title e) (upd_title entryData))
    (default (WikiEntry.description e) (upd_description entryData))
    (default (WikiEntry.imageUrl e) (upd_imageUrl entryData))
    (WikiEntry.status e)
    (default (WikiEntry.verification e) (upd_verification entryData))
    (default (WikiEntry.isSpecial e) (upd_isSpecial entryData))
    (default (WikiEntry.specialAccessToken e) (upd_specialAccessToken entryData))
    (WikiEntry.createdAt e) (Some now).

Definition set_status (status : string) (now : Z) (e : WikiEntry.t) : WikiEntry.t :=
  WikiEntry.mk (WikiEntry.id e) (WikiEntry.userId e) (WikiEntry.title e)
    (WikiEntry.description e) (WikiEntry.imageUrl e) status
    (WikiEntry.verification e) (WikiEntry.isSpecial e)
    (WikiEntry.specialAccessToken e) (WikiEntry.createdAt e) (Some now).

Definition set_verification (verification : string) (now : Z) (e : WikiEntry.t)
  : WikiEntry.t :=
  WikiEntry.mk (WikiEntry.id e) (WikiEntry.userId e) (WikiEntry.title e)
    (WikiEntry.description e) (WikiEntry.imageUrl e) (WikiEntry.status e)
    (Some verification) (WikiEntry.isSpecial e)
    (WikiEntry.specialAccessToken e) (WikiEntry.createdAt e) (Some now).

(** [db.update(wikiEntries).set(..).where(eq(wikiEntries.id, id)).returning()]:
    the new table, and the first row written. *)
Definition update_entries (f : WikiEntry.t → WikiEntry.t) (id : string) (db : Store)
  : option WikiEntry.t * Store :=
  (f <$> first_with WikiEntry.id id (wikiEntries db),
   mkStore (users db) (rewrite_with WikiEntry.id f id (wikiEntries db))
     (likes db)).

Definition updateEntry (id : string) (entryData : UpdateWikiEntry) (now : Z)
    (db : Store) : option WikiEntry.t * Store :=
  update_entries (set_entry entryData now) id db.

Definition moderateEntry (id : string) (status : string) (now : Z) (db : Store)
  : option WikiEntry.t * Store :=
  update_entries (set_status status now) id db.

Definition setEntryVerification (entryId : string) (verification : string)
    (now : Z) (db : Store) : option WikiEntry.t * Store :=
  update_entries (set_verification verification now) entryId db.

(** Deleting an entry cascades to the likes that reference it. *)
Definition deleteEntry (id : string) (db : Store) : Store :=
  mkStore (users db)
    (filter (λ e, WikiEntry.id e ≠ id) (wikiEntries db))
    (filter (λ l, Like.entryId l ≠ id) (likes db)).

Definition deleteEntryAdmin (id : string) (db : Store) : Store :=
  mkStore (users db)
    (filter (λ e, WikiEntry.id e ≠ id) (wikiEntries db))
    (filter (λ l, Like.entryId l ≠ id) (likes db)).

(** *** Likes *)

Definition getLikes (db : Store) (entryId : string) : list Like.t :=
  orderBy_desc Like.createdAt (filter (λ l, Like.entryId l = entryId) (likes db)).

Definition userLikesEntry (db : Store) (entryId userId : string) : bool :=
  bool_decide
    (is_Some (head (filter (λ l, Like.entryId l = entryId ∧ Like.userId l = userId)
                      (likes db)))).

(** The table declares [UNIQUE (entry_id, user_id)] as a raw SQL fragment
    of its extra configuration; [unique] says whether the database in use
    carries that constraint. The primary key and the two foreign keys are
    column declarations and always hold. *)
Definition createLike (unique : bool) (like : InsertLike) (newId : string)
    (now : Z) (db : Store) : DbResult (Like.t * Store) :=
  if decide (Exists (λ l, Like.id l = newId) (likes db)) then DbError
  else if decide (getEntry db (il_entryId like) = None) then DbError
  else if decide (getUser db (il_userId like) = None) then DbError
  else if unique && userLikesEntry db (il_entryId like) (il_userId like) then DbError
  else
    let row := Like.mk newId (il_entryId like) (il_userId like) (Some now) in
    DbOk (row, mkStore (users db) (wikiEntries db) (likes db ++ [row])).

Definition removeLike (entryId userId : string) (db : Store) : Store :=
  mkStore (users db) (wikiEntries db)
    (filter (λ l, ¬ (Like.entryId l = entryId ∧ Like.userId l = userId)) (likes db)).

(** *** Special posts *)

(** [!token] is false exactly for a non-empty string. *)
Definition token_given (token : option string) : bool :=
  match token with
  | Some t => bool_decide (t ≠ EmptyString)
  | None => false
  end.

(** [token !== entry.specialAccessToken]: [undefined] and [null] differ
    from every string and from each other. *)
Definition token_differs (token stored : option string) : bool :=
  match token, stored with
  | Some t, Some s => bool_decide (t ≠ s)
  | _, _ => true
  end.

Definition getSpecialPost (db : Store) (entryId : string) (token : option string)
  : option WikiEntry.t :=
  match getEntry db entryId with
  | None => None
  | Some entry =>
      if WikiEntry.isSpecial entry
         && (negb (token_given token)
             || token_differs token (WikiEntry.specialAccessToken entry))
      then None
      else Some entry
  end.

(** *** Bans and user deletion *)

Definition set_ban (isBanned : bool) (banReason : option string)
    (bannedUntil : option Z) (now : Z) (u : User.t) : User.t :=
  User.mk (User.id u) (User.email u) (User.username u) (User.password u)
    (User.firstName u) (User.lastName u) (User.profileImageUrl u)
    (User.profileBackgroundUrl u) (User.bio u) (User.isAdmin u) (User.role u)
    (User.badge u) isBanned bannedUntil banReason (User.createdAt u) (Some now).

Definition update_users (f : User.t → User.t) (id : string) (db : Store)
  : option User.t * Store :=
  (f <$> first_with User.id id (users db),
   mkStore (rewrite_with User.id f id (users db)) (wikiEntries db) (likes db)).

(** [bannedUntil || null]: a [Date] is always truthy. [bannedUntil] is a
    valid [Date] here; the route answers for the Invalid Date. *)
Definition banUser (userId : string) (banReason : string) (bannedUntil : option Z)
    (now : Z) (db : Store) : option User.t * Store :=
  update_users (set_ban true (Some banReason) bannedUntil now) userId db.

Definition unbanUser (userId : string) (now : Z) (db : Store)
  : option User.t * Store :=
  update_users (set_ban false None None now) userId db.

(** Deleting a user cascades to the user's entries and likes, and from the
    deleted entries to the likes on them. *)
Definition deleteUser (userId : string) (db : Store) : Store :=
  let gone :=
    WikiEntry.id <$> filter (λ e, WikiEntry.userId e = userId) (wikiEntries db) in
  mkStore
    (filter (λ u, User.id u ≠ userId) (users db))
    (filter (λ e, WikiEntry.userId e ≠ userId) (wikiEntries db))
    (filter (λ l, Like.userId l ≠ userId ∧ Like.entryId l ∉ gone) (likes db)).

(** [now] is the [new Date()] compared with [bannedUntil], [now'] the one
    [unbanUser] writes to [updatedAt]. *)
Definition checkUserBanned (userId : string) (now now' : Z) (db : Store)
  : bool * Store :=
  match getUser db userId with
  | None => (false, db)
  | Some user =>
      if negb (User.isBanned user) then (false, db)
      else
        match User.bannedUntil user with
        | Some bannedUntil =>
            if decide (now > bannedUntil)
            then (false, (unbanUser userId now' db).2)
            else (User.isBanned user, db)
        | None => (User.isBanned user, db)
        end
  end.

(** *** Token generation: [randomBytes(32).toString('hex')] *)

(** [entropy] is the operating system's random source, read byte by byte. *)
Definition randomBytes (n : nat) (entropy : nat → byte) : list byte :=
  entropy <$> seq 0 n.

Definition hex_alphabet : list ascii :=
  ["0"; "1"; "2"; "3"; "4"; "5"; "6"; "7"; "8"; "9";
   "a"; "b"; "c"; "d"; "e"; "f"]%char.

Definition hex_digit (n : N) : ascii :=
  nth (N.to_nat n) hex_alphabet "0"%char.

Definition hex_of_byte (b : byte) : string :=
  String (hex_digit (Byte.to_N b / 16))
    (String (hex_digit (Byte.to_N b mod 16)) EmptyString).

Fixpoint toString_hex (bytes : list byte) : string :=
  match bytes with
  | [] => EmptyString
  | b :: rest => hex_of_byte b +:+ toString_hex rest
  end.

(** ** The route handlers ([registerRoutes], server/routes.ts)

    A handler is the function registered behind the route's middleware:
    [userId] is [req.user.claims.sub], which [isAuthenticated] has put
    there. The validation details listed beside a 400 message are not
    kept. *)

Inductive Reply (A : Type) : Type :=
| Json (code : nat) (payload : A)
| Message (code : nat) (message : string)
| Sent (code : nat).
Arguments Json {A} code payload.
Arguments Message {A} code message.
Arguments Sent {A} code.

Definition code_of {A} (r : Reply A) : nat :=
  match r with
  | Json c _ | Message c _ | Sent c => c
  end.

(** GET /api/entries/approved *)
Definition get_api_entries_approved (db : Store)
  : Reply (list (WikiEntry.t * User.t)) :=
  Json 200 (getApprovedEntries db).

(** GET /api/profile/:userId *)
Definition get_api_profile_userId (userId : string) (db : Store)
  : Reply (User.t * list WikiEntry.t) :=
  match getUserProfile db userId with
  | None => Message 404 "User not found"
  | Some profile => Json 200 profile
  end.

(** POST /api/entries: the body, with [userId] overwritten, is parsed by
    [insertWikiEntrySchema]. *)
Definition post_api_entries (userId : string) (reqBody : body) (newId : string)
    (now : Z) (db : Store) : Reply WikiEntry.t * Store :=
  match insertWikiEntrySchema (<["userId" := JStr userId]> reqBody) with
  | None => (Message 400 "Invalid entry data", db)
  | Some validatedData =>
      match createEntry validatedData newId now db with
      | DbOk (entry, db') => (Json 201 entry, db')
      | DbError => (Message 500 "Failed to create entry", db)
      end
  end.

(** GET /api/entries/:id *)
Definition get_api_entries_id (id : string) (db : Store) : Reply WikiEntry.t :=
  match getEntry db id with
  | None => Message 404 "Entry not found"
  | Some entry => Json 200 entry
  end.

(** PATCH /api/entries/:id. The reply carries the row as [updateEntry]
    returned it; [now] and [now'] are the clock readings of the two
    updates. *)
Definition patch_api_entries_id (userId id : string) (reqBody : body)
    (now now' : Z) (db : Store) : Reply WikiEntry.t * Store :=
  match getEntry db id with
  | None => (Message 404 "Entry not found", db)
  | Some existingEntry =>
      if decide (WikiEntry.userId existingEntry ≠ userId)
      then (Message 403 "Forbidden - You can only edit your own entries", db)
      else
        let bodyWithoutStatus := delete "status" reqBody in
        match updateWikiEntrySchema bodyWithoutStatus with
        | None => (Message 400 "Invalid entry data", db)
        | Some validatedData =>
            let '(entry, db1) := updateEntry id validatedData now db in
            match entry with
            | Some entry => (Json 200 entry, (moderateEntry id "pending" now' db1).2)
            | None => (Message 404 "Entry not found", db1)
            end
        end
  end.

(** DELETE /api/entries/:id *)
Definition delete_api_entries_id (userId id : string) (db : Store)
  : Reply WikiEntry.t * Store :=
  match getEntry db id with
  | None => (Message 404 "Entry not found", db)
  | Some existingEntry =>
      if decide (WikiEntry.userId existingEntry ≠ userId)
      then (Message 403 "Forbidden - You can only delete your own entries", db)
      else (Sent 204, deleteEntry id db)
  end.

(** GET /api/admin/entries *)
Definition get_api_admin_entries (db : Store)
  : Reply (list (WikiEntry.t * User.t)) :=
  Json 200 (getAllEntriesWithUsers db).

(** [[..].includes(req.body.<key>)]: the property is one of the listed
    strings. *)
Definition one_of (allowed : list string) (v : option jval) : option string :=
  match v with
  | Some (JStr s) => if decide (s ∈ allowed) then Some s else None
  | _ => None
  end.

(** PATCH /api/admin/entries/:id/verify *)
Definition patch_api_admin_entries_id_verify (id : string) (reqBody : body)
    (now : Z) (db : Store) : Reply WikiEntry.t * Store :=
  match one_of ["verified"; "fake"; "unknown"] (reqBody !! "verification") with
  | None => (Message 400 "Invalid verification status", db)
  | Some verification =>
      let '(entry, db') := setEntryVerification id verification now db in
      match entry with
      | None => (Message 404 "Entry not found", db')
      | Some entry => (Json 200 entry, db')
      end
  end.

(** PATCH /api/admin/entries/:id/moderate *)
Definition patch_api_admin_entries_id_moderate (id : string) (reqBody : body)
    (now : Z) (db : Store) : Reply WikiEntry.t * Store :=
  match one_of ["approved"; "pending"; "rejected"] (reqBody !! "status") with
  | None => (Message 400 "Invalid status", db)
  | Some status =>
      let '(entry, db') := moderateEntry id status now db in
      match entry with
      | None => (Message 404 "Entry not found", db')
      | Some entry => (Json 200 entry, db')
      end
  end.

(** DELETE /api/admin/entries/:id *)
Definition delete_api_admin_entries_id (id : string) (db : Store)
  : Reply WikiEntry.t * Store :=
  (Sent 204, deleteEntryAdmin id db).

(** POST /api/likes. [entryId] is [req.body.entryId] when it is a string
    and [None] when the property is missing; another JSON value is
    answered with 400 before [createLike] is reached and is not
    modelled. *)
Definition post_api_likes (unique : bool) (userId : string)
    (entryId : option string) (newId : string) (now : Z) (db : Store)
  : Reply Like.t * Store :=
  match entryId with
  | None => (Message 400 "Entry ID required", db)
  | Some entryId =>
      if decide (entryId = EmptyString)
      then (Message 400 "Entry ID required", db)
      else if userLikesEntry db entryId userId
      then (Message 400 "Already liked this entry", db)
      else
        match insertLikeSchema
                {[ "entryId" := JStr entryId; "userId" := JStr userId ]} with
        | None => (Message 400 "Invalid like data", db)
        | Some validatedData =>
            match createLike unique validatedData newId now db with
            | DbOk (like, db') => (Json 201 like, db')
            | DbError => (Message 500 "Failed to create like", db)
            end
        end
  end.

(** DELETE /api/likes/:entryId; the payload is [{ success: true }]. *)
Definition delete_api_likes_entryId (userId entryId : string) (db : Store)
  : Reply bool * Store :=
  (Json 200 true, removeLike entryId userId db).

(** GET /api/entries/:entryId/likes *)
Definition get_api_entries_entryId_likes (entryId : string) (db : Store)
  : Reply (list Like.t) :=
  Json 200 (getLikes db entryId).

(** GET /api/special/:entryId?token=.. *)
Definition get_api_special_entryId (entryId : string) (token : option string)
    (db : Store) : Reply WikiEntry.t :=
  match getSpecialPost db entryId token with
  | None => Message 404 "Entry not found or access denied"
  | Some entry => Json 200 entry
  end.

(** The token the special route draws. *)
Definition new_token (entropy : nat → byte) : string :=
  toString_hex (randomBytes 32 entropy).

(** PATCH /api/entries/:id/special. [isSpecial] is [req.body.isSpecial]
    when it is a boolean and [None] when the property is missing. *)
Definition patch_api_entries_id_special (userId id : string)
    (isSpecial : option bool) (entropy : nat → byte) (now : Z) (db : Store)
  : Reply WikiEntry.t * Store :=
  match getEntry db id with
  | None => (Message 404 "Entry not found", db)
  | Some existingEntry =>
      if decide (WikiEntry.userId existingEntry ≠ userId)
      then (Message 403 "Forbidden", db)
      else
        let specialAccessToken :=
          if default false isSpecial then Some (new_token entropy) else None in
        let '(updatedEntry, db') :=
          updateEntry id
            (mkUpdateWikiEntry None None None None isSpecial
               (Some <$> specialAccessToken)) now db in
        match updatedEntry with
        | None => (Message 500 "Failed to update entry", db')
        | Some updatedEntry => (Json 200 updatedEntry, db')
        end
  end.

(** POST /api/admin/users/:userId/unban *)
Definition post_api_admin_users_userId_unban (userId : string) (now : Z)
    (db : Store) : Reply User.t * Store :=
  let '(user, db') := unbanUser userId now db in
  match user with
  | None => (Message 404 "User not found", db')
  | Some user => (Json 200 user, db')
  end.

(** DELETE /api/admin/users/:userId *)
Definition delete_api_admin_users_userId (userId : string) (db : Store)
  : Reply bool * Store :=
  (Json 200 true, deleteUser userId db).

(** A [Date] holds a time of at most 8.64e15 ms on either side of the
    epoch; [new Date(t)] for any other [t] is the Invalid Date. *)
Definition valid_date (t : Z) : Prop :=
  -8640000000000000 ≤ t ≤ 8640000000000000.

(** What the update can write to a timestamp column: null or a valid
    [Date]. Given the Invalid Date the statement throws before anything is
    written. *)
Definition storable (date : option Z) : bool :=
  match date with
  | Some t => bool_decide (valid_date t)
  | None => true
  end.


(** POST /api/admin/users/:userId/ban, for a [reason] that is a string and
    [hours] that is an integer; [now] is [Date.now()], [now'] the clock of
    the update. A missing or empty reason is refused; [hours] that is
    missing, zero or negative makes the ban permanent; [hours] so large
    that [new Date(..)] is the Invalid Date make [banUser] throw, and the
    [catch] answers. *)
Definition post_api_admin_users_userId_ban (userId : string)
    (reason : option string) (hours : option Z) (now now' : Z) (db : Store)
  : Reply User.t * Store :=
  match reason with
  | None => (Message 400 "Ban reason is required", db)
  | Some reason =>
      if decide (reason = EmptyString)
      then (Message 400 "Ban reason is required", db)
      else
        let bannedUntil :=
          match hours with
          | Some hours =>
              if decide (hours ≠ 0 ∧ hours > 0)
              then Some (now + hours * 60 * 60 * 1000)
              else None
          | None => None
          end in
        if negb (storable bannedUntil)
        then (Message 500 "Failed to ban user", db)
        else
          let '(user, db') := banUser userId reason bannedUntil now' db in
          match user with
          | None => (Message 404 "User not found", db')
          | Some user => (Json 200 user, db')
          end
  end.

(** ** The server as a transition system over the store *)

Inductive Request : Type :=
| PostEntries (userId : string) (reqBody : body) (newId : string) (now : Z)
| PatchEntry (userId id : string) (reqBody : body) (now now' : Z)
| DeleteEntry (userId id : string)
| AdminVerify (id : string) (reqBody : body) (now : Z)
| AdminModerate (id : string) (reqBody : body) (now : Z)
| AdminDeleteEntry (id : string)
| PostLikes (userId : string) (entryId : option string) (newId : string) (now : Z)
| DeleteLikes (userId entryId : string)
| PatchSpecial (userId id : string) (isSpecial : option bool)
    (entropy : nat → byte) (now : Z)
| AdminBan (userId : string) (reason : option string) (hours : option Z)
    (now now' : Z)
| AdminUnban (userId : string) (now : Z)
| AdminDeleteUser (userId : string)
| CheckBanned (userId : string) (now now' : Z).

(** The store a request leaves behind. *)
Definition handle (unique : bool) (r : Request) (db : Store) : Store :=
  match r with
  | PostEntries userId reqBody newId now =>
      (post_api_entries userId reqBody newId now db).2
  | PatchEntry userId id reqBody now now' =>
      (patch_api_entries_id userId id reqBody now now' db).2
  | DeleteEntry userId id => (delete_api_entries_id userId id db).2
  | AdminVerify id reqBody now =>
      (patch_api_admin_entries_id_verify id reqBody now db).2
  | AdminModerate id reqBody now =>
      (patch_api_admin_entries_id_moderate id reqBody now db).2
  | AdminDeleteEntry id => (delete_api_admin_entries_id id db).2
  | PostLikes userId entryId newId now =>
      (post_api_likes unique userId entryId newId now db).2
  | DeleteLikes userId entryId => (delete_api_likes_entryId userId entryId db).2
  | PatchSpecial userId id isSpecial entropy now =>
      (patch_api_entries_id_special userId id isSpecial entropy now db).2
  | AdminBan userId reason hours now now' =>
      (post_api_admin_users_userId_ban userId reason hours now now' db).2
  | AdminUnban userId now => (post_api_admin_users_userId_unban userId now db).2
  | AdminDeleteUser userId => (delete_api_admin_users_userId userId db).2
  | CheckBanned userId now now' => (checkUserBanned userId now now' db).2
  end.

(** Requests served one after another, each to its end before the next
    begins. *)
Definition run (unique : bool) (rs : list Request) (db : Store) : Store :=
  foldl (λ db r, handle unique r db) db rs.

(** At most one like per (entry, user) pair. *)
Definition like_pair (l : Like.t) : string * string :=
  (Like.entryId l, Like.userId l).

Definition likes_unique (db : Store) : Prop :=
  NoDup (like_pair <$> likes db).

(** ** Requests in flight

    The handlers are [async] and open no transaction: every [await] of a
    storage call is a point where the server may turn to another request.
    POST /api/likes awaits [userLikesEntry] and later [createLike]; it is
    cut here at the await between the two, so that the halves of several
    requests can be scheduled in any order. *)

(** What a POST /api/likes holds once [userLikesEntry] has answered: the
    reply it has given, or the validated data it goes on to insert. *)
Inductive LikeInFlight : Type :=
| Replied (reply : Reply Like.t)
| Inserting (validatedData : InsertLike).

(** POST /api/likes up to [await storage.createLike]. *)
Definition post_api_likes_check (userId : string) (entryId : option string)
    (db : Store) : LikeInFlight :=
  match entryId with
  | None => Replied (Message 400 "Entry ID required")
  | Some entryId =>
      if decide (entryId = EmptyString)
      then Replied (Message 400 "Entry ID required")
      else if userLikesEntry db entryId userId
      then Replied (Message 400 "Already liked this entry")
      else
        match insertLikeSchema
                {[ "entryId" := JStr entryId; "userId" := JStr userId ]} with
        | None => Replied (Message 400 "Invalid like data")
        | Some validatedData => Inserting validatedData
        end
  end.

(** POST /api/likes from [await storage.createLike] on, against the store
    as it is by then. *)
Definition post_api_likes_insert (unique : bool) (validatedData : InsertLike)
    (newId : string) (now : Z) (db : Store) : Reply Like.t * Store :=
  match createLike unique validatedData newId now db with
  | DbOk (like, db') => (Json 201 like, db')
  | DbError => (Message 500 "Failed to create like", db)
  end.

(** One turn of the server: a request served whole, or one half of a
    POST /api/likes, the request named by its [ticket]. *)
Inductive Step : Type :=
| Whole (r : Request)
| LikesCheck (ticket : nat) (userId : string) (entryId : option string)
| LikesInsert (ticket : nat) (newId : string) (now : Z).

(** The store, the POST /api/likes requests between their two storage
    calls, and the replies given to such requests, oldest first. *)
Record Server : Type := mkServer {
  database : Store;
  awaiting : gmap nat InsertLike;
  replies : list (nat * Reply Like.t) }.

Definition idle (db : Store) : Server := mkServer db ∅ [].

(** A [LikesInsert] for a ticket that awaits nothing is no turn at all. *)
Definition step (unique : bool) (t : Step) (s : Server) : Server :=
  match t with
  | Whole r => mkServer (handle unique r (database s)) (awaiting s) (replies s)
  | LikesCheck ticket userId entryId =>
      match post_api_likes_check userId entryId (database s) with
      | Replied reply =>
          mkServer (database s) (awaiting s) (replies s ++ [(ticket, reply)])
      | Inserting validatedData =>
          mkServer (database s) (<[ticket := validatedData]> (awaiting s))
            (replies s)
      end
  | LikesInsert ticket newId now =>
      match awaiting s !! ticket with
      | None => s
      | Some validatedData =>
          let '(reply, db') :=
            post_api_likes_insert unique validatedData newId now (database s) in
          mkServer db' (delete ticket (awaiting s))
            (replies s ++ [(ticket, reply)])
      end
  end.

(** A schedule of turns. *)
Definition interleave (unique : bool) (ts : list Step) (s : Server) : Server :=
  foldl (λ s t, step unique t s) s ts.

(** ** Read paths open to a requester without the admin capability *)

Inductive Read : Type :=
| ReadApproved
| ReadEntry (id : string)
| ReadProfile (userId : string)
| ReadSpecial (entryId : string) (token : option string).

(** The entries a read path hands out. [ReadEntry] and [ReadProfile] sit
    behind [isAuthenticated]; the other two are public. *)
Definition observed (r : Read) (db : Store) : list WikiEntry.t :=
  match r with
  | ReadApproved =>
      match get_api_entries_approved db with
      | Json _ rows => fst <$> rows
      | _ => []
      end
  | ReadEntry id =>
      match get_api_entries_id id db with
      | Json _ entry => [entry]
      | _ => []
      end
  | ReadProfile userId =>
      match get_api_profile_userId userId db with
      | Json _ profile => profile.2
      | _ => []
      end
  | ReadSpecial entryId token =>
      match get_api_special_entryId entryId token db with
      | Json _ entry => [entry]
      | _ => []
      end
  end.

(** The token a read supplies, if any. *)
Definition supplied_token (r : Read) : option string :=
  match r with
  | ReadSpecial _ token => token
  | _ => None
  end.

(** ** Sample data *)

Definition sample_user (id : string) : User.t :=
  User.mk id None None None None None None None None false "user" (Some "none")
    false None None (Some 0) (Some 0).

Definition sample_banned (id : string) (bannedUntil : option Z) : User.t :=
  User.mk id None None None None None None None None false "user" (Some "none")
    true bannedUntil (Some "spam") (Some 0) (Some 50).

Definition sample_entry (id userId status : string) (isSpecial : bool)
    (token : option string) : WikiEntry.t :=
  WikiEntry.mk id userId "Title" "Text" None status (Some "unknown") isSpecial
    token (Some 10) (Some 10).

Definition two_users : Store :=
  mkStore [sample_user "alice"; sample_user "bob"] [] [].

Definition with_entry (e : WikiEntry.t) : Store :=
  mkStore [sample_user "alice"; sample_user "bob"] [e] [].

Definition with_banned (u : User.t) : Store :=
  mkStore [sample_user "alice"; u] [] [].

(** ** Users: roles, badges, profile pictures, sign-in *)

Definition set_role (role : string) (now : Z) (u : User.t) : User.t :=
  User.mk (User.id u) (User.email u) (User.username u) (User.password u)
    (User.firstName u) (User.lastName u) (User.profileImageUrl u)
    (User.profileBackgroundUrl u) (User.bio u) (User.isAdmin u) role
    (User.badge u) (User.isBanned u) (User.bannedUntil u) (User.banReason u)
    (User.createdAt u) (Some now).

Definition set_badge (badge : string) (now : Z) (u : User.t) : User.t :=
  User.mk (User.id u) (User.email u) (User.username u) (User.password u)
    (User.firstName u) (User.lastName u) (User.profileImageUrl u)
    (User.profileBackgroundUrl u) (User.bio u) (User.isAdmin u) (User.role u)
    (Some badge) (User.isBanned u) (User.bannedUntil u) (User.banReason u)
    (User.createdAt u) (Some now).

Definition set_profileImageUrl (imageUrl : string) (now : Z) (u : User.t)
  : User.t :=
  User.mk (User.id u) (User.email u) (User.username u) (User.password u)
    (User.firstName u) (User.lastName u) (Some imageUrl)
    (User.profileBackgroundUrl u) (User.bio u) (User.isAdmin u) (User.role u)
    (User.badge u) (User.isBanned u) (User.bannedUntil u) (User.banReason u)
    (User.createdAt u) (Some now).

Definition set_profileBackgroundUrl (backgroundUrl : string) (now : Z)
    (u : User.t) : User.t :=
  User.mk (User.id u) (User.email u) (User.username u) (User.password u)
    (User.firstName u) (User.lastName u) (User.profileImageUrl u)
    (Some backgroundUrl) (User.bio u) (User.isAdmin u) (User.role u)
    (User.badge u) (User.isBanned u) (User.bannedUntil u) (User.banReason u)
    (User.createdAt u) (Some now).

Definition updateUserRole (userId role : string) (now : Z) (db : Store)
  : option User.t * Store :=
  update_users (set_role role now) userId db.

Definition setUserBadge (userId badge : string) (now : Z) (db : Store)
  : option User.t * Store :=
  update_users (set_badge badge now) userId db.

Definition updateProfileAvatar (userId imageUrl : string) (now : Z)
    (db : Store) : option User.t * Store :=
  update_users (set_profileImageUrl imageUrl now) userId db.

Definition updateProfileBackground (userId backgroundUrl : string) (now : Z)
    (db : Store) : option User.t * Store :=
  update_users (set_profileBackgroundUrl backgroundUrl now) userId db.

Definition getAllUsers (db : Store) : list User.t :=
  orderBy_desc User.createdAt (users db).

Definition getUserByUsername (db : Store) (username : string) : option User.t :=
  head (filter (λ u, User.username u = Some username) (users db)).

(** [typeof users.$inferInsert]: every column may be left undefined. *)
Record UpsertUser : Type := mkUpsertUser {
  up_id : option string;
  up_email : option (option string);
  up_username : option (option string);
  up_password : option (option string);
  up_firstName : option (option string);
  up_lastName : option (option string);
  up_profileImageUrl : option (option string);
  up_profileBackgroundUrl : option (option string);
  up_bio : option (option string);
  up_isAdmin : option bool;
  up_role : option string;
  up_badge : option (option string);
  up_isBanned : option bool;
  up_bannedUntil : option (option Z);
  up_banReason : option (option string);
  up_createdAt : option (option Z);
  up_updatedAt : option (option Z) }.

(** The row [db.insert(users).values(userData)] proposes. *)
Definition user_row (userData : UpsertUser) (newId : string) (now : Z)
  : User.t :=
  User.mk (default newId (up_id userData))
    (default None (up_email userData))
    (default None (up_username userData))
    (default None (up_password userData))
    (default None (up_firstName userData))
    (default None (up_lastName userData))
    (default None (up_profileImageUrl userData))
    (default None (up_profileBackgroundUrl userData))
    (default None (up_bio userData))
    (default false (up_isAdmin userData))
    (default "user" (up_role userData))
    (default (Some "none") (up_badge userData))
    (default false (up_isBanned userData))
    (default None (up_bannedUntil userData))
    (default None (up_banReason userData))
    (default (Some now) (up_createdAt userData))
    (default (Some now) (up_updatedAt userData)).

(** The [set] of [onConflictDoUpdate]: email, names and picture when the
    payload defines them, [isAdmin] when it defines it and the stored flag
    otherwise, and the time. *)
Definition set_signin (userData : UpsertUser) (now : Z) (u : User.t) : User.t :=
  User.mk (User.id u)
    (default (User.email u) (up_email userData))
    (User.username u) (User.password u)
    (default (User.firstName u) (up_firstName userData))
    (default (User.lastName u) (up_lastName userData))
    (default (User.profileImageUrl u) (up_profileImageUrl userData))
    (User.profileBackgroundUrl u) (User.bio u)
    (default (User.isAdmin u) (up_isAdmin userData))
    (User.role u) (User.badge u) (User.isBanned u) (User.bannedUntil u)
    (User.banReason u) (User.createdAt u) (Some now).

(** [email] is declared unique: writing a non-null email that another row
    holds is refused. *)
Definition email_taken (db : Store) (id : string) (email : option string)
  : Prop :=
  ∃ m, email = Some m
       ∧ Exists (λ u, User.id u ≠ id ∧ User.email u = Some m) (users db).

#[global] Instance email_taken_dec db id email : Decision (email_taken db id email).
Proof.
  unfold email_taken. destruct email as [m|].
  - destruct (decide (Exists (λ u, User.id u ≠ id ∧ User.email u = Some m)
                        (users db))) as [H|H].
    + left. by exists m.
    + right. by intros (m' & [= <-] & H').
  - right. by intros (m & [=] & _).
Defined.

(** [newId] is the default of the id column, used when the payload has no
    id. A row with the proposed id is updated, otherwise the proposed row
    is inserted. *)
Definition upsertUser (userData : UpsertUser) (newId : string) (now : Z)
    (db : Store) : DbResult (User.t * Store) :=
  let id := default newId (up_id userData) in
  match getUser db id with
  | Some existing =>
      if decide (email_taken db id (default None (up_email userData)))
      then DbError
      else DbOk (set_signin userData now existing,
                 (update_users (set_signin userData now) id db).2)
  | None =>
      let user := user_row userData newId now in
      if decide (email_taken db id (default None (up_email userData)))
      then DbError
      else DbOk (user, mkStore (users db ++ [user]) (wikiEntries db) (likes db))
  end.

(** PATCH /api/admin/users/:id/role *)
Definition patch_api_admin_users_id_role (id : string) (reqBody : body)
    (now : Z) (db : Store) : Reply User.t * Store :=
  match one_of ["user"; "moderator"; "admin"] (reqBody !! "role") with
  | None => (Message 400 "Invalid role", db)
  | Some role =>
      let '(user, db') := updateUserRole id role now db in
      match user with
      | None => (Message 404 "User not found", db')
      | Some user => (Json 200 user, db')
      end
  end.

(** PATCH /api/admin/users/:id/badge *)
Definition patch_api_admin_users_id_badge (id : string) (reqBody : body)
    (now : Z) (db : Store) : Reply User.t * Store :=
  match one_of ["green_check"; "red_check"; "black_check"; "none"]
          (reqBody !! "badge") with
  | None => (Message 400 "Invalid badge type", db)
  | Some badge =>
      let '(user, db') := setUserBadge id badge now db in
      match user with
      | None => (Message 404 "User not found", db')
      | Some user => (Json 200 user, db')
      end
  end.

(** PATCH /api/user/avatar, for an [imageUrl] that is a string or missing.
    The reply is the row the update returned, or nothing. *)
Definition patch_api_user_avatar (userId : string) (imageUrl : option string)
    (now : Z) (db : Store) : Reply (option User.t) * Store :=
  match imageUrl with
  | None => (Message 400 "Image URL required", db)
  | Some imageUrl =>
      if decide (imageUrl = EmptyString)
      then (Message 400 "Image URL required", db)
      else
        let '(user, db') := updateProfileAvatar userId imageUrl now db in
        (Json 200 user, db')
  end.

(** PATCH /api/user/background *)
Definition patch_api_user_background (userId : string)
    (backgroundUrl : option string) (now : Z) (db : Store)
  : Reply (option User.t) * Store :=
  match backgroundUrl with
  | None => (Message 400 "Background URL required", db)
  | Some backgroundUrl =>
      if decide (backgroundUrl = EmptyString)
      then (Message 400 "Background URL required", db)
      else
        let '(user, db') :=
          updateProfileBackground userId backgroundUrl now db in
        (Json 200 user, db')
  end.

(** GET /api/auth/user: [userId] is the signed-in user, if any. *)
Definition get_api_auth_user (userId : option string) (db : Store)
  : Reply (option User.t) :=
  match userId with
  | None => Json 200 None
  | Some userId => Json 200 (getUser db userId)
  end.

(** ** Gallery images, content reports and comments

    The three remaining tables, the storage methods on them and their
    routes. [Database] is the store of the entries, users and likes
    together with these tables. *)

Module UserImage.
Record t : Type := mk {
  id : string;
  userId : string;
  imageUrl : string;
  fileName : option string;
  createdAt : option Z }.
End UserImage.

Module ContentReport.
Record t : Type := mk {
  id : string;
  entryId : string;
  reporterId : string;
  reason : string;
  description : option string;
  status : string;
  createdAt : option Z;
  updatedAt : option Z }.
End ContentReport.

Module Comment.
Record t : Type := mk {
  id : string;
  entryId : string;
  userId : string;
  content : string;
  createdAt : option Z;
  updatedAt : option Z }.
End Comment.

Record Database : Type := mkDatabase {
  store : Store;
  userImages : list UserImage.t;
  contentReports : list ContentReport.t;
  comments : list Comment.t }.

(** A JavaScript value in a condition. *)
Definition truthy (v : option jval) : bool :=
  match v with
  | None | Some JNull => false
  | Some (JBool b) => b
  | Some (JNum n) => bool_decide (n ≠ 0)
  | Some (JStr s) => bool_decide (s ≠ EmptyString)
  | Some JCompound => true
  end.

(** [{ k1, k2, .. }] built from properties destructured off the body: a
    property the body lacks is undefined in the object. *)
Definition pick (keys : list string) (b : body) : body :=
  filter (λ kv, kv.1 ∈ keys) b.

Record InsertContentReport : Type := mkInsertContentReport {
  ir_entryId : string;
  ir_reporterId : string;
  ir_reason : string;
  ir_description : option (option string) }.

(** [createInsertSchema(contentReports)
      .omit({ id, status, createdAt, updatedAt })] *)
Definition insertContentReportSchema (b : body) : option InsertContentReport :=
  entryId ← required (z_string None) "entryId" b;
  reporterId ← required (z_string None) "reporterId" b;
  reason ← required (z_string (Some 100%nat)) "reason" b;
  description ← optional (z_nullable (z_string None)) "description" b;
  Some (mkInsertContentReport entryId reporterId reason description).

Record InsertComment : Type := mkInsertComment {
  ic_entryId : string;
  ic_userId : string;
  ic_content : string }.

(** [createInsertSchema(comments).omit({ id, createdAt, updatedAt })] *)
Definition insertCommentSchema (b : body) : option InsertComment :=
  entryId ← required (z_string None) "entryId" b;
  userId ← required (z_string None) "userId" b;
  content ← required (z_string None) "content" b;
  Some (mkInsertComment entryId userId content).

(** *** Gallery *)

Definition addUserImage (userId imageUrl : string) (fileName : option string)
    (newId : string) (now : Z) (d : Database)
  : DbResult (UserImage.t * Database) :=
  if decide (is_Some (first_with UserImage.id newId (userImages d)))
  then DbError
  else if decide (getUser (store d) userId = None) then DbError
  else
    let image := UserImage.mk newId userId imageUrl fileName (Some now) in
    DbOk (image,
          mkDatabase (store d) (userImages d ++ [image]) (contentReports d)
            (comments d)).

Definition getUserImages (d : Database) (userId : string) : list UserImage.t :=
  orderBy_desc UserImage.createdAt
    (filter (λ i, UserImage.userId i = userId) (userImages d)).

Definition deleteUserImage (imageId : string) (d : Database) : Database :=
  mkDatabase (store d)
    (filter (λ i, UserImage.id i ≠ imageId) (userImages d))
    (contentReports d) (comments d).

(** *** Reports *)

Definition createReport (reportData : InsertContentReport) (newId : string)
    (now : Z) (d : Database) : DbResult (ContentReport.t * Database) :=
  if decide (is_Some (first_with ContentReport.id newId (contentReports d)))
  then DbError
  else if decide (getEntry (store d) (ir_entryId reportData) = None)
  then DbError
  else if decide (getUser (store d) (ir_reporterId reportData) = None)
  then DbError
  else
    let report :=
      ContentReport.mk newId (ir_entryId reportData)
        (ir_reporterId reportData) (ir_reason reportData)
        (default None (ir_description reportData)) "pending" (Some now)
        (Some now) in
    DbOk (report,
          mkDatabase (store d) (userImages d) (contentReports d ++ [report])
            (comments d)).

(** A report with the entry it is about, that entry's owner and the
    reporter, each as the lookup found it. *)
Definition getReports (d : Database) (status : option string)
  : list (ContentReport.t * option WikiEntry.t * option User.t * option User.t) :=
  let filtered :=
    if truthy (JStr <$> status)
    then filter (λ r, Some (ContentReport.status r) = status) (contentReports d)
    else contentReports d in
  (λ report,
     let entry := getEntry (store d) (ContentReport.entryId report) in
     let entryUser := entry ≫= (λ e, getUser (store d) (WikiEntry.userId e)) in
     let reporter := getUser (store d) (ContentReport.reporterId report) in
     (report, entry, entryUser, reporter))
  <$> orderBy_desc ContentReport.createdAt filtered.

Definition getReportsByEntry (d : Database) (entryId : string)
  : list ContentReport.t :=
  orderBy_desc ContentReport.createdAt
    (filter (λ r, ContentReport.entryId r = entryId) (contentReports d)).

Definition set_report_status (status : string) (now : Z) (r : ContentReport.t)
  : ContentReport.t :=
  ContentReport.mk (ContentReport.id r) (ContentReport.entryId r)
    (ContentReport.reporterId r) (ContentReport.reason r)
    (ContentReport.description r) status (ContentReport.createdAt r)
    (Some now).


(** What a [varchar(n)] column takes for a value assigned to it: the value
    itself when it has at most [n] characters, its first [n] characters
    when all the others are spaces, and nothing otherwise: the statement
    throws. *)
Definition varchar (n : nat) (s : string) : option string :=
  let cs := list_ascii_of_string s in
  if decide (length cs ≤ n)%nat then Some s
  else if decide (Forall (λ c, c = " "%char) (drop n cs))
  then Some (string_of_list_ascii (take n cs))
  else None.

(** The column is [varchar("status", { length: 50 })]. *)
Definition updateReportStatus (reportId status : string) (now : Z)
    (d : Database) : DbResult (option ContentReport.t * Database) :=
  match varchar 50 status with
  | Some status =>
      DbOk (set_report_status status now
              <$> first_with ContentReport.id reportId (contentReports d),
            mkDatabase (store d) (userImages d)
              (rewrite_with ContentReport.id (set_report_status status now)
                 reportId (contentReports d))
              (comments d))
  | None => DbError
  end.

Definition deleteReport (reportId : string) (d : Database) : Database :=
  mkDatabase (store d) (userImages d)
    (filter (λ r, ContentReport.id r ≠ reportId) (contentReports d))
    (comments d).

(** *** Comments *)

Definition createComment (comment : InsertComment) (newId : string) (now : Z)
    (d : Database) : DbResult (Comment.t * Database) :=
  if decide (is_Some (first_with Comment.id newId (comments d))) then DbError
  else if decide (getEntry (store d) (ic_entryId comment) = None) then DbError
  else if decide (getUser (store d) (ic_userId comment) = None) then DbError
  else
    let newComment :=
      Comment.mk newId (ic_entryId comment) (ic_userId comment)
        (ic_content comment) (Some now) (Some now) in
    DbOk (newComment,
          mkDatabase (store d) (userImages d) (contentReports d)
            (comments d ++ [newComment])).

(** [leftJoin(users, ..)]: a comment with its author's row, if there is
    one. *)
Definition getComments (d : Database) (entryId : string)
  : list (Comment.t * option User.t) :=
  (λ c, (c, getUser (store d) (Comment.userId c)))
  <$> orderBy_desc Comment.createdAt
        (filter (λ c, Comment.entryId c = entryId) (comments d)).

Definition deleteComment (commentId : string) (d : Database) : Database :=
  mkDatabase (store d) (userImages d) (contentReports d)
    (filter (λ c, Comment.id c ≠ commentId) (comments d)).

(** *** Cascades over the whole database *)

Module Full.

(** Deleting an entry takes its reports, comments and likes with it. *)
Definition deleteEntry (id : string) (d : Database) : Database :=
  mkDatabase (deleteEntry id (store d)) (userImages d)
    (filter (λ r, ContentReport.entryId r ≠ id) (contentReports d))
    (filter (λ c, Comment.entryId c ≠ id) (comments d)).

(** Deleting a user takes the user's images, entries, reports, comments
    and likes with it, and then what hangs on the deleted entries. *)
Definition deleteUser (userId : string) (d : Database) : Database :=
  let gone :=
    WikiEntry.id
      <$> filter (λ e, WikiEntry.userId e = userId) (wikiEntries (store d)) in
  mkDatabase (deleteUser userId (store d))
    (filter (λ i, UserImage.userId i ≠ userId) (userImages d))
    (filter (λ r, ContentReport.reporterId r ≠ userId
                  ∧ ContentReport.entryId r ∉ gone) (contentReports d))
    (filter (λ c, Comment.userId c ≠ userId ∧ Comment.entryId c ∉ gone)
       (comments d)).

End Full.

(** *** Routes *)

(** GET /api/user/gallery *)
Definition get_api_user_gallery (userId : string) (d : Database)
  : Reply (list UserImage.t) :=
  Json 200 (getUserImages d userId).

(** POST /api/user/gallery, for [imageUrl] and [fileName] that are strings
    or missing. *)
Definition post_api_user_gallery (userId : string) (imageUrl : option string)
    (fileName : option string) (newId : string) (now : Z) (d : Database)
  : Reply UserImage.t * Database :=
  match imageUrl with
  | None => (Message 400 "Image URL required", d)
  | Some imageUrl =>
      if decide (imageUrl = EmptyString)
      then (Message 400 "Image URL required", d)
      else
        match addUserImage userId imageUrl fileName newId now d with
        | DbOk (image, d') => (Json 201 image, d')
        | DbError => (Message 500 "Failed to add image", d)
        end
  end.

(** DELETE /api/user/gallery/:imageId *)
Definition delete_api_user_gallery_imageId (userId imageId : string)
    (d : Database) : Reply UserImage.t * Database :=
  let images := getUserImages d userId in
  match list_find (λ img, UserImage.id img = imageId) images with
  | None => (Message 403 "Forbidden - This image doesn't belong to you", d)
  | Some _ => (Sent 204, deleteUserImage imageId d)
  end.

(** POST /api/reports *)
Definition post_api_reports (userId : string) (reqBody : body) (newId : string)
    (now : Z) (d : Database) : Reply ContentReport.t * Database :=
  if negb (truthy (reqBody !! "entryId")) || negb (truthy (reqBody !! "reason"))
  then (Message 400 "Entry ID and reason are required", d)
  else
    match insertContentReportSchema
            (<["reporterId" := JStr userId]>
               (pick ["entryId"; "reason"; "description"] reqBody)) with
    | None => (Message 400 "Invalid report data", d)
    | Some validatedData =>
        match createReport validatedData newId now d with
        | DbOk (report, d') => (Json 201 report, d')
        | DbError => (Message 500 "Failed to create report", d)
        end
    end.

(** GET /api/admin/reports?status=.. *)
Definition get_api_admin_reports (status : option string) (d : Database)
  : Reply (list (ContentReport.t * option WikiEntry.t * option User.t
                 * option User.t)) :=
  Json 200 (getReports d status).

(** PATCH /api/admin/reports/:id/status, for a [status] that is a string
    or missing. No list of statuses is consulted; a status the column
    cannot hold ends in the [catch]. *)
Definition patch_api_admin_reports_id_status (id : string)
    (status : option string) (now : Z) (d : Database)
  : Reply ContentReport.t * Database :=
  match status with
  | None => (Message 400 "Status is required", d)
  | Some status =>
      if decide (status = EmptyString)
      then (Message 400 "Status is required", d)
      else
        match updateReportStatus id status now d with
        | DbOk (None, d') => (Message 404 "Report not found", d')
        | DbOk (Some report, d') => (Json 200 report, d')
        | DbError => (Message 500 "Failed to update report", d)
        end
  end.

(** POST /api/comments *)
Definition post_api_comments (userId : string) (reqBody : body)
    (newId : string) (now : Z) (d : Database) : Reply Comment.t * Database :=
  if negb (truthy (reqBody !! "entryId")) || negb (truthy (reqBody !! "content"))
  then (Message 400 "Entry ID and content required", d)
  else
    match insertCommentSchema
            (<["userId" := JStr userId]> (pick ["entryId"; "content"] reqBody))
    with
    | None => (Message 400 "Invalid comment data", d)
    | Some validatedData =>
        match createComment validatedData newId now d with
        | DbOk (comment, d') => (Json 201 comment, d')
        | DbError => (Message 500 "Failed to create comment", d)
        end
    end.

(** GET /api/entries/:entryId/comments *)
Definition get_api_entries_entryId_comments (entryId : string) (d : Database)
  : Reply (list (Comment.t * option User.t)) :=
  Json 200 (getComments d entryId).

(** DELETE /api/comments/:commentId. The handler reads the comments of
    the entry with the empty id, uses neither that list nor [userId], and
    deletes. *)
Definition delete_api_comments_commentId (userId commentId : string)
    (d : Database) : Reply bool * Database :=
  let comment := getComments d EmptyString in
  (Json 200 true, deleteComment commentId d).

(** The entry and user routes that delete, over the whole database. *)
Definition delete_api_entries_id_full (userId id : string) (d : Database)
  : Reply WikiEntry.t * Database :=
  match getEntry (store d) id with
  | None => (Message 404 "Entry not found", d)
  | Some existingEntry =>
      if decide (WikiEntry.userId existingEntry ≠ userId)
      then (Message 403 "Forbidden - You can only delete your own entries", d)
      else (Sent 204, Full.deleteEntry id d)
  end.

Definition delete_api_admin_entries_id_full (id : string) (d : Database)
  : Reply WikiEntry.t * Database :=
  (Sent 204, Full.deleteEntry id d).

Definition delete_api_admin_users_userId_full (userId : string) (d : Database)
  : Reply bool * Database :=
  (Json 200 true, Full.deleteUser userId d).

(** ** Integrity constraints of the modelled tables *)

(** The primary keys: no two rows of a table share an id. *)
Definition keys_unique (db : Store) : Prop :=
  NoDup (User.id <$> users db)
  ∧ NoDup (WikiEntry.id <$> wikiEntries db)
  ∧ NoDup (Like.id <$> likes db).

(** The foreign keys: an entry's owner, and a like's entry and user, are
    rows of the store. *)
Definition references_ok (db : Store) : Prop :=
  (∀ e, e ∈ wikiEntries db → WikiEntry.userId e ∈ User.id <$> users db)
  ∧ (∀ l, l ∈ likes db →
       Like.entryId l ∈ WikiEntry.id <$> wikiEntries db
       ∧ Like.userId l ∈ User.id <$> users db).

(** The order the listing queries promise. *)
Definition newest_first {A} (key : A → option Z) (rows : list A) : Prop :=
  StronglySorted (λ r1 r2, newer_first (key r1) (key r2)) rows.

(** The requests that delete entries or users. *)
Definition deleting (r : Request) : bool :=
  match r with
  | DeleteEntry _ _ | AdminDeleteEntry _ | AdminDeleteUser _ => true
  | _ => false
  end.

(** The elementary writes of the storage layer, and their sequences: an
    update of entries or users that keeps ids and owners, an insert the
    database accepts, the removal of a like and, when [dels] allows it, a
    cascading delete of an entry or a user. *)
Inductive writes (dels : bool) : Store → Store → Prop :=
| writes_nothing db : writes dels db db
| writes_entries f id db :
    (∀ e, WikiEntry.id (f e) = WikiEntry.id e) →
    (∀ e, WikiEntry.userId (f e) = WikiEntry.userId e) →
    writes dels db (update_entries f id db).2
| writes_users f id db :
    (∀ u, User.id (f u) = User.id u) →
    writes dels db (update_users f id db).2
| writes_new_entry e db :
    getEntry db (WikiEntry.id e) = None →
    getUser db (WikiEntry.userId e) ≠ None →
    writes dels db (mkStore (users db) (wikiEntries db ++ [e]) (likes db))
| writes_new_like l db :
    ¬ Exists (λ l', Like.id l' = Like.id l) (likes db) →
    getEntry db (Like.entryId l) ≠ None →
    getUser db (Like.userId l) ≠ None →
    writes dels db (mkStore (users db) (wikiEntries db) (likes db ++ [l]))
| writes_removeLike entryId userId db :
    writes dels db (removeLike entryId userId db)
| writes_deleteEntry id db :
    dels = true → writes dels db (deleteEntry id db)
| writes_deleteUser id db :
    dels = true → writes dels db (deleteUser id db)
| writes_new_user u db :
    getUser db (User.id u) = None →
    writes dels db (mkStore (users db ++ [u]) (wikiEntries db) (likes db))
| writes_then db1 db2 db3 :
    writes dels db1 db2 → writes dels db2 db3 → writes dels db1 db3.

(** ** The server over the whole database *)

Inductive DbRequest : Type :=
| Core (r : Request)
| AdminRole (id : string) (reqBody : body) (now : Z)
| AdminBadge (id : string) (reqBody : body) (now : Z)
| Avatar (userId : string) (imageUrl : option string) (now : Z)
| Background (userId : string) (backgroundUrl : option string) (now : Z)
| SignIn (userData : UpsertUser) (newId : string) (now : Z)
| PostGallery (userId : string) (imageUrl fileName : option string)
    (newId : string) (now : Z)
| DeleteGallery (userId imageId : string)
| PostReports (userId : string) (reqBody : body) (newId : string) (now : Z)
| AdminReportStatus (id : string) (status : option string) (now : Z)
| PostComments (userId : string) (reqBody : body) (newId : string) (now : Z)
| DeleteComments (userId commentId : string).

(** A request that only concerns users, entries and likes. *)
Definition on_store (f : Store → Store) (d : Database) : Database :=
  mkDatabase (f (store d)) (userImages d) (contentReports d) (comments d).

(** The store a sign-in leaves: as [upsertUser] wrote it, or untouched
    when the database refused. *)
Definition signed_in (userData : UpsertUser) (newId : string) (now : Z)
    (db : Store) : Store :=
  match upsertUser userData newId now db with
  | DbOk (_, db') => db'
  | DbError => db
  end.

(** The database a request leaves behind; the three deleting routes
    cascade over all tables. *)
Definition handle_db (unique : bool) (r : DbRequest) (d : Database)
  : Database :=
  match r with
  | Core (DeleteEntry userId id) => (delete_api_entries_id_full userId id d).2
  | Core (AdminDeleteEntry id) => (delete_api_admin_entries_id_full id d).2
  | Core (AdminDeleteUser userId) =>
      (delete_api_admin_users_userId_full userId d).2
  | Core r => on_store (handle unique r) d
  | AdminRole id reqBody now =>
      on_store (λ db, (patch_api_admin_users_id_role id reqBody now db).2) d
  | AdminBadge id reqBody now =>
      on_store (λ db, (patch_api_admin_users_id_badge id reqBody now db).2) d
  | Avatar userId imageUrl now =>
      on_store (λ db, (patch_api_user_avatar userId imageUrl now db).2) d
  | Background userId backgroundUrl now =>
      on_store
        (λ db, (patch_api_user_background userId backgroundUrl now db).2) d
  | SignIn userData newId now => on_store (signed_in userData newId now) d
  | PostGallery userId imageUrl fileName newId now =>
      (post_api_user_gallery userId imageUrl fileName newId now d).2
  | DeleteGallery userId imageId =>
      (delete_api_user_gallery_imageId userId imageId d).2
  | PostReports userId reqBody newId now =>
      (post_api_reports userId reqBody newId now d).2
  | AdminReportStatus id status now =>
      (patch_api_admin_reports_id_status id status now d).2
  | PostComments userId reqBody newId now =>
      (post_api_comments userId reqBody newId now d).2
  | DeleteComments userId commentId =>
      (delete_api_comments_commentId userId commentId d).2
  end.

(** Requests served one after another, as in [run]. *)
Definition run_db (unique : bool) (rs : list DbRequest) (d : Database)
  : Database :=
  foldl (λ d r, handle_db unique r d) d rs.

(** The foreign keys of all six tables. *)
Definition references_ok_db (d : Database) : Prop :=
  references_ok (store d)
  ∧ (∀ i, i ∈ userImages d →
       UserImage.userId i ∈ User.id <$> users (store d))
  ∧ (∀ r, r ∈ contentReports d →
       ContentReport.entryId r ∈ WikiEntry.id <$> wikiEntries (store d)
       ∧ ContentReport.reporterId r ∈ User.id <$> users (store d))
  ∧ (∀ c, c ∈ comments d →
       Comment.entryId c ∈ WikiEntry.id <$> wikiEntries (store d)
       ∧ Comment.userId c ∈ User.id <$> users (store d)).

(** Every user id and entry id of the first store is one of the second. *)
Definition ids_kept (db db' : Store) : Prop :=
  (∀ k, k ∈ User.id <$> users db → k ∈ User.id <$> users db')
  ∧ (∀ k, k ∈ WikiEntry.id <$> wikiEntries db →
          k ∈ WikiEntry.id <$> wikiEntries db').

Definition sample_session : list Request :=
  [PostEntries "alice" {[ "title" := JStr "Second"; "description" := JStr "Text" ]}
     "e2" 20;
   PostLikes "bob" (Some "e2") "l1" 21;
   PostLikes "bob" (Some "e1") "l2" 22;
   AdminModerate "e2" {[ "status" := JStr "approved" ]} 23;
   DeleteEntry "alice" "e2";
   AdminDeleteUser "alice"].

(** alice owns two entries, three comments and a like; bob has an
    image, a comment and a like on alice's entries and has reported one
    of them. *)
Definition sample_database : Database :=
  mkDatabase
    (mkStore [sample_user "alice"; sample_user "bob"]
       [sample_entry "e1" "alice" "approved" false None;
        sample_entry "e2" "alice" "pending" false None;
        sample_entry "e3" "bob" "approved" false None]
       [Like.mk "l1" "e3" "alice" (Some 30); Like.mk "l2" "e1" "bob" (Some 31)])
    [UserImage.mk "i1" "bob" "b.png" None (Some 20)]
    [ContentReport.mk "r1" "e2" "bob" "spam" None "pending" (Some 40) (Some 40)]
    [Comment.mk "c1" "e1" "alice" "one" (Some 50) (Some 50);
     Comment.mk "c2" "e3" "alice" "two" (Some 51) (Some 51);
     Comment.mk "c3" "e3" "alice" "three" (Some 52) (Some 52);
     Comment.mk "c4" "e1" "bob" "four" (Some 53) (Some 53)].

(** ** Proof automation *)

(** What a request that writes no like and deletes nothing does to the
    [likes] table: nothing. *)
Ltac likes_untouched :=
  unfold likes_unique, updateEntry, moderateEntry, setEntryVerification,
    update_entries, banUser, unbanUser, update_users, createEntry in *;
  simpl;
  repeat (case_match || case_decide); simplify_eq; simpl; done.

(** Name the store an operation returns by the operation itself. *)
Ltac name_store op :=
  let o := fresh "o" in
  let s := fresh "s" in
  let H := fresh "H" in
  destruct op as [o s] eqn:H;
  apply (f_equal snd) in H; cbn [snd] in H; subst s.

(** A property of every row of a concrete table, row by row. *)
Ltac each_row :=
  let x := fresh "x" in
  let Hx := fresh "Hx" in
  intros x Hx;
  repeat (apply elem_of_cons in Hx as [->|Hx];
          [try split; apply (bool_decide_unpack _); by vm_compute|]);
  by apply elem_of_nil in Hx.

(** A decidable fact about concrete data, by evaluation. *)
Ltac by_evaluation := apply (bool_decide_unpack _); by vm_compute.

(** * Properties *)

(** ** Reading a row back after an update *)

Section Tables.
Context {A : Type} (key : A → string).

Lemma first_with_cons (k : string) (r : A) (rows : list A) :
  first_with key k (r :: rows)
  = if decide (key r = k) then Some r else first_with key k rows.
Proof. unfold first_with. rewrite filter_cons. by case_decide. Qed.

Lemma first_with_elem (k : string) (rows : list A) (r : A) :
  first_with key k rows = Some r → r ∈ rows ∧ key r = k.
Proof.
  intros Hr. apply head_Some_elem_of, list_elem_of_filter in Hr. tauto.
Qed.

Lemma first_with_None (k : string) (rows : list A) :
  first_with key k rows = None ↔ ∀ r, r ∈ rows → key r ≠ k.
Proof.
  induction rows as [|r rows IH].
  - split; [|done]. intros _ r Hr. by apply elem_of_nil in Hr.
  - rewrite first_with_cons. case_decide as Hk.
    + split; [done|]. intros H. destruct (H r); [left|done].
    + rewrite IH. split.
      * intros H r' [->|Hr]%elem_of_cons; auto.
      * intros H r' Hr. apply H. by right.
Qed.

Lemma first_with_rewrite (f : A → A) (k k' : string) (rows : list A) :
  (∀ r, key (f r) = key r) →
  first_with key k' (rewrite_with key f k rows)
  = (λ r, if decide (key r = k) then f r else r) <$> first_with key k' rows.
Proof.
  intros Hkey. induction rows as [|r rows IH]; [done|].
  unfold rewrite_with in *. rewrite fmap_cons, !first_with_cons, IH.
  destruct (decide (key r = k)) as [Hk|Hk].
  - rewrite Hkey. destruct (decide (key r = k')); [|done].
    simpl. by rewrite decide_True.
  - destruct (decide (key r = k')); [|done].
    simpl. by rewrite decide_False.
Qed.

Lemma first_with_rewrite_same (f : A → A) (k : string) (rows : list A) :
  (∀ r, key (f r) = key r) →
  first_with key k (rewrite_with key f k rows) = f <$> first_with key k rows.
Proof.
  intros Hkey. rewrite first_with_rewrite by done.
  destruct (first_with key k rows) as [r|] eqn:Hr; [|done].
  apply first_with_elem in Hr as [_ Hr].
  simpl. by rewrite decide_True.
Qed.
End Tables.

Lemma getEntry_update_entries (f : WikiEntry.t → WikiEntry.t) (id : string)
    (db : Store) :
  (∀ e, WikiEntry.id (f e) = WikiEntry.id e) →
  getEntry (update_entries f id db).2 id = f <$> getEntry db id.
Proof.
  intros Hid. apply (first_with_rewrite_same WikiEntry.id f id _ Hid).
Qed.

Lemma getUser_update_users (f : User.t → User.t) (id : string) (db : Store) :
  (∀ u, User.id (f u) = User.id u) →
  getUser (update_users f id db).2 id = f <$> getUser db id.
Proof.
  intros Hid. apply (first_with_rewrite_same User.id f id _ Hid).
Qed.

Lemma set_entry_id v now e : WikiEntry.id (set_entry v now e) = WikiEntry.id e.
Proof. done. Qed.

Lemma set_status_id s now e : WikiEntry.id (set_status s now e) = WikiEntry.id e.
Proof. done. Qed.

Lemma set_verification_id v now e :
  WikiEntry.id (set_verification v now e) = WikiEntry.id e.
Proof. done. Qed.

Lemma set_ban_id b r t now u : User.id (set_ban b r t now u) = User.id u.
Proof. done. Qed.

(** ** Editing and deleting one's entries *)

(** What a 200 reply of the edit route says about the request. *)
Lemma patch_api_entries_id_ok (db db' : Store) (userId id : string)
    (reqBody : body) (now now' : Z) (entry : WikiEntry.t) :
  patch_api_entries_id userId id reqBody now now' db = (Json 200 entry, db') →
  ∃ e v,
    getEntry db id = Some e
    ∧ WikiEntry.userId e = userId
    ∧ updateWikiEntrySchema (delete "status" reqBody) = Some v
    ∧ entry = set_entry v now e
    ∧ db' = (moderateEntry id "pending" now' (updateEntry id v now db).2).2.
Proof.
  unfold patch_api_entries_id.
  destruct (getEntry db id) as [e|] eqn:He; [|done].
  case_decide as Hown; [done|].
  destruct (updateWikiEntrySchema (delete "status" reqBody)) as [v|] eqn:Hv;
    [|done].
  unfold updateEntry at 1, update_entries at 1.
  fold (getEntry db id). rewrite He. simpl.
  intros [= <- <-]. by exists e, v.
Qed.

(** The edit route answers 200 to the owner's valid payload. *)
Lemma patch_api_entries_id_owner (db : Store) (id : string) (reqBody : body)
    (now now' : Z) (e : WikiEntry.t) (v : UpdateWikiEntry) :
  getEntry db id = Some e →
  updateWikiEntrySchema (delete "status" reqBody) = Some v →
  patch_api_entries_id (WikiEntry.userId e) id reqBody now now' db
  = (Json 200 (set_entry v now e),
     (moderateEntry id "pending" now' (updateEntry id v now db).2).2).
Proof.
  intros He Hv. unfold patch_api_entries_id. rewrite He.
  rewrite decide_False by (intros H; by apply H). rewrite Hv.
  unfold updateEntry at 1, update_entries at 1.
  fold (getEntry db id). by rewrite He.
Qed.

Lemma getEntry_after_edit (db : Store) (id : string) (v : UpdateWikiEntry)
    (now now' : Z) :
  getEntry (moderateEntry id "pending" now' (updateEntry id v now db).2).2 id
  = set_status "pending" now' <$> (set_entry v now <$> getEntry db id).
Proof.
  unfold moderateEntry, updateEntry.
  rewrite getEntry_update_entries by apply set_status_id.
  by rewrite getEntry_update_entries by apply set_entry_id.
Qed.

(** C5. Every successful content edit through PATCH /api/entries/:id (a
    200 reply, which only the entry's owner obtains) leaves the stored
    entry with status "pending", whatever its status was before and
    although the validated payload carries no status. *)
Theorem owner_edit_forces_pending (db db' : Store) (userId id : string)
    (reqBody : body) (now now' : Z) (entry : WikiEntry.t) :
  patch_api_entries_id userId id reqBody now now' db = (Json 200 entry, db') →
  ∃ before after,
    getEntry db id = Some before
    ∧ WikiEntry.userId before = userId
    ∧ getEntry db' id = Some after
    ∧ WikiEntry.status after = "pending".
Proof.
  intros (e & v & He & Hown & Hv & -> & ->)%patch_api_entries_id_ok.
  exists e, (set_status "pending" now' (set_entry v now e)).
  repeat split; try done.
  by rewrite getEntry_after_edit, He.
Qed.

Lemma owner_edit_forces_pending_witness :
  let db := with_entry (sample_entry "e1" "alice" "approved" false None) in
  let reqBody : body := {[ "title" := JStr "New title" ]} in
  ∃ before after,
    getEntry db "e1" = Some before
    ∧ WikiEntry.userId before = "alice"
    ∧ getEntry (patch_api_entries_id "alice" "e1" reqBody 20 21 db).2 "e1"
      = Some after
    ∧ WikiEntry.status after = "pending".
Proof.
  intros db reqBody.
  apply (owner_edit_forces_pending db _ "alice" "e1" reqBody 20 21
           (set_entry (mkUpdateWikiEntry (Some "New title") None None None
                         None None) 20
              (sample_entry "e1" "alice" "approved" false None))).
  vm_compute. reflexivity.
Defined.

(** C6. On the owner routes PATCH /api/entries/:id,
    DELETE /api/entries/:id and PATCH /api/entries/:id/special a requester
    who is not the entry's owner gets 403 (FORBIDDEN) and the store, hence
    the entry, is unchanged; an id that names no entry gets 404
    (NOT_FOUND), the store unchanged as well. The routes look at no admin
    capability. *)
Theorem foreign_edit_delete_refused (db : Store) (userId id : string)
    (reqBody : body) (isSpecial : option bool) (entropy : nat → byte)
    (now now' : Z) :
  (∀ e, getEntry db id = Some e → WikiEntry.userId e ≠ userId →
     patch_api_entries_id userId id reqBody now now' db
     = (Message 403 "Forbidden - You can only edit your own entries", db)
     ∧ delete_api_entries_id userId id db
       = (Message 403 "Forbidden - You can only delete your own entries", db)
     ∧ patch_api_entries_id_special userId id isSpecial entropy now db
       = (Message 403 "Forbidden", db))
  ∧ (getEntry db id = None →
     patch_api_entries_id userId id reqBody now now' db
     = (Message 404 "Entry not found", db)
     ∧ delete_api_entries_id userId id db
       = (Message 404 "Entry not found", db)
     ∧ patch_api_entries_id_special userId id isSpecial entropy now db
       = (Message 404 "Entry not found", db)).
Proof.
  unfold patch_api_entries_id, delete_api_entries_id,
    patch_api_entries_id_special.
  split.
  - intros e -> Hown. by rewrite !decide_True.
  - by intros ->.
Qed.

Lemma foreign_edit_delete_refused_witness :
  let db := with_entry (sample_entry "e1" "alice" "approved" false None) in
  let reqBody : body := {[ "title" := JStr "Mine now" ]} in
  (patch_api_entries_id "bob" "e1" reqBody 20 21 db
   = (Message 403 "Forbidden - You can only edit your own entries", db)
   ∧ delete_api_entries_id "bob" "e1" db
     = (Message 403 "Forbidden - You can only delete your own entries", db)
   ∧ patch_api_entries_id_special "bob" "e1" (Some true) (λ _, x2a) 20 db
     = (Message 403 "Forbidden", db))
  ∧ (patch_api_entries_id "bob" "e2" reqBody 20 21 db
     = (Message 404 "Entry not found", db)
     ∧ delete_api_entries_id "bob" "e2" db
       = (Message 404 "Entry not found", db)
     ∧ patch_api_entries_id_special "bob" "e2" (Some true) (λ _, x2a) 20 db
       = (Message 404 "Entry not found", db)).
Proof.
  intros db reqBody. split.
  - apply (proj1 (foreign_edit_delete_refused db "bob" "e1" reqBody
                    (Some true) (λ _, x2a) 20 21)
             (sample_entry "e1" "alice" "approved" false None));
      [reflexivity | discriminate].
  - apply (proj2 (foreign_edit_delete_refused db "bob" "e2" reqBody
                    (Some true) (λ _, x2a) 20 21)).
    reflexivity.
Defined.

(** ** Ban expiry *)

Lemma getUser_unbanUser (db : Store) (userId : string) (now : Z) :
  getUser (unbanUser userId now db).2 userId
  = set_ban false None None now <$> getUser db userId.
Proof. apply getUser_update_users, set_ban_id. Qed.

Lemma checkUserBanned_not_banned (db : Store) (userId : string) (user : User.t)
    (now now' : Z) :
  getUser db userId = Some user → User.isBanned user = false →
  checkUserBanned userId now now' db = (false, db).
Proof. intros Hu Hb. unfold checkUserBanned. by rewrite Hu, Hb. Qed.

(** C7. For a user with [isBanned = true]: when [bannedUntil] is set and
    lies in the past, [checkUserBanned] answers false (NOT_BANNED) and the
    store it leaves holds the user with [isBanned = false],
    [banReason = null] and [bannedUntil = null], so that every later check
    answers false again without writing; when [bannedUntil] is null it
    answers true (BANNED) at every time and leaves the store as it was. *)
Theorem checkUserBanned_expiry (db : Store) (userId : string) (user : User.t)
    (now now' : Z) :
  getUser db userId = Some user →
  User.isBanned user = true →
  (∀ bannedUntil, User.bannedUntil user = Some bannedUntil → bannedUntil < now →
     let r := checkUserBanned userId now now' db in
     r.1 = false
     ∧ (∃ user',
          getUser r.2 userId = Some user'
          ∧ User.isBanned user' = false
          ∧ User.banReason user' = None
          ∧ User.bannedUntil user' = None)
     ∧ ∀ later later', checkUserBanned userId later later' r.2 = (false, r.2))
  ∧ (User.bannedUntil user = None →
     checkUserBanned userId now now' db = (true, db)).
Proof.
  intros Hu Hb. split.
  - intros t Ht Hpast. unfold checkUserBanned. rewrite Hu, Hb, Ht. simpl.
    rewrite decide_True by lia. simpl.
    assert (getUser (unbanUser userId now' db).2 userId
            = Some (set_ban false None None now' user)) as Hu'
      by (by rewrite getUser_unbanUser, Hu).
    split; [done|]. split.
    + by exists (set_ban false None None now' user).
    + intros later later'.
      exact (checkUserBanned_not_banned _ userId _ later later' Hu' eq_refl).
  - intros Ht. unfold checkUserBanned. by rewrite Hu, Hb, Ht.
Qed.

Lemma checkUserBanned_expiry_witness :
  (let r := checkUserBanned "bob" 1001 1002
              (with_banned (sample_banned "bob" (Some 1000))) in
   r.1 = false
   ∧ (∃ user',
        getUser r.2 "bob" = Some user'
        ∧ User.isBanned user' = false
        ∧ User.banReason user' = None
        ∧ User.bannedUntil user' = None)
   ∧ ∀ later later', checkUserBanned "bob" later later' r.2 = (false, r.2))
  ∧ checkUserBanned "bob" 1001 1002 (with_banned (sample_banned "bob" None))
    = (true, with_banned (sample_banned "bob" None)).
Proof.
  split.
  - apply (proj1 (checkUserBanned_expiry
                    (with_banned (sample_banned "bob" (Some 1000))) "bob"
                    (sample_banned "bob" (Some 1000)) 1001 1002
                    eq_refl eq_refl) 1000); [reflexivity | lia].
  - apply (proj2 (checkUserBanned_expiry
                    (with_banned (sample_banned "bob" None)) "bob"
                    (sample_banned "bob" None) 1001 1002 eq_refl eq_refl)).
    reflexivity.
Defined.

(** C8, as the code has it. When [bannedUntil] equals the time of the
    check the ban is still in force: [checkUserBanned] answers true
    (BANNED) and writes nothing. The comparison [new Date() > bannedUntil]
    is strict; the ban lapses from the first millisecond after
    [bannedUntil]. *)
Theorem checkUserBanned_at_expiry_instant (db : Store) (userId : string)
    (user : User.t) (now now' : Z) :
  getUser db userId = Some user →
  User.isBanned user = true →
  User.bannedUntil user = Some now →
  checkUserBanned userId now now' db = (true, db)
  ∧ (checkUserBanned userId (now + 1) now' db).1 = false.
Proof.
  intros Hu Hb Ht. unfold checkUserBanned. rewrite Hu, Hb, Ht. simpl.
  rewrite decide_False by lia. rewrite decide_True by lia. done.
Qed.

Lemma checkUserBanned_at_expiry_instant_witness :
  checkUserBanned "bob" 1000 1001 (with_banned (sample_banned "bob" (Some 1000)))
  = (true, with_banned (sample_banned "bob" (Some 1000)))
  ∧ (checkUserBanned "bob" (1000 + 1) 1001
       (with_banned (sample_banned "bob" (Some 1000)))).1 = false.
Proof.
  apply (checkUserBanned_at_expiry_instant
           (with_banned (sample_banned "bob" (Some 1000))) "bob"
           (sample_banned "bob" (Some 1000)) 1000 1001);
    reflexivity.
Defined.

(** C8, as the specification words it, fails: a ban whose [bannedUntil] is
    the very instant of the check is not lifted. *)
Lemma inclusive_expiry_counterexample :
  let bob := sample_banned "bob" (Some 1000) in
  let db := with_banned bob in
  getUser db "bob" = Some bob
  ∧ User.isBanned bob = true
  ∧ User.bannedUntil bob = Some 1000
  ∧ checkUserBanned "bob" 1000 1001 db = (true, db)
  ∧ ¬ (∀ (db : Store) (userId : string) (user : User.t) (now now' : Z),
         getUser db userId = Some user →
         User.isBanned user = true →
         User.bannedUntil user = Some now →
         (checkUserBanned userId now now' db).1 = false).
Proof.
  intros bob db. repeat split.
  intros H. specialize (H db "bob" bob 1000 1001 eq_refl eq_refl eq_refl).
  discriminate H.
Qed.

(** ** Creating an entry *)

(** The status of a created entry is the payload's [status] when the
    payload has one, and the column default otherwise. *)
Lemma entry_row_status (entryData : InsertWikiEntry) (newId : string) (now : Z) :
  WikiEntry.status (entry_row entryData newId now)
  = default "pending" (ins_status entryData).
Proof. done. Qed.

Lemma post_api_entries_created (db db' : Store) (userId : string)
    (reqBody : body) (newId : string) (now : Z) (entry : WikiEntry.t) :
  post_api_entries userId reqBody newId now db = (Json 201 entry, db') →
  ∃ entryData,
    insertWikiEntrySchema (<["userId" := JStr userId]> reqBody) = Some entryData
    ∧ entry = entry_row entryData newId now
    ∧ wikiEntries db' = (wikiEntries db ++ [entry])%list.
Proof.
  unfold post_api_entries.
  destruct (insertWikiEntrySchema _) as [entryData|]; [|done].
  unfold createEntry. repeat case_decide; try done.
  intros [= <- <-]. by exists entryData.
Qed.

Lemma post_api_entries_status (db db' : Store) (userId : string)
    (reqBody : body) (newId : string) (now : Z) (entry : WikiEntry.t) :
  post_api_entries userId reqBody newId now db = (Json 201 entry, db') →
  WikiEntry.status entry
  = match reqBody !! "status" with
    | Some (JStr status) => status
    | _ => "pending"
    end.
Proof.
  intros (entryData & Hparse & -> & _)%post_api_entries_created.
  rewrite entry_row_status. unfold insertWikiEntrySchema in Hparse.
  repeat (apply bind_Some in Hparse as (? & ? & Hparse)).
  injection Hparse as <-. simpl.
  match goal with
  | H : optional _ "status" _ = Some _ |- _ =>
      unfold optional in H; rewrite lookup_insert_ne in H by done;
      destruct (reqBody !! "status") as [[]|]; simpl in H; simplify_eq; try done
  end.
  match goal with
  | H : _ <$> (if ?c then _ else _) = Some _ |- _ =>
      destruct c; simpl in H; by simplify_eq
  end.
Qed.

(** C1, at the input where the code departs from it: a creation payload
    with [status: "approved"] is accepted by [insertWikiEntrySchema], which
    keeps the property, and the entry is stored and returned with status
    "approved" instead of "pending". Without the property the same request
    creates a pending entry. *)
Theorem post_api_entries_keeps_payload_status :
  let plain : body :=
    {[ "title" := JStr "Title"; "description" := JStr "Text" ]} in
  let reqBody : body := <["status" := JStr "approved"]> plain in
  let r := post_api_entries "alice" reqBody "e1" 10 two_users in
  (∃ entry,
     r.1 = Json 201 entry
     ∧ getEntry r.2 "e1" = Some entry
     ∧ WikiEntry.status entry = "approved")
  ∧ WikiEntry.status
      <$> getEntry (post_api_entries "alice" plain "e1" 10 two_users).2 "e1"
    = Some "pending".
Proof.
  split; [|by vm_compute].
  eexists. vm_compute. repeat split; reflexivity.
Qed.

(** C10, at the input where the code departs from it: [updateWikiEntrySchema]
    omits [status] but keeps [verification] and [specialAccessToken], so
    the owner's edit payload writes both columns. *)
Theorem owner_edit_writes_verification :
  let db := with_entry (sample_entry "e1" "alice" "approved" false None) in
  let reqBody : body :=
    {[ "verification" := JStr "verified";
       "specialAccessToken" := JStr "chosen" ]} in
  let r := patch_api_entries_id "alice" "e1" reqBody 20 21 db in
  code_of r.1 = 200%nat
  ∧ WikiEntry.verification <$> getEntry db "e1" = Some (Some "unknown")
  ∧ WikiEntry.verification <$> getEntry r.2 "e1" = Some (Some "verified")
  ∧ WikiEntry.specialAccessToken <$> getEntry db "e1" = Some None
  ∧ WikiEntry.specialAccessToken <$> getEntry r.2 "e1" = Some (Some "chosen").
Proof. by vm_compute. Qed.

(** ** Reading entries *)

Lemma getSpecialPost_Some (db : Store) (entryId : string) (token : option string)
    (entry : WikiEntry.t) :
  getSpecialPost db entryId token = Some entry ↔
  getEntry db entryId = Some entry
  ∧ (WikiEntry.isSpecial entry = true →
     ∃ t, token = Some t ∧ t ≠ EmptyString
          ∧ WikiEntry.specialAccessToken entry = Some t).
Proof.
  unfold getSpecialPost.
  destruct (getEntry db entryId) as [e|]; [|split; [done|by intros [? _]]].
  split.
  - destruct (WikiEntry.isSpecial e
              && (negb (token_given token)
                  || token_differs token (WikiEntry.specialAccessToken e)))
      eqn:Hcond; [done|].
    intros [= <-]. split; [done|]. intros Hs.
    rewrite Hs in Hcond. simpl in Hcond.
    apply orb_false_elim in Hcond as [Hgiven Hsame].
    destruct token as [t|]; [|done].
    destruct (WikiEntry.specialAccessToken e) as [s|]; [|done].
    simpl in Hgiven, Hsame.
    apply negb_false_iff, bool_decide_eq_true in Hgiven.
    apply bool_decide_eq_false in Hsame.
    exists t. repeat split; [done|]. f_equal. symmetry. by apply dec_stable.
  - intros [[= <-] H].
    destruct (WikiEntry.isSpecial e); [|done].
    destruct (H eq_refl) as (t & -> & Hne & ->). simpl.
    rewrite (bool_decide_true (t ≠ EmptyString)) by done.
    by rewrite (bool_decide_false (t ≠ t)) by (intros Hn; by apply Hn).
Qed.

(** C3, as the code has it. Through GET /api/special/:entryId an entry
    with [isSpecial = false] is VISIBLE (200, the entry itself) to every
    caller and for every token, whatever its status: approved, pending or
    rejected. *)
Theorem special_route_serves_plain_entry (db : Store) (entryId : string)
    (token : option string) (entry : WikiEntry.t) :
  getEntry db entryId = Some entry →
  WikiEntry.isSpecial entry = false →
  get_api_special_entryId entryId token db = Json 200 entry.
Proof.
  intros He Hs. unfold get_api_special_entryId.
  assert (getSpecialPost db entryId token = Some entry) as ->; [|done].
  apply getSpecialPost_Some. split; [done|]. by rewrite Hs.
Qed.

Lemma special_route_serves_plain_entry_witness :
  get_api_special_entryId "e1" None
    (with_entry (sample_entry "e1" "alice" "rejected" false None))
  = Json 200 (sample_entry "e1" "alice" "rejected" false None).
Proof.
  apply (special_route_serves_plain_entry
           (with_entry (sample_entry "e1" "alice" "rejected" false None))
           "e1" None (sample_entry "e1" "alice" "rejected" false None));
    reflexivity.
Defined.

(** C3, as the specification words it, fails: a pending entry that is not
    special is served to an anonymous caller. *)
Lemma pending_entry_served_counterexample :
  let entry := sample_entry "e1" "alice" "pending" false None in
  let db := with_entry entry in
  getEntry db "e1" = Some entry
  ∧ WikiEntry.isSpecial entry = false
  ∧ WikiEntry.status entry = "pending"
  ∧ get_api_special_entryId "e1" None db = Json 200 entry
  ∧ ¬ (∀ (db : Store) (entryId : string) (entry : WikiEntry.t),
         getEntry db entryId = Some entry →
         WikiEntry.isSpecial entry = false →
         (get_api_special_entryId entryId None db = Json 200 entry
          ↔ WikiEntry.status entry = "approved")
         ∧ (WikiEntry.status entry = "pending"
            ∨ WikiEntry.status entry = "rejected" →
            get_api_special_entryId entryId None db
            = Message 404 "Entry not found or access denied")).
Proof.
  intros entry db. repeat split.
  intros H. destruct (H db "e1" entry eq_refl eq_refl) as [_ Hdenied].
  discriminate Hdenied. by left.
Qed.

Lemma elem_of_orderBy_desc {A} (key : A → option Z) (rows : list A) (r : A) :
  r ∈ orderBy_desc key rows ↔ r ∈ rows.
Proof. unfold orderBy_desc. by rewrite merge_sort_Permutation. Qed.

Lemma elem_of_join_users (db : Store) (entries : list WikiEntry.t)
    (e : WikiEntry.t) (u : User.t) :
  (e, u) ∈ join_users db entries ↔
  e ∈ entries ∧ u ∈ users db ∧ User.id u = WikiEntry.userId e.
Proof.
  unfold join_users. rewrite list_elem_of_bind. split.
  - intros (e' & Hin & He').
    apply list_elem_of_bind in Hin as (u' & Hin & Hu').
    apply list_elem_of_singleton in Hin as [= -> ->].
    apply list_elem_of_filter in Hu'. tauto.
  - intros (He & Hu & Hid). exists e. split; [|done].
    apply list_elem_of_bind. exists u. split; [by apply list_elem_of_singleton|].
    by apply list_elem_of_filter.
Qed.

Lemma elem_of_getApprovedEntries (db : Store) (e : WikiEntry.t) (u : User.t) :
  (e, u) ∈ getApprovedEntries db ↔
  e ∈ wikiEntries db ∧ WikiEntry.status e = "approved"
  ∧ u ∈ users db ∧ User.id u = WikiEntry.userId e.
Proof.
  unfold getApprovedEntries.
  rewrite elem_of_orderBy_desc, list_elem_of_filter, elem_of_join_users.
  simpl. tauto.
Qed.

(** C2, as the code has it. The public listing GET /api/entries/approved
    hands out only stored entries whose status is "approved"; the special
    route GET /api/special/:entryId hands out an entry with
    [isSpecial = true] only for a supplied token that is non-empty and
    exactly equal to the stored [specialAccessToken]. *)
Theorem public_reads_guarded (db : Store) :
  (∀ e, e ∈ observed ReadApproved db →
     e ∈ wikiEntries db ∧ WikiEntry.status e = "approved")
  ∧ (∀ entryId token e,
       e ∈ observed (ReadSpecial entryId token) db →
       WikiEntry.isSpecial e = true →
       ∃ t, token = Some t ∧ t ≠ EmptyString
            ∧ WikiEntry.specialAccessToken e = Some t).
Proof.
  split.
  - simpl. intros e ([e' u] & -> & Hin)%list_elem_of_fmap.
    apply elem_of_getApprovedEntries in Hin. simpl. tauto.
  - simpl. unfold get_api_special_entryId. intros entryId token e.
    destruct (getSpecialPost db entryId token) as [e'|] eqn:Hget;
      [|by intros ?%elem_of_nil].
    intros ->%list_elem_of_singleton.
    apply getSpecialPost_Some in Hget. tauto.
Qed.

Lemma public_reads_guarded_witness :
  let e1 := sample_entry "e1" "alice" "approved" false None in
  let e2 := sample_entry "e2" "alice" "pending" true (Some "s3cret") in
  (e1 ∈ wikiEntries (with_entry e1) ∧ WikiEntry.status e1 = "approved")
  ∧ ∃ t, Some "s3cret" = Some t ∧ t ≠ EmptyString
         ∧ WikiEntry.specialAccessToken e2 = Some t.
Proof.
  intros e1 e2. split.
  - apply (proj1 (public_reads_guarded (with_entry e1)) e1).
    vm_compute. left.
  - apply (proj2 (public_reads_guarded (with_entry e2)) "e2" (Some "s3cret") e2).
    + vm_compute. left.
    + reflexivity.
Defined.

(** C2, as the specification words it, fails on three read paths: the
    public listing hands out an approved special entry together with its
    token, the special route hands out a pending entry that is not
    special, and GET /api/entries/:id hands any entry to any signed-in
    user. In each case the requester is not the owner and supplies no
    token. *)
Lemma non_owner_reads_counterexample :
  let secret := sample_entry "e1" "alice" "approved" true (Some "s3cret") in
  let draft := sample_entry "e2" "alice" "pending" false None in
  secret ∈ observed ReadApproved (with_entry secret)
  ∧ draft ∈ observed (ReadSpecial "e2" None) (with_entry draft)
  ∧ draft ∈ observed (ReadEntry "e2") (with_entry draft)
  ∧ ¬ (∀ (db : Store) (r : Read) (requester : option string)
         (e : WikiEntry.t),
         e ∈ observed r db →
         requester ≠ Some (WikiEntry.userId e) →
         (∀ t, supplied_token r = Some t →
               WikiEntry.specialAccessToken e ≠ Some t) →
         WikiEntry.status e = "approved" ∧ WikiEntry.isSpecial e = false).
Proof.
  intros secret draft.
  assert (secret ∈ observed ReadApproved (with_entry secret)) as Hs
    by (vm_compute; left).
  repeat split; [done | vm_compute; left | vm_compute; left |].
  intros H.
  destruct (H (with_entry secret) ReadApproved None secret Hs) as [_ Hplain];
    done.
Qed.

(** ** Issuing the token of a special post *)

Lemma randomBytes_length (n : nat) (entropy : nat → byte) :
  length (randomBytes n entropy) = n.
Proof. unfold randomBytes. by rewrite length_fmap, length_seq. Qed.

Lemma hex_digit_inj (n m : N) :
  (n < 16)%N → (m < 16)%N → hex_digit n = hex_digit m → n = m.
Proof.
  intros Hn Hm. unfold hex_digit.
  assert (∀ i j : nat, (i < 16)%nat → (j < 16)%nat →
            nth i hex_alphabet "0"%char = nth j hex_alphabet "0"%char → i = j)
    as Hnth.
  { intros i j Hi Hj.
    do 16 (destruct i as [|i]; [do 16 (destruct j as [|j]; [done|]); lia|]).
    lia. }
  intros H. apply N2Nat.inj, Hnth; [lia..|done].
Qed.

Lemma hex_digit_alphabet (n : N) : hex_digit n ∈ hex_alphabet.
Proof.
  unfold hex_digit.
  destruct (decide (N.to_nat n < length hex_alphabet)%nat) as [Hlt|Hge].
  - apply list_elem_of_In, nth_In, Hlt.
  - rewrite nth_overflow by lia. left.
Qed.

Lemma hex_of_byte_inj (b1 b2 : byte) :
  hex_of_byte b1 = hex_of_byte b2 → b1 = b2.
Proof.
  unfold hex_of_byte. intros [= Hhi Hlo].
  pose proof (Byte.to_N_bounded b1). pose proof (Byte.to_N_bounded b2).
  apply hex_digit_inj in Hhi;
    [|apply N.Div0.div_lt_upper_bound; lia..].
  apply hex_digit_inj in Hlo; [|apply N.mod_lt; lia..].
  assert (Byte.to_N b1 = Byte.to_N b2) as Heq.
  { rewrite (N.div_mod (Byte.to_N b1) 16), (N.div_mod (Byte.to_N b2) 16) by lia.
    by rewrite Hhi, Hlo. }
  pose proof (Byte.of_to_N b1) as H1. rewrite Heq, Byte.of_to_N in H1.
  by injection H1.
Qed.

Lemma toString_hex_cons (b : byte) (bs : list byte) :
  toString_hex (b :: bs)
  = String (hex_digit (Byte.to_N b / 16))
      (String (hex_digit (Byte.to_N b mod 16)) (toString_hex bs)).
Proof. reflexivity. Qed.

Lemma toString_hex_inj (bs1 bs2 : list byte) :
  toString_hex bs1 = toString_hex bs2 → bs1 = bs2.
Proof.
  revert bs2. induction bs1 as [|b1 bs1 IH]; intros [|b2 bs2];
    rewrite ?toString_hex_cons; try done.
  intros [= Hhi Hlo Hrest]. f_equal; [|by apply IH].
  apply hex_of_byte_inj. unfold hex_of_byte. by rewrite Hhi, Hlo.
Qed.

Lemma toString_hex_length (bs : list byte) :
  String.length (toString_hex bs) = (2 * length bs)%nat.
Proof.
  induction bs as [|b bs IH]; [done|].
  rewrite toString_hex_cons. simpl. rewrite IH. lia.
Qed.

Lemma toString_hex_alphabet (bs : list byte) (c : ascii) :
  c ∈ list_ascii_of_string (toString_hex bs) → c ∈ hex_alphabet.
Proof.
  induction bs as [|b bs IH]; [by intros ?%elem_of_nil|].
  rewrite toString_hex_cons. simpl.
  intros [->|[->|Hc]%elem_of_cons]%elem_of_cons;
    auto using hex_digit_alphabet.
Qed.

Lemma new_token_length (entropy : nat → byte) :
  String.length (new_token entropy) = 64%nat.
Proof.
  unfold new_token. by rewrite toString_hex_length, randomBytes_length.
Qed.

(** X29. The dedicated route does issue a token. When the owner sets
    [isSpecial] to true through PATCH /api/entries/:id/special, the route
    draws 32 bytes (256 bits)
    from the random source, encodes them as a string of 64 lowercase hex
    digits that determines the 32 bytes, and stores it as
    [specialAccessToken] together with [isSpecial = true]. Afterwards
    GET /api/special/:id with exactly that token returns the entry, and
    with any other token, or none, it answers 404 (access denied). *)
Lemma special_route_issues_token (db : Store) (id : string) (entry : WikiEntry.t)
    (entropy : nat → byte) (now : Z) :
  getEntry db id = Some entry →
  let token := new_token entropy in
  let r := patch_api_entries_id_special (WikiEntry.userId entry) id (Some true)
             entropy now db in
  ∃ updated,
    r.1 = Json 200 updated
    ∧ getEntry r.2 id = Some updated
    ∧ WikiEntry.isSpecial updated = true
    ∧ WikiEntry.specialAccessToken updated = Some token
    ∧ token ≠ EmptyString
    ∧ String.length token = 64%nat
    ∧ (∀ c, c ∈ list_ascii_of_string token → c ∈ hex_alphabet)
    ∧ length (randomBytes 32 entropy) = 32%nat
    ∧ (∀ entropy', new_token entropy' = token →
         randomBytes 32 entropy' = randomBytes 32 entropy)
    ∧ get_api_special_entryId id (Some token) r.2 = Json 200 updated
    ∧ (∀ supplied, supplied ≠ Some token →
         get_api_special_entryId id supplied r.2
         = Message 404 "Entry not found or access denied").
Proof.
  intros He token r.
  set (v := mkUpdateWikiEntry None None None None (Some true)
              (Some (Some token))).
  assert (r = (Json 200 (set_entry v now entry), (updateEntry id v now db).2))
    as Hr.
  { unfold r, patch_api_entries_id_special. rewrite He.
    rewrite decide_False by (intros H; by apply H). simpl.
    fold token. fold v. fold (getEntry db id). by rewrite He. }
  assert (getEntry r.2 id = Some (set_entry v now entry)) as Hget.
  { rewrite Hr. change (_, ?s).2 with s. unfold updateEntry.
    by rewrite getEntry_update_entries, He by apply set_entry_id. }
  assert (token ≠ EmptyString) as Hne.
  { intros Hempty. pose proof (new_token_length entropy) as Hlen.
    fold token in Hlen. by rewrite Hempty in Hlen. }
  exists (set_entry v now entry). rewrite Hr at 1.
  split_and!;
    [done | done | done | done | done | apply new_token_length | |
     apply randomBytes_length | | |].
  - apply toString_hex_alphabet.
  - intros entropy'. apply toString_hex_inj.
  - unfold get_api_special_entryId.
    assert (getSpecialPost r.2 id (Some token) = Some (set_entry v now entry))
      as ->; [|done].
    apply getSpecialPost_Some. split; [done|]. intros _. by exists token.
  - intros supplied Hwrong. unfold get_api_special_entryId.
    destruct (getSpecialPost r.2 id supplied) as [e|] eqn:Hs; [|done].
    apply getSpecialPost_Some in Hs as [Hs Htok].
    rewrite Hget in Hs. injection Hs as <-.
    destruct (Htok eq_refl) as (t & -> & _ & [= <-]). done.
Qed.

Lemma special_route_issues_token_example :
  let db := with_entry (sample_entry "e1" "alice" "approved" false None) in
  let token := new_token (λ _, x2a) in
  let r := patch_api_entries_id_special "alice" "e1" (Some true) (λ _, x2a)
             30 db in
  ∃ updated,
    r.1 = Json 200 updated
    ∧ getEntry r.2 "e1" = Some updated
    ∧ WikiEntry.isSpecial updated = true
    ∧ WikiEntry.specialAccessToken updated = Some token
    ∧ token ≠ EmptyString
    ∧ String.length token = 64%nat
    ∧ (∀ c, c ∈ list_ascii_of_string token → c ∈ hex_alphabet)
    ∧ length (randomBytes 32 (λ _, x2a)) = 32%nat
    ∧ (∀ entropy', new_token entropy' = token →
         randomBytes 32 entropy' = randomBytes 32 (λ _, x2a))
    ∧ get_api_special_entryId "e1" (Some token) r.2 = Json 200 updated
    ∧ (∀ supplied, supplied ≠ Some token →
         get_api_special_entryId "e1" supplied r.2
         = Message 404 "Entry not found or access denied").
Proof.
  apply (special_route_issues_token
           (with_entry (sample_entry "e1" "alice" "approved" false None))
           "e1" (sample_entry "e1" "alice" "approved" false None)
           (λ _, x2a) 30).
  reflexivity.
Defined.

(** C4, at the input where the code departs from it: the edit route
    PATCH /api/entries/:id accepts [isSpecial] as well, and through it the
    owner turns [isSpecial] from false to true without any token being
    drawn. The entry is stored special with [specialAccessToken = null],
    and GET /api/special/:entryId then refuses every token, supplied or
    not. *)
Theorem owner_edit_sets_special_without_token :
  let db := with_entry (sample_entry "e1" "alice" "approved" false None) in
  let reqBody : body := {[ "isSpecial" := JBool true ]} in
  let r := patch_api_entries_id "alice" "e1" reqBody 20 21 db in
  code_of r.1 = 200%nat
  ∧ WikiEntry.isSpecial <$> getEntry db "e1" = Some false
  ∧ WikiEntry.isSpecial <$> getEntry r.2 "e1" = Some true
  ∧ WikiEntry.specialAccessToken <$> getEntry r.2 "e1" = Some None
  ∧ ∀ token,
      get_api_special_entryId "e1" token r.2
      = Message 404 "Entry not found or access denied".
Proof.
  intros db reqBody r. split_and!; [by vm_compute..|].
  intros token. unfold get_api_special_entryId.
  destruct (getSpecialPost r.2 "e1" token) as [e|] eqn:Hget; [|done].
  apply getSpecialPost_Some in Hget as [Hget Htok].
  vm_compute in Hget. injection Hget as <-.
  by destruct (Htok eq_refl) as (t & _ & _ & [=]).
Qed.

(** ** One like per user and entry *)

Lemma NoDup_fmap_filter {A B} (f : A → B) (P : A → Prop)
    `{∀ x, Decision (P x)} (l : list A) :
  NoDup (f <$> l) → NoDup (f <$> filter P l).
Proof.
  induction l as [|a l IH]; [done|].
  rewrite fmap_cons, NoDup_cons, filter_cons. intros [Hnew Hrest].
  case_decide; [|by apply IH].
  rewrite fmap_cons, NoDup_cons. split; [|by apply IH].
  intros (a' & Heq & [_ Hin]%list_elem_of_filter)%list_elem_of_fmap.
  apply Hnew, list_elem_of_fmap. by exists a'.
Qed.

Lemma userLikesEntry_true (db : Store) (entryId userId : string) :
  userLikesEntry db entryId userId = true
  ↔ (entryId, userId) ∈ like_pair <$> likes db.
Proof.
  unfold userLikesEntry. rewrite bool_decide_eq_true, list_elem_of_fmap. split.
  - intros [l Hl]. apply head_Some_elem_of, list_elem_of_filter in Hl.
    exists l. unfold like_pair. destruct Hl as [[-> ->] Hin]. done.
  - intros (l & [= -> ->] & Hin).
    destruct (head _) as [l'|] eqn:Hhead; [by eexists|].
    apply head_None in Hhead.
    by destruct (filter_nil_not_elem_of _ _ l Hhead).
Qed.

Lemma insertLikeSchema_strings (entryId userId : string) :
  insertLikeSchema {[ "entryId" := JStr entryId; "userId" := JStr userId ]}
  = Some (mkInsertLike entryId userId).
Proof. reflexivity. Qed.

(** The store after POST /api/likes: untouched, or one row longer for a
    pair that was not there. *)
Lemma post_api_likes_store (unique : bool) (userId : string)
    (entryId : option string) (newId : string) (now : Z) (db : Store) :
  let r := post_api_likes unique userId entryId newId now db in
  ((∀ like, r.1 ≠ Json 201 like) ∧ r.2 = db)
  ∨ ∃ e,
      entryId = Some e
      ∧ userLikesEntry db e userId = false
      ∧ r.1 = Json 201 (Like.mk newId e userId (Some now))
      ∧ likes r.2 = (likes db ++ [Like.mk newId e userId (Some now)])%list.
Proof.
  unfold post_api_likes. destruct entryId as [e|]; [|by left].
  case_decide; [by left|].
  destruct (userLikesEntry db e userId) eqn:Hliked; [by left|].
  rewrite insertLikeSchema_strings. unfold createLike.
  repeat case_decide; try (by left).
  simpl. rewrite Hliked, andb_false_r. right. by exists e.
Qed.

Lemma likes_unique_post_api_likes (unique : bool) (userId : string)
    (entryId : option string) (newId : string) (now : Z) (db : Store) :
  likes_unique db →
  likes_unique (post_api_likes unique userId entryId newId now db).2.
Proof.
  intros Hinv.
  destruct (post_api_likes_store unique userId entryId newId now db)
    as [[_ ->]|(e & _ & Hfresh & _ & Hlikes)]; [done|].
  unfold likes_unique. rewrite Hlikes, fmap_app. apply NoDup_app.
  split; [done|]. split; [|apply NoDup_singleton].
  intros pair Hin ->%list_elem_of_singleton.
  apply userLikesEntry_true in Hin. simpl in Hin. congruence.
Qed.

Lemma likes_unique_handle (unique : bool) (r : Request) (db : Store) :
  likes_unique db → likes_unique (handle unique r db).
Proof.
  intros Hinv. destruct r; simpl.
  - unfold post_api_entries. likes_untouched.
  - unfold patch_api_entries_id. likes_untouched.
  - unfold delete_api_entries_id.
    repeat (case_match || case_decide); try done.
    by apply NoDup_fmap_filter.
  - unfold patch_api_admin_entries_id_verify. likes_untouched.
  - unfold patch_api_admin_entries_id_moderate. likes_untouched.
  - by apply NoDup_fmap_filter.
  - by apply likes_unique_post_api_likes.
  - by apply NoDup_fmap_filter.
  - unfold patch_api_entries_id_special. likes_untouched.
  - unfold post_api_admin_users_userId_ban. likes_untouched.
  - unfold post_api_admin_users_userId_unban. likes_untouched.
  - by apply NoDup_fmap_filter.
  - unfold checkUserBanned. likes_untouched.
Qed.

(** Requests served one after another, whether or not the database
    carries the declared unique constraint: every request keeps "at most
    one like row per (entryId, userId)", and once POST /api/likes has
    created the like (201), every further POST for the same pair is
    refused with 400 and leaves the store as it is. The check of the route
    is all that stands for this, and it holds only as long as no other
    request runs between the check and the insert. *)
Lemma one_like_per_pair (unique : bool) :
  (∀ r db, likes_unique db → likes_unique (handle unique r db))
  ∧ (∀ rs db, likes_unique db → likes_unique (run unique rs db))
  ∧ (∀ db db1 userId entryId newId now like,
       post_api_likes unique userId entryId newId now db = (Json 201 like, db1) →
       ∀ newId' now',
         post_api_likes unique userId entryId newId' now' db1
         = (Message 400 "Already liked this entry", db1)).
Proof.
  split_and!.
  - intros r db. apply likes_unique_handle.
  - intros rs. unfold run. induction rs as [|r rs IH]; [done|].
    intros db Hinv. simpl. by apply IH, likes_unique_handle.
  - intros db db1 userId entryId newId now like Hfirst newId' now'.
    destruct (post_api_likes_store unique userId entryId newId now db)
      as [[Hfail _]|(e & -> & _ & _ & Hlikes)].
    { rewrite Hfirst in Hfail. by destruct (Hfail like). }
    rewrite Hfirst in Hlikes. simpl in Hlikes.
    assert (e ≠ EmptyString) as Hne.
    { intros ->. by vm_compute in Hfirst. }
    assert (userLikesEntry db1 e userId = true) as Hliked.
    { apply userLikesEntry_true. rewrite Hlikes, fmap_app.
      apply elem_of_app. right. by apply list_elem_of_singleton. }
    unfold post_api_likes. by rewrite decide_False, Hliked.
Qed.

Lemma one_like_per_pair_witness :
  let db := with_entry (sample_entry "e1" "alice" "approved" false None) in
  let db1 := (post_api_likes false "bob" (Some "e1") "l1" 40 db).2 in
  likes_unique (handle false (PostLikes "bob" (Some "e1") "l2" 41) db1)
  ∧ likes_unique
      (run false [PostLikes "bob" (Some "e1") "l1" 40;
                  PostLikes "bob" (Some "e1") "l2" 41;
                  DeleteLikes "bob" "e1";
                  PostLikes "bob" (Some "e1") "l3" 42] db)
  ∧ post_api_likes false "bob" (Some "e1") "l2" 41 db1
    = (Message 400 "Already liked this entry", db1).
Proof.
  intros db db1. split_and!.
  - apply (proj1 (one_like_per_pair false)). vm_compute.
    apply NoDup_singleton.
  - apply (proj1 (proj2 (one_like_per_pair false))). vm_compute.
    apply NoDup_nil_2.
  - apply (proj2 (proj2 (one_like_per_pair false)) db db1 "bob" (Some "e1")
             "l1" 40 (Like.mk "l1" "e1" "bob" (Some 40))).
    reflexivity.
Defined.

(** *** Two requests for one pair in flight *)

(** The two halves run back to back on one store are the route. *)
Lemma post_api_likes_halves (unique : bool) (userId : string)
    (entryId : option string) (newId : string) (now : Z) (db : Store) :
  post_api_likes unique userId entryId newId now db
  = match post_api_likes_check userId entryId db with
    | Replied reply => (reply, db)
    | Inserting validatedData =>
        post_api_likes_insert unique validatedData newId now db
    end.
Proof.
  unfold post_api_likes, post_api_likes_check, post_api_likes_insert.
  destruct entryId as [e|]; [|done]. case_decide; [done|].
  destruct (userLikesEntry db e userId); [done|].
  by destruct (insertLikeSchema _).
Qed.

(** A schedule that gives a request both its turns in a row serves it as
    [handle] does. *)
Lemma interleave_back_to_back (unique : bool) (ticket : nat)
    (userId : string) (entryId : option string) (newId : string) (now : Z)
    (s : Server) :
  awaiting s !! ticket = None →
  database (interleave unique [LikesCheck ticket userId entryId;
                               LikesInsert ticket newId now] s)
  = handle unique (PostLikes userId entryId newId now) (database s).
Proof.
  intros Hfree. cbn [interleave foldl step handle].
  rewrite post_api_likes_halves.
  destruct (post_api_likes_check userId entryId (database s)) as [reply|v].
  - cbn [awaiting]. by rewrite Hfree.
  - cbn [awaiting database]. rewrite lookup_insert_eq.
    by destruct (post_api_likes_insert unique v newId now (database s)).
Qed.

(** With the constraint in the database every schedule keeps the pairs
    apart: [createLike] is one statement, and it is refused. *)
Lemma likes_unique_post_api_likes_insert (validatedData : InsertLike)
    (newId : string) (now : Z) (db : Store) :
  likes_unique db →
  likes_unique (post_api_likes_insert true validatedData newId now db).2.
Proof.
  intros Hinv. unfold post_api_likes_insert, createLike.
  repeat case_decide; try done.
  destruct (userLikesEntry db _ _) eqn:Hliked; [done|].
  cbn [andb snd]. unfold likes_unique. cbn [likes].
  rewrite fmap_app. apply NoDup_app.
  split; [done|]. split; [|apply NoDup_singleton].
  intros pair Hin ->%list_elem_of_singleton.
  apply userLikesEntry_true in Hin. simpl in Hin. congruence.
Qed.

Lemma likes_unique_interleave (ts : list Step) (s : Server) :
  likes_unique (database s) →
  likes_unique (database (interleave true ts s)).
Proof.
  unfold interleave. revert s. induction ts as [|t ts IH]; [done|].
  intros s Hinv. cbn [foldl]. apply IH. destruct t; cbn [step].
  - by apply likes_unique_handle.
  - by destruct (post_api_likes_check _ _ _).
  - destruct (awaiting s !! ticket) as [v|]; [|done].
    pose proof (likes_unique_post_api_likes_insert v newId now _ Hinv).
    by destruct (post_api_likes_insert true v newId now (database s)).
Qed.

(** Two POST /api/likes of one user for one entry that both pass their
    check before either inserts. Without the constraint both inserts go
    through: both requests are answered 201 and the pair has two rows.
    With it the second insert is refused and answered 500. *)
Lemma likes_race (db : Store) (userId entryId newId1 newId2 : string)
    (now1 now2 : Z) :
  entryId ≠ EmptyString →
  is_Some (getEntry db entryId) →
  is_Some (getUser db userId) →
  userLikesEntry db entryId userId = false →
  ¬ Exists (λ l, Like.id l = newId1) (likes db) →
  ¬ Exists (λ l, Like.id l = newId2) (likes db) →
  newId1 ≠ newId2 →
  let schedule :=
    [LikesCheck 1 userId (Some entryId); LikesCheck 2 userId (Some entryId);
     LikesInsert 1 newId1 now1; LikesInsert 2 newId2 now2] in
  let like1 := Like.mk newId1 entryId userId (Some now1) in
  let like2 := Like.mk newId2 entryId userId (Some now2) in
  let s := interleave false schedule (idle db) in
  let s' := interleave true schedule (idle db) in
  replies s = [(1%nat, Json 201 like1); (2%nat, Json 201 like2)]
  ∧ likes (database s) = (likes db ++ [like1; like2])%list
  ∧ ¬ likes_unique (database s)
  ∧ replies s'
    = [(1%nat, Json 201 like1); (2%nat, Message 500 "Failed to create like")]
  ∧ likes (database s') = (likes db ++ [like1])%list.
Proof.
  intros Hne [entry Hentry] [user Huser] Hfresh Hid1 Hid2 Hids
    schedule like1 like2 s s'.
  assert (post_api_likes_check userId (Some entryId) db
          = Inserting (mkInsertLike entryId userId)) as Hcheck.
  { unfold post_api_likes_check.
    by rewrite decide_False, Hfresh, insertLikeSchema_strings. }
  assert (∀ unique,
            post_api_likes_insert unique (mkInsertLike entryId userId)
              newId1 now1 db
            = (Json 201 like1,
               mkStore (users db) (wikiEntries db) (likes db ++ [like1])))
    as Hfirst.
  { intros unique. unfold post_api_likes_insert, createLike.
    cbn [il_entryId il_userId].
    rewrite (decide_False (P := Exists _ _)) by done.
    rewrite Hentry, Huser, Hfresh, andb_false_r.
    by rewrite !decide_False by done. }
  set (db1 := mkStore (users db) (wikiEntries db) (likes db ++ [like1])).
  assert (¬ Exists (λ l, Like.id l = newId2) (likes db1)) as Hid2'.
  { unfold db1. cbn [likes]. rewrite Exists_app, Exists_cons, Exists_nil.
    intros [?|[?|[]]]; [done|]. by apply Hids. }
  assert (getEntry db1 entryId = Some entry) as Hentry' by done.
  assert (getUser db1 userId = Some user) as Huser' by done.
  assert (userLikesEntry db1 entryId userId = true) as Hliked.
  { apply userLikesEntry_true. unfold db1. cbn [likes].
    rewrite fmap_app. apply elem_of_app. right.
    by apply list_elem_of_singleton. }
  assert (post_api_likes_insert false (mkInsertLike entryId userId)
            newId2 now2 db1
          = (Json 201 like2,
             mkStore (users db) (wikiEntries db)
               ((likes db ++ [like1]) ++ [like2]))) as Hsecond.
  { unfold post_api_likes_insert, createLike. cbn [il_entryId il_userId].
    rewrite (decide_False (P := Exists _ _)) by done.
    rewrite Hentry', Huser'. cbn [andb].
    by rewrite !decide_False by done. }
  assert (post_api_likes_insert true (mkInsertLike entryId userId)
            newId2 now2 db1
          = (Message 500 "Failed to create like", db1)) as Hrefused.
  { unfold post_api_likes_insert, createLike. cbn [il_entryId il_userId].
    rewrite (decide_False (P := Exists _ _)) by done.
    rewrite Hentry', Huser', Hliked. cbn [andb].
    by rewrite !decide_False by done. }
  assert (∀ unique,
            interleave unique schedule (idle db)
            = let '(reply, db2) :=
                post_api_likes_insert unique (mkInsertLike entryId userId)
                  newId2 now2 db1 in
              mkServer db2 ∅ [(1%nat, Json 201 like1); (2%nat, reply)])
    as Hrun.
  { intros unique. unfold schedule, idle.
    cbn [interleave foldl step database awaiting replies].
    rewrite Hcheck. cbn [database awaiting replies]. rewrite Hcheck.
    cbn [database awaiting replies].
    rewrite lookup_insert_ne, lookup_insert_eq by done.
    rewrite Hfirst. cbn [database awaiting replies].
    rewrite delete_insert_ne, delete_insert_eq, delete_empty by done.
    rewrite lookup_insert_eq. fold db1.
    destruct (post_api_likes_insert unique _ newId2 now2 db1) as [reply db2].
    by rewrite delete_insert_eq, delete_empty. }
  unfold s, s'. rewrite !Hrun, Hsecond, Hrefused.
  cbn [database replies likes]. split_and!; try done.
  - by rewrite <- app_assoc.
  - unfold likes_unique. cbn [likes]. rewrite <- app_assoc, fmap_app.
    intros [_ [_ Hdup]]%NoDup_app.
    apply NoDup_cons in Hdup as [Hdup _]. apply Hdup. by left.
Qed.

(** C9, at the input where the code departs from it: bob sends
    POST /api/likes for entry e1 twice and the second request is checked
    before the first has inserted. No unique constraint stands behind the
    check ([unique] is [false]: the fragment in the table declaration is
    not a constraint, against its own comment), so both requests are
    answered 201 and the store, which had no like, holds two rows for the
    pair (e1, bob). Had the database carried the constraint, the second
    insert would have been refused. *)
Theorem concurrent_likes_stored_twice :
  let db := with_entry (sample_entry "e1" "alice" "approved" false None) in
  let schedule :=
    [LikesCheck 1 "bob" (Some "e1"); LikesCheck 2 "bob" (Some "e1");
     LikesInsert 1 "l1" 40; LikesInsert 2 "l2" 41] in
  let like1 := Like.mk "l1" "e1" "bob" (Some 40) in
  let like2 := Like.mk "l2" "e1" "bob" (Some 41) in
  let s := interleave false schedule (idle db) in
  likes_unique db
  ∧ replies s = [(1%nat, Json 201 like1); (2%nat, Json 201 like2)]
  ∧ likes (database s) = [like1; like2]
  ∧ like_pair like1 = like_pair like2
  ∧ ¬ likes_unique (database s)
  ∧ length (getLikes (database s) "e1") = 2%nat
  ∧ likes (database (interleave true schedule (idle db))) = [like1].
Proof.
  intros db schedule like1 like2 s.
  destruct (likes_race db "bob" "e1" "l1" "l2" 40 41)
    as (Hreplies & Hlikes & Hdup & _ & Hone);
    [done | by eexists | by eexists | done
     | by intros ?%Exists_nil | by intros ?%Exists_nil | done |].
  split_and!; try done. apply NoDup_nil_2.
Qed.

(** * Further properties of the routes and the storage layer *)

(** ** Tables: lookups after a change *)

Section MoreTables.
Context {A : Type} (key : A → string).

Lemma first_with_is_Some (k : string) (rows : list A) :
  is_Some (first_with key k rows) ↔ k ∈ key <$> rows.
Proof.
  rewrite list_elem_of_fmap. split.
  - intros [r Hr]. apply first_with_elem in Hr as [Hin <-]. by exists r.
  - intros (r & -> & Hin).
    destruct (first_with key (key r) rows) as [r'|] eqn:Hnone; [by eexists|].
    by destruct (proj1 (first_with_None key _ _) Hnone r Hin).
Qed.

Lemma first_with_None_ids (k : string) (rows : list A) :
  first_with key k rows = None ↔ k ∉ key <$> rows.
Proof.
  rewrite <- first_with_is_Some, <- eq_None_not_Some. done.
Qed.

Lemma rewrite_with_ids (f : A → A) (k : string) (rows : list A) :
  (∀ r, key (f r) = key r) →
  key <$> rewrite_with key f k rows = key <$> rows.
Proof.
  intros Hkey. unfold rewrite_with. rewrite <- list_fmap_compose.
  apply list_fmap_ext. intros i r _. simpl. case_decide; auto.
Qed.

Lemma rewrite_with_absent (f : A → A) (k : string) (rows : list A) :
  first_with key k rows = None → rewrite_with key f k rows = rows.
Proof.
  rewrite first_with_None. intros Hnone. unfold rewrite_with.
  rewrite <- (list_fmap_id rows) at 2. apply list_fmap_ext.
  intros i r Hr. simpl. rewrite decide_False; [done|].
  eapply Hnone, list_elem_of_lookup_2, Hr.
Qed.

Lemma first_with_rewrite_other (f : A → A) (k k' : string) (rows : list A) :
  (∀ r, key (f r) = key r) → k' ≠ k →
  first_with key k' (rewrite_with key f k rows) = first_with key k' rows.
Proof.
  intros Hkey Hne. rewrite first_with_rewrite by done.
  destruct (first_with key k' rows) as [r|] eqn:Hr; [|done].
  apply first_with_elem in Hr as [_ Hr]. simpl.
  rewrite decide_False; congruence.
Qed.

Lemma first_with_snoc (k : string) (rows : list A) (r : A) :
  first_with key k (rows ++ [r])
  = match first_with key k rows with
    | Some r' => Some r'
    | None => if decide (key r = k) then Some r else None
    end.
Proof.
  induction rows as [|r' rows IH]; simpl.
  - rewrite first_with_cons. by case_decide.
  - rewrite !first_with_cons, IH. by destruct (decide (key r' = k)).
Qed.

Lemma first_with_filter (P : A → Prop) `{∀ r, Decision (P r)} (k : string)
    (rows : list A) (r : A) :
  first_with key k (filter P rows) = Some r →
  P r ∧ r ∈ rows ∧ key r = k.
Proof.
  intros [[HP Hin]%list_elem_of_filter Hk]%first_with_elem. done.
Qed.

Lemma first_with_filter_keep (P : A → Prop) `{∀ r, Decision (P r)}
    (k : string) (rows : list A) :
  (∀ r, r ∈ rows → key r = k → P r) →
  first_with key k (filter P rows) = first_with key k rows.
Proof.
  intros Hkeep. induction rows as [|r rows IH]; [done|].
  rewrite filter_cons, (first_with_cons _ k r rows).
  assert (first_with key k (filter P rows) = first_with key k rows) as IH'.
  { apply IH. intros r' Hr'. apply Hkeep. by right. }
  destruct (decide (key r = k)) as [Hk|Hk].
  - rewrite decide_True by (apply Hkeep; [left|done]).
    rewrite first_with_cons. by rewrite decide_True.
  - case_decide; [|done]. rewrite first_with_cons. by rewrite decide_False.
Qed.
End MoreTables.

Lemma Store_eta (db : Store) :
  mkStore (users db) (wikiEntries db) (likes db) = db.
Proof. by destruct db. Qed.

Lemma update_entries_absent (f : WikiEntry.t → WikiEntry.t) (id : string)
    (db : Store) :
  getEntry db id = None → update_entries f id db = (None, db).
Proof.
  intros Hnone. unfold update_entries. fold (getEntry db id).
  rewrite Hnone. unfold getEntry in Hnone.
  by rewrite rewrite_with_absent, Store_eta.
Qed.

Lemma update_entries_present (f : WikiEntry.t → WikiEntry.t) (id : string)
    (db : Store) (e : WikiEntry.t) :
  (∀ e, WikiEntry.id (f e) = WikiEntry.id e) →
  getEntry db id = Some e →
  (update_entries f id db).1 = Some (f e)
  ∧ getEntry (update_entries f id db).2 id = Some (f e)
  ∧ (∀ id', id' ≠ id →
       getEntry (update_entries f id db).2 id' = getEntry db id')
  ∧ users (update_entries f id db).2 = users db
  ∧ likes (update_entries f id db).2 = likes db.
Proof.
  intros Hid He. split_and!; try done.
  - simpl. fold (getEntry db id). by rewrite He.
  - by rewrite getEntry_update_entries, He.
  - intros id' Hne. by apply first_with_rewrite_other.
Qed.

Lemma update_users_absent (f : User.t → User.t) (id : string) (db : Store) :
  getUser db id = None → update_users f id db = (None, db).
Proof.
  intros Hnone. unfold update_users. fold (getUser db id).
  rewrite Hnone. unfold getUser in Hnone.
  by rewrite rewrite_with_absent, Store_eta.
Qed.

Lemma one_of_Some (allowed : list string) (v : option jval) (s : string) :
  one_of allowed v = Some s ↔ v = Some (JStr s) ∧ s ∈ allowed.
Proof.
  unfold one_of. destruct v as [[]|]; try (split; [done|by intros [[=] _]]).
  case_decide; split.
  - by intros [= ->].
  - by intros [[= ->] _].
  - done.
  - intros [[= ->] ?]. done.
Qed.

(** ** Moderation and verification by an administrator *)

(** X1. PATCH /api/admin/entries/:id/moderate. A [status] that is one of
    "approved", "pending", "rejected" is written to the entry named by
    [id] and only [status] and [updatedAt] of that entry change: the route
    answers 200 with the new row, every other entry, the users and the
    likes stay as they were. Any other [status] (missing, not a string,
    another string) is answered 400, and an [id] that names no entry 404,
    both without a change to the store. *)
Theorem moderate_route (db : Store) (id : string) (reqBody : body) (now : Z) :
  let r := patch_api_admin_entries_id_moderate id reqBody now db in
  (∀ status e,
     reqBody !! "status" = Some (JStr status) →
     status ∈ ["approved"; "pending"; "rejected"] →
     getEntry db id = Some e →
     r.1 = Json 200 (set_status status now e)
     ∧ getEntry r.2 id = Some (set_status status now e)
     ∧ WikiEntry.status (set_status status now e) = status
     ∧ WikiEntry.verification (set_status status now e) = WikiEntry.verification e
     ∧ WikiEntry.userId (set_status status now e) = WikiEntry.userId e
     ∧ (∀ id', id' ≠ id → getEntry r.2 id' = getEntry db id')
     ∧ users r.2 = users db ∧ likes r.2 = likes db)
  ∧ ((∀ status, reqBody !! "status" = Some (JStr status) →
        status ∉ ["approved"; "pending"; "rejected"]) →
     r = (Message 400 "Invalid status", db))
  ∧ (∀ status,
       reqBody !! "status" = Some (JStr status) →
       status ∈ ["approved"; "pending"; "rejected"] →
       getEntry db id = None →
       r = (Message 404 "Entry not found", db)).
Proof.
  intros r. unfold r, patch_api_admin_entries_id_moderate. split_and!.
  - intros status e Hs Hin He.
    rewrite (proj2 (one_of_Some _ _ status)) by done. unfold moderateEntry.
    destruct (update_entries_present (set_status status now) id db e
                (set_status_id status now) He) as (H1 & H2 & H3 & H4 & H5).
    destruct (update_entries _ id db) as [o db'] eqn:Hupd.
    simpl in *. subst o. simpl. by split_and!.
  - intros Hbad.
    destruct (one_of _ _) as [s|] eqn:Hone; [|done].
    apply one_of_Some in Hone as [Hs Hin]. by destruct (Hbad s Hs).
  - intros status Hs Hin Hnone.
    rewrite (proj2 (one_of_Some _ _ status)) by done. unfold moderateEntry.
    by rewrite update_entries_absent.
Qed.

Lemma moderate_route_witness :
  let e := sample_entry "e1" "alice" "pending" false None in
  let db := with_entry e in
  (getEntry (patch_api_admin_entries_id_moderate "e1"
               {[ "status" := JStr "approved" ]} 30 db).2 "e1"
   = Some (set_status "approved" 30 e))
  ∧ patch_api_admin_entries_id_moderate "e1" {[ "status" := JStr "done" ]} 30 db
    = (Message 400 "Invalid status", db)
  ∧ patch_api_admin_entries_id_moderate "e9" {[ "status" := JStr "rejected" ]}
      30 db
    = (Message 404 "Entry not found", db).
Proof.
  intros e db. split_and!.
  - apply (proj1 (moderate_route db "e1" {[ "status" := JStr "approved" ]} 30)
             "approved" e); [reflexivity | by_evaluation | reflexivity].
  - apply (proj1 (proj2 (moderate_route db "e1" {[ "status" := JStr "done" ]} 30))).
    intros status [= <-]. by_evaluation.
  - apply (proj2 (proj2 (moderate_route db "e9"
                           {[ "status" := JStr "rejected" ]} 30)) "rejected");
      [reflexivity | by_evaluation | reflexivity].
Defined.

(** X2. PATCH /api/admin/entries/:id/verify. A [verification] that is one
    of "verified", "fake", "unknown" is written to the entry and leaves
    its moderation status, owner, special flag and token as they were;
    any other value is answered 400, an [id] that names no entry 404, both
    without a change to the store. *)
Theorem verify_route (db : Store) (id : string) (reqBody : body) (now : Z) :
  let r := patch_api_admin_entries_id_verify id reqBody now db in
  (∀ verification e,
     reqBody !! "verification" = Some (JStr verification) →
     verification ∈ ["verified"; "fake"; "unknown"] →
     getEntry db id = Some e →
     ∃ e',
       r.1 = Json 200 e'
       ∧ getEntry r.2 id = Some e'
       ∧ WikiEntry.verification e' = Some verification
       ∧ WikiEntry.status e' = WikiEntry.status e
       ∧ WikiEntry.userId e' = WikiEntry.userId e
       ∧ WikiEntry.isSpecial e' = WikiEntry.isSpecial e
       ∧ WikiEntry.specialAccessToken e' = WikiEntry.specialAccessToken e
       ∧ (∀ id', id' ≠ id → getEntry r.2 id' = getEntry db id')
       ∧ users r.2 = users db ∧ likes r.2 = likes db)
  ∧ ((∀ verification, reqBody !! "verification" = Some (JStr verification) →
        verification ∉ ["verified"; "fake"; "unknown"]) →
     r = (Message 400 "Invalid verification status", db))
  ∧ (∀ verification,
       reqBody !! "verification" = Some (JStr verification) →
       verification ∈ ["verified"; "fake"; "unknown"] →
       getEntry db id = None →
       r = (Message 404 "Entry not found", db)).
Proof.
  intros r. unfold r, patch_api_admin_entries_id_verify. split_and!.
  - intros v e Hs Hin He.
    rewrite (proj2 (one_of_Some _ _ v)) by done. unfold setEntryVerification.
    destruct (update_entries_present (set_verification v now) id db e
                (set_verification_id v now) He) as (H1 & H2 & H3 & H4 & H5).
    destruct (update_entries _ id db) as [o db'] eqn:Hupd.
    simpl in *. subst o. simpl. exists (set_verification v now e).
    by split_and!.
  - intros Hbad.
    destruct (one_of _ _) as [s|] eqn:Hone; [|done].
    apply one_of_Some in Hone as [Hs Hin]. by destruct (Hbad s Hs).
  - intros v Hs Hin Hnone.
    rewrite (proj2 (one_of_Some _ _ v)) by done. unfold setEntryVerification.
    by rewrite update_entries_absent.
Qed.

Lemma verify_route_witness :
  let e := sample_entry "e1" "alice" "approved" false None in
  let db := with_entry e in
  (∃ e',
     (patch_api_admin_entries_id_verify "e1"
        {[ "verification" := JStr "fake" ]} 30 db).1 = Json 200 e'
     ∧ WikiEntry.verification e' = Some "fake"
     ∧ WikiEntry.status e' = "approved")
  ∧ patch_api_admin_entries_id_verify "e1" {[ "verification" := JNull ]} 30 db
    = (Message 400 "Invalid verification status", db)
  ∧ patch_api_admin_entries_id_verify "e9" {[ "verification" := JStr "fake" ]}
      30 db
    = (Message 404 "Entry not found", db).
Proof.
  intros e db. split_and!.
  - destruct (proj1 (verify_route db "e1" {[ "verification" := JStr "fake" ]} 30)
                "fake" e) as (e' & H1 & _ & H3 & H4 & _);
      [reflexivity | by_evaluation | reflexivity |].
    exists e'. by split_and!.
  - apply (proj1 (proj2 (verify_route db "e1"
                           {[ "verification" := JNull ]} 30))).
    intros v [=].
  - apply (proj2 (proj2 (verify_route db "e9"
                           {[ "verification" := JStr "fake" ]} 30)) "fake");
      [reflexivity | by_evaluation | reflexivity].
Defined.

(** ** Listings *)

Lemma newer_first_trans (a b c : option Z) :
  newer_first a b → newer_first b c → newer_first a c.
Proof. destruct a, b, c; simpl; try done. lia. Qed.

Lemma newer_first_total (a b : option Z) : newer_first a b ∨ newer_first b a.
Proof. destruct a, b; simpl; try tauto. lia. Qed.

Lemma orderBy_desc_newest_first {A} (key : A → option Z) (rows : list A) :
  newest_first key (orderBy_desc key rows).
Proof.
  unfold newest_first, orderBy_desc.
  apply StronglySorted_merge_sort.
  - intros r1 r2 r3. apply newer_first_trans.
  - intros r1 r2. apply newer_first_total.
Qed.

Lemma elem_of_rewrite_with {A} (key : A → string) (f : A → A) (k : string)
    (rows : list A) (r : A) :
  (∀ r, key (f r) = key r) →
  r ∈ rewrite_with key f k rows → key r = k →
  ∃ r0, r0 ∈ rows ∧ key r0 = k ∧ r = f r0.
Proof.
  intros Hkey (r0 & -> & Hin)%list_elem_of_fmap Hk.
  exists r0. destruct (decide (key r0 = k)) as [Hk0|Hk0]; [done|].
  by destruct Hk0.
Qed.

Lemma moderate_route_store (db : Store) (id : string) (reqBody : body)
    (now : Z) (status : string) :
  reqBody !! "status" = Some (JStr status) →
  status ∈ ["approved"; "pending"; "rejected"] →
  (patch_api_admin_entries_id_moderate id reqBody now db).2
  = (update_entries (set_status status now) id db).2.
Proof.
  intros Hs Hin. unfold patch_api_admin_entries_id_moderate.
  rewrite (proj2 (one_of_Some _ _ status)) by done. unfold moderateEntry.
  by destruct (update_entries _ id db) as [[e|] db'].
Qed.

(** X3. GET /api/entries/approved returns, newest first, exactly the
    pairs of a stored entry whose status is "approved" with the user row
    of its owner. *)
Theorem public_listing (db : Store) :
  (∃ rows, get_api_entries_approved db = Json 200 rows
           ∧ newest_first (λ row, WikiEntry.createdAt row.1) rows
           ∧ ∀ e u, (e, u) ∈ rows ↔
                    e ∈ wikiEntries db ∧ WikiEntry.status e = "approved"
                    ∧ u ∈ users db ∧ User.id u = WikiEntry.userId e).
Proof.
  exists (getApprovedEntries db). split_and!; [done| |].
  - apply orderBy_desc_newest_first.
  - apply elem_of_getApprovedEntries.
Qed.

(** X4. The listing follows moderation. Once an administrator has set an
    entry whose owner exists to "approved", the entry is in the public
    listing; once it is set to "rejected" or "pending", or its owner has
    edited it, no entry with that id is in the listing. *)
Theorem listing_follows_moderation (db : Store) (id : string)
    (e : WikiEntry.t) (now now' : Z) :
  getEntry db id = Some e →
  (∀ u, getUser db (WikiEntry.userId e) = Some u →
     (set_status "approved" now e, u)
     ∈ getApprovedEntries
         (patch_api_admin_entries_id_moderate id
            {[ "status" := JStr "approved" ]} now db).2)
  ∧ (∀ status e' u', status = "rejected" ∨ status = "pending" →
       (e', u')
       ∈ getApprovedEntries
           (patch_api_admin_entries_id_moderate id
              {[ "status" := JStr status ]} now db).2 →
       WikiEntry.id e' ≠ id)
  ∧ (∀ reqBody reply db' e' u',
       patch_api_entries_id (WikiEntry.userId e) id reqBody now now' db
       = (Json 200 reply, db') →
       (e', u') ∈ getApprovedEntries db' → WikiEntry.id e' ≠ id).
Proof.
  intros He. split_and!.
  - intros u Hu. apply elem_of_getApprovedEntries.
    rewrite (moderate_route_store _ _ _ _ "approved")
      by (by rewrite ?lookup_singleton_eq; try by_evaluation).
    destruct (update_entries_present (set_status "approved" now) id db e
                (set_status_id "approved" now) He) as (_ & H2 & _ & H4 & _).
    apply first_with_elem in H2 as [H2 _].
    apply first_with_elem in Hu as [Hu Hid].
    rewrite H4. done.
  - intros status e' u' Hstatus Hin Hid.
    apply elem_of_getApprovedEntries in Hin as (Hin & Happ & _).
    rewrite (moderate_route_store _ _ _ _ status) in Hin
      by (rewrite ?lookup_singleton_eq; try done;
          destruct Hstatus as [-> | ->]; by_evaluation).
    apply elem_of_rewrite_with in Hin as (e0 & _ & _ & ->);
      [|apply set_status_id|done].
    simpl in Happ. destruct Hstatus as [-> | ->]; discriminate.
  - intros reqBody reply db' e' u' Hedit Hin Hid.
    apply patch_api_entries_id_ok in Hedit as (e0 & v & _ & _ & _ & _ & ->).
    apply elem_of_getApprovedEntries in Hin as (Hin & Happ & _).
    apply elem_of_rewrite_with in Hin as (e1 & _ & _ & ->);
      [|apply set_status_id|done].
    discriminate.
Qed.

Lemma listing_follows_moderation_witness :
  let e := sample_entry "e1" "alice" "pending" false None in
  (set_status "approved" 30 e, sample_user "alice")
  ∈ getApprovedEntries
      (patch_api_admin_entries_id_moderate "e1"
         {[ "status" := JStr "approved" ]} 30 (with_entry e)).2.
Proof.
  intros e.
  apply (proj1 (listing_follows_moderation (with_entry e) "e1" e 30 31
                  eq_refl) (sample_user "alice")).
  reflexivity.
Defined.

(** X5. GET /api/profile/:userId answers 404 for an unknown user and
    otherwise returns the user's row with exactly the entries that user
    owns, whatever their status, newest first. *)
Theorem profile_route (db : Store) (userId : string) :
  (getUser db userId = None →
   get_api_profile_userId userId db = Message 404 "User not found")
  ∧ (∀ user, getUser db userId = Some user →
       ∃ entries,
         get_api_profile_userId userId db = Json 200 (user, entries)
         ∧ newest_first WikiEntry.createdAt entries
         ∧ ∀ e, e ∈ entries ↔
                e ∈ wikiEntries db ∧ WikiEntry.userId e = userId).
Proof.
  unfold get_api_profile_userId, getUserProfile. split.
  - by intros ->.
  - intros user ->. exists (getUserEntries db userId). split_and!; [done| |].
    + apply orderBy_desc_newest_first.
    + intros e. unfold getUserEntries.
      rewrite elem_of_orderBy_desc, list_elem_of_filter. tauto.
Qed.

Lemma profile_route_witness :
  let e := sample_entry "e1" "alice" "pending" false None in
  get_api_profile_userId "carol" (with_entry e)
  = Message 404 "User not found"
  ∧ ∃ entries,
      get_api_profile_userId "alice" (with_entry e)
      = Json 200 (sample_user "alice", entries)
      ∧ newest_first WikiEntry.createdAt entries
      ∧ ∀ e', e' ∈ entries ↔
              e' ∈ wikiEntries (with_entry e) ∧ WikiEntry.userId e' = "alice".
Proof.
  intros e. split.
  - apply (proj1 (profile_route (with_entry e) "carol")). reflexivity.
  - apply (proj2 (profile_route (with_entry e) "alice")). reflexivity.
Defined.

(** ** Creating and editing entries *)

Lemma insertWikiEntrySchema_userId (b : body) (userId : string)
    (entryData : InsertWikiEntry) :
  insertWikiEntrySchema (<["userId" := JStr userId]> b) = Some entryData →
  ins_userId entryData = userId.
Proof.
  unfold insertWikiEntrySchema. intros Hparse.
  apply bind_Some in Hparse as (u & Hu & Hparse).
  unfold required in Hu. rewrite lookup_insert_eq in Hu. injection Hu as <-.
  repeat (apply bind_Some in Hparse as (? & ? & Hparse)).
  by injection Hparse as <-.
Qed.

(** X6. POST /api/entries. A created entry (201) carries the generated
    id, the caller as owner, whatever [userId], [id], [createdAt] or
    [updatedAt] the body holds, and the time of the insert; it can be read
    back under its id, and every other entry, the users and the likes are
    as before. The id was free and the caller is a stored user. Every
    other reply leaves the store unchanged. *)
Theorem create_route (db : Store) (userId : string) (reqBody : body)
    (newId : string) (now : Z) :
  let r := post_api_entries userId reqBody newId now db in
  (∀ entry, r.1 = Json 201 entry →
     WikiEntry.id entry = newId
     ∧ WikiEntry.userId entry = userId
     ∧ WikiEntry.createdAt entry = Some now
     ∧ WikiEntry.updatedAt entry = Some now
     ∧ getEntry db newId = None
     ∧ is_Some (getUser db userId)
     ∧ getEntry r.2 newId = Some entry
     ∧ (∀ id, id ≠ newId → getEntry r.2 id = getEntry db id)
     ∧ users r.2 = users db
     ∧ likes r.2 = likes db)
  ∧ ((∀ entry, r.1 ≠ Json 201 entry) → r.2 = db).
Proof.
  intros r. unfold r, post_api_entries.
  destruct (insertWikiEntrySchema _) as [entryData|] eqn:Hparse; [|done].
  apply insertWikiEntrySchema_userId in Hparse. unfold createEntry.
  destruct (decide (is_Some (getEntry db newId))) as [Hused|Hfree]; [done|].
  destruct (decide (getUser db (ins_userId entryData) = None)) as [Hno|Hyes];
    [done|].
  apply eq_None_not_Some in Hfree. split.
  - intros entry [= <-]. rewrite <- Hparse. split_and!; try done.
    + by apply not_eq_None_Some.
    + unfold getEntry in *. cbn [snd wikiEntries].
      rewrite first_with_snoc, Hfree. simpl. by rewrite decide_True.
    + intros id Hne. unfold getEntry. cbn [snd wikiEntries].
      rewrite first_with_snoc.
      destruct (first_with _ id _); [done|]. simpl. by rewrite decide_False.
  - intros Hnot. by destruct (Hnot (entry_row entryData newId now)).
Qed.

Lemma create_route_witness :
  let reqBody : body :=
    {[ "title" := JStr "Title"; "description" := JStr "Text";
       "userId" := JStr "bob"; "id" := JStr "chosen" ]} in
  let r := post_api_entries "alice" reqBody "e7" 10 two_users in
  ∃ entry,
    r.1 = Json 201 entry
    ∧ WikiEntry.id entry = "e7"
    ∧ WikiEntry.userId entry = "alice"
    ∧ getEntry r.2 "e7" = Some entry.
Proof.
  intros reqBody r.
  exists (WikiEntry.mk "e7" "alice" "Title" "Text" None "pending"
            (Some "unknown") false None (Some 10) (Some 10)).
  destruct (proj1 (create_route two_users "alice" reqBody "e7" 10)
              (WikiEntry.mk "e7" "alice" "Title" "Text" None "pending"
                 (Some "unknown") false None (Some 10) (Some 10)))
    as (H1 & H2 & _ & _ & _ & _ & H7 & _); [by vm_compute|].
  split_and!; [by vm_compute | exact H1 | exact H2 | exact H7].
Defined.

(** X7. PATCH /api/entries/:id. A successful edit (200) keeps the
    entry's id, owner and creation time, writes exactly the properties
    the validated payload defines, and leaves every other entry, the users
    and the likes as they were. *)
Theorem edit_route_frame (db db' : Store) (userId id : string)
    (reqBody : body) (now now' : Z) (reply : WikiEntry.t) :
  patch_api_entries_id userId id reqBody now now' db = (Json 200 reply, db') →
  ∃ before after v,
    getEntry db id = Some before
    ∧ getEntry db' id = Some after
    ∧ updateWikiEntrySchema (delete "status" reqBody) = Some v
    ∧ WikiEntry.id after = id
    ∧ WikiEntry.userId after = userId
    ∧ WikiEntry.createdAt after = WikiEntry.createdAt before
    ∧ WikiEntry.title after = default (WikiEntry.title before) (upd_title v)
    ∧ WikiEntry.description after
      = default (WikiEntry.description before) (upd_description v)
    ∧ WikiEntry.imageUrl after
      = default (WikiEntry.imageUrl before) (upd_imageUrl v)
    ∧ WikiEntry.updatedAt after = Some now'
    ∧ (∀ id', id' ≠ id → getEntry db' id' = getEntry db id')
    ∧ users db' = users db
    ∧ likes db' = likes db.
Proof.
  intros (e & v & He & Hown & Hv & -> & ->)%patch_api_entries_id_ok.
  exists e, (set_status "pending" now' (set_entry v now e)), v.
  split_and!; try done.
  - by rewrite getEntry_after_edit, He.
  - simpl. by apply first_with_elem in He as [_ ?].
  - intros id' Hne. unfold moderateEntry, updateEntry, update_entries.
    simpl. unfold getEntry. simpl.
    rewrite first_with_rewrite_other by (done || apply set_status_id).
    by rewrite first_with_rewrite_other by (done || apply set_entry_id).
Qed.

Lemma edit_route_frame_witness :
  let e := sample_entry "e1" "alice" "approved" false None in
  let reqBody : body := {[ "title" := JStr "New title" ]} in
  ∃ before after v,
    getEntry (with_entry e) "e1" = Some before
    ∧ getEntry (patch_api_entries_id "alice" "e1" reqBody 20 21
                  (with_entry e)).2 "e1" = Some after
    ∧ updateWikiEntrySchema (delete "status" reqBody) = Some v
    ∧ WikiEntry.id after = "e1"
    ∧ WikiEntry.userId after = "alice"
    ∧ WikiEntry.createdAt after = WikiEntry.createdAt before
    ∧ WikiEntry.title after = default (WikiEntry.title before) (upd_title v)
    ∧ WikiEntry.description after
      = default (WikiEntry.description before) (upd_description v)
    ∧ WikiEntry.imageUrl after
      = default (WikiEntry.imageUrl before) (upd_imageUrl v)
    ∧ WikiEntry.updatedAt after = Some 21
    ∧ (∀ id', id' ≠ "e1" →
         getEntry (patch_api_entries_id "alice" "e1" reqBody 20 21
                     (with_entry e)).2 id' = getEntry (with_entry e) id')
    ∧ users (patch_api_entries_id "alice" "e1" reqBody 20 21 (with_entry e)).2
      = users (with_entry e)
    ∧ likes (patch_api_entries_id "alice" "e1" reqBody 20 21 (with_entry e)).2
      = likes (with_entry e).
Proof.
  intros e reqBody.
  apply (edit_route_frame (with_entry e) _ "alice" "e1" reqBody 20 21
           (set_entry (mkUpdateWikiEntry (Some "New title") None None None
                         None None) 20 e)).
  by vm_compute.
Defined.

Lemma strict_unknown_key (shape : list string) (b : body) (k : string) :
  is_Some (b !! k) → k ∉ shape → strict shape b = None.
Proof.
  intros Hk Hshape. unfold strict. rewrite decide_False; [done|].
  intros Hsub. apply Hshape.
  apply elem_of_dom in Hk. apply Hsub in Hk.
  by apply elem_of_list_to_set in Hk.
Qed.

(** X8. The edit route is strict about its payload, except for [status]:
    a body with any property outside title, description, imageUrl,
    verification, isSpecial, specialAccessToken and status (for instance
    id, userId or createdAt) is refused with 400 and nothing is written,
    while a [status] property, whatever its value, changes nothing in the
    outcome of the request. *)
Theorem edit_route_payload (db : Store) (userId id : string) (reqBody : body)
    (now now' : Z) :
  (∀ e k,
     getEntry db id = Some e → WikiEntry.userId e = userId →
     is_Some (reqBody !! k) → k ∉ "status" :: updateWikiEntryShape →
     patch_api_entries_id userId id reqBody now now' db
     = (Message 400 "Invalid entry data", db))
  ∧ (∀ status,
       patch_api_entries_id userId id (<["status" := status]> reqBody)
         now now' db
       = patch_api_entries_id userId id reqBody now now' db).
Proof.
  split.
  - intros e k He Hown Hk Hshape. unfold patch_api_entries_id.
    rewrite He, decide_False by (intros H; by apply H).
    apply not_elem_of_cons in Hshape as [Hne Hshape].
    unfold updateWikiEntrySchema.
    rewrite (strict_unknown_key _ _ k); [done| |done].
    by rewrite lookup_delete_ne.
  - intros status. unfold patch_api_entries_id.
    by rewrite delete_insert_eq.
Qed.

Lemma edit_route_payload_witness :
  let e := sample_entry "e1" "alice" "approved" false None in
  patch_api_entries_id "alice" "e1"
    {[ "title" := JStr "New title"; "userId" := JStr "bob" ]} 20 21
    (with_entry e)
  = (Message 400 "Invalid entry data", with_entry e).
Proof.
  intros e.
  apply (proj1 (edit_route_payload (with_entry e) "alice" "e1"
                  {[ "title" := JStr "New title"; "userId" := JStr "bob" ]}
                  20 21) e "userId");
    [reflexivity | reflexivity | by eexists | by_evaluation].
Defined.

(** ** What a request may write *)

Lemma handle_writes (unique : bool) (r : Request) (db : Store) :
  writes (deleting r) db (handle unique r db).
Proof.
  destruct r; cbn [handle deleting].
  - unfold post_api_entries.
    destruct (insertWikiEntrySchema _) as [entryData|]; [|constructor].
    unfold createEntry. repeat case_decide; try constructor.
    + by apply eq_None_not_Some.
    + done.
  - unfold patch_api_entries_id.
    destruct (getEntry db id) as [e|]; [|constructor].
    case_decide; [constructor|].
    destruct (updateWikiEntrySchema _) as [v|]; [|constructor].
    name_store (updateEntry id v now db).
    destruct o; cbn [snd].
    + eapply writes_then; by constructor.
    + by constructor.
  - unfold delete_api_entries_id.
    destruct (getEntry db id) as [e|]; [|constructor].
    case_decide; by constructor.
  - unfold patch_api_admin_entries_id_verify.
    destruct (one_of _ _) as [v|]; [|constructor].
    name_store (setEntryVerification id v now db).
    destruct o; by constructor.
  - unfold patch_api_admin_entries_id_moderate.
    destruct (one_of _ _) as [v|]; [|constructor].
    name_store (moderateEntry id v now db).
    destruct o; by constructor.
  - by constructor.
  - unfold post_api_likes.
    destruct entryId as [e|]; [|constructor].
    case_decide; [constructor|].
    destruct (userLikesEntry db e userId); [constructor|].
    rewrite insertLikeSchema_strings. unfold createLike.
    repeat case_decide; try constructor.
    destruct (unique && _); constructor; done.
  - by constructor.
  - unfold patch_api_entries_id_special.
    destruct (getEntry db id) as [e|]; [|constructor].
    case_decide; [constructor|].
    name_store (updateEntry id
                  (mkUpdateWikiEntry None None None None isSpecial
                     (Some <$> (if default false isSpecial
                                then Some (new_token entropy) else None)))
                  now db).
    destruct o; by constructor.
  - unfold post_api_admin_users_userId_ban.
    destruct reason as [reason|]; [|constructor].
    case_decide; [constructor|].
    destruct (negb (storable _)); [constructor|].
    match goal with |- context [banUser ?u ?r ?t ?n ?d] =>
      name_store (banUser u r t n d) end.
    destruct o; by constructor.
  - unfold post_api_admin_users_userId_unban.
    name_store (unbanUser userId now db).
    destruct o; by constructor.
  - by constructor.
  - unfold checkUserBanned.
    destruct (getUser db userId) as [user|]; [|constructor].
    destruct (negb _); [constructor|].
    destruct (User.bannedUntil user); [|constructor].
    case_decide; by constructor.
Qed.

Lemma elem_of_ids_filter {A} (key : A → string) (P : A → Prop)
    `{∀ r, Decision (P r)} (rows : list A) (k : string) :
  k ∈ key <$> rows → (∀ r, r ∈ rows → key r = k → P r) →
  k ∈ key <$> filter P rows.
Proof.
  intros (r & -> & Hin)%list_elem_of_fmap HP.
  apply list_elem_of_fmap. exists r. split; [done|].
  apply list_elem_of_filter. auto.
Qed.

Lemma keys_unique_writes (dels : bool) (db db' : Store) :
  writes dels db db' → keys_unique db → keys_unique db'.
Proof.
  induction 1 as [db|f id db Hid Hown|f id db Hid|e db Hfree Hown
                  |l db Hfree He Hu|entryId userId db|id db _|id db _
                  |u db Hnew|db1 db2 db3 _ IH1 _ IH2];
    intros (Husers & Hentries & Hlikes); unfold keys_unique; simpl.
  - done.
  - by rewrite rewrite_with_ids.
  - by rewrite rewrite_with_ids.
  - split_and!; [done| |done]. rewrite fmap_app. apply NoDup_app.
    split_and!; [done| |apply NoDup_singleton].
    intros k Hk ->%list_elem_of_singleton.
    by apply (first_with_None_ids WikiEntry.id) in Hfree.
  - split_and!; [done|done|]. rewrite fmap_app. apply NoDup_app.
    split_and!; [done| |apply NoDup_singleton].
    intros k (l' & -> & Hin)%list_elem_of_fmap Heq%list_elem_of_singleton.
    apply Hfree, Exists_exists. by exists l'.
  - split_and!; [done|done|by apply NoDup_fmap_filter].
  - split_and!; [done|by apply NoDup_fmap_filter..].
  - split_and!; by apply NoDup_fmap_filter.
  - split_and!; [|done|done]. rewrite fmap_app. apply NoDup_app.
    split_and!; [done| |apply NoDup_singleton].
    intros k Hk ->%list_elem_of_singleton.
    by apply (first_with_None_ids User.id) in Hnew.
  - by apply IH2, IH1.
Qed.

Lemma references_ok_writes (dels : bool) (db db' : Store) :
  writes dels db db' → references_ok db → references_ok db'.
Proof.
  induction 1 as [db|f id db Hid Hown|f id db Hid|e db Hfree Hown
                  |l db Hfree He Hu|entryId userId db|id db _|id db _
                  |u db Hnew|db1 db2 db3 _ IH1 _ IH2];
    intros [Hentries Hlikes]; unfold references_ok; simpl.
  - done.
  - rewrite rewrite_with_ids by done. split; [|done].
    intros e (e0 & -> & Hin)%list_elem_of_fmap.
    case_decide; rewrite ?Hown; auto.
  - by rewrite rewrite_with_ids.
  - split.
    + intros e' [Hin| ->%list_elem_of_singleton]%elem_of_app; [auto|].
      by apply (first_with_is_Some User.id), not_eq_None_Some.
    + intros l Hl. destruct (Hlikes l Hl) as [H1 H2]. split; [|done].
      rewrite fmap_app. apply elem_of_app. by left.
  - split; [done|].
    intros l' [Hin| ->%list_elem_of_singleton]%elem_of_app; [auto|].
    split.
    + by apply (first_with_is_Some WikiEntry.id), not_eq_None_Some.
    + by apply (first_with_is_Some User.id), not_eq_None_Some.
  - split; [done|]. intros l [_ Hin]%list_elem_of_filter. auto.
  - split.
    + intros e [_ Hin]%list_elem_of_filter. auto.
    + intros l [Hne Hin]%list_elem_of_filter.
      destruct (Hlikes l Hin) as [H1 H2]. split; [|done].
      apply elem_of_ids_filter; [done|]. intros e _ Heq. congruence.
  - split.
    + intros e [Hne Hin]%list_elem_of_filter.
      apply elem_of_ids_filter; [auto|]. intros u _ Heq. congruence.
    + intros l [[Hne Hgone] Hin]%list_elem_of_filter.
      destruct (Hlikes l Hin) as [H1 H2]. split.
      * apply elem_of_ids_filter; [done|]. intros e Hin' Heq Howner.
        apply Hgone, list_elem_of_fmap. exists e. split; [done|].
        by apply list_elem_of_filter.
      * apply elem_of_ids_filter; [done|]. intros u _ Heq. congruence.
  - rewrite fmap_app. split.
    + intros e He. apply elem_of_app. left. auto.
    + intros l Hl. destruct (Hlikes l Hl) as [H1 H2]. split; [done|].
      apply elem_of_app. by left.
  - by apply IH2, IH1.
Qed.

Lemma ids_kept_writes (db db' : Store) :
  writes false db db' → ids_kept db db'.
Proof.
  induction 1 as [db|f id db Hid Hown|f id db Hid|e db Hfree Hown
                  |l db Hfree He Hu|entryId userId db|id db Hdel|id db Hdel
                  |u db Hnew|db1 db2 db3 _ IH1 _ IH2];
    unfold ids_kept; simpl; try done.
  - by rewrite rewrite_with_ids.
  - by rewrite rewrite_with_ids.
  - split; [done|]. intros k Hk. rewrite fmap_app. apply elem_of_app. by left.
  - split; [|done]. intros k Hk. rewrite fmap_app. apply elem_of_app. by left.
  - destruct IH1 as [U1 E1], IH2 as [U2 E2]. split; auto.
Qed.

Lemma writes_weaken (dels : bool) (db db' : Store) :
  writes dels db db' → writes true db db'.
Proof.
  induction 1; try (by constructor).
  by eapply writes_then.
Qed.

Lemma run_writes (unique : bool) (rs : list Request) (db : Store) :
  writes true db (run unique rs db).
Proof.
  unfold run. revert db. induction rs as [|r rs IH]; intros db; simpl.
  - constructor.
  - eapply writes_then; [|apply IH].
    eapply writes_weaken, handle_writes.
Qed.

(** X9. Primary keys. Whatever sequence of modelled requests the server
    handles, and whether or not the database carries the unique
    constraint on likes, no two users, no two entries and no two likes
    ever share an id, provided none did at the start. *)
Theorem primary_keys_kept (unique : bool) (rs : list Request) (db : Store) :
  keys_unique db → keys_unique (run unique rs db).
Proof. eapply keys_unique_writes, run_writes. Qed.

Lemma primary_keys_kept_witness :
  keys_unique
    (run false sample_session
       (with_entry (sample_entry "e1" "alice" "approved" false None))).
Proof.
  apply (primary_keys_kept false sample_session
           (with_entry (sample_entry "e1" "alice" "approved" false None))).
  unfold keys_unique. split_and!; by_evaluation.
Defined.

(** X10. Foreign keys. Whatever sequence of modelled requests the server
    handles, every entry's owner and every like's entry and user remain
    rows of the store: creations check their references, and deleting an
    entry or a user takes the dependent rows with it. *)
Theorem foreign_keys_kept (unique : bool) (rs : list Request) (db : Store) :
  references_ok db → references_ok (run unique rs db).
Proof. eapply references_ok_writes, run_writes. Qed.

Lemma foreign_keys_kept_witness :
  references_ok
    (run false sample_session
       (with_entry (sample_entry "e1" "alice" "approved" false None))).
Proof.
  apply (foreign_keys_kept false sample_session
           (with_entry (sample_entry "e1" "alice" "approved" false None))).
  split.
  - intros e ->%list_elem_of_singleton. by_evaluation.
  - intros l Hl. by apply elem_of_nil in Hl.
Defined.

(** ** Deleting entries *)

Lemma filter_all {A} (P : A → Prop) `{∀ x, Decision (P x)} (l : list A) :
  (∀ x, x ∈ l → P x) → filter P l = l.
Proof.
  induction l as [|x l IH]; [done|]. intros HP.
  rewrite filter_cons, decide_True by (apply HP; left).
  f_equal. apply IH. intros y Hy. apply HP. by right.
Qed.

Lemma first_with_filter_out {A} (key : A → string) (k : string)
    (rows : list A) :
  first_with key k (filter (λ r, key r ≠ k) rows) = None.
Proof.
  apply first_with_None. by intros r [Hne _]%list_elem_of_filter.
Qed.

(** X11. DELETE /api/entries/:id by the owner and
    DELETE /api/admin/entries/:id both answer 204 and delete alike: the
    entry can no longer be read, the likes on it are gone, every other
    entry and like and all users stay. The admin route answers 204 for an
    id that names no entry as well, and then, in a store whose references
    are intact, changes nothing. *)
Theorem delete_routes (db : Store) (userId id : string) :
  (∀ e, getEntry db id = Some e → WikiEntry.userId e = userId →
     delete_api_entries_id userId id db = (Sent 204, deleteEntry id db))
  ∧ delete_api_admin_entries_id id db = (Sent 204, deleteEntry id db)
  ∧ getEntry (deleteEntry id db) id = None
  ∧ (∀ id', id' ≠ id → getEntry (deleteEntry id db) id' = getEntry db id')
  ∧ (∀ l, l ∈ likes (deleteEntry id db) ↔ l ∈ likes db ∧ Like.entryId l ≠ id)
  ∧ users (deleteEntry id db) = users db
  ∧ (references_ok db → getEntry db id = None → deleteEntry id db = db).
Proof.
  split_and!.
  - intros e He Hown. unfold delete_api_entries_id.
    rewrite He, decide_False; [done|]. intros H. by apply H.
  - done.
  - apply first_with_filter_out.
  - intros id' Hne. unfold getEntry, deleteEntry. cbn [wikiEntries].
    apply first_with_filter_keep. intros e _ Heq. congruence.
  - intros l. unfold deleteEntry. cbn [likes].
    rewrite list_elem_of_filter. tauto.
  - done.
  - intros [_ Hlikes] Hnone. unfold deleteEntry.
    rewrite !filter_all, Store_eta; [done| |].
    + intros l Hl Heq. destruct (Hlikes l Hl) as [Hin _].
      apply (first_with_None_ids WikiEntry.id) in Hnone. congruence.
    + intros e He. apply (first_with_None WikiEntry.id) with (r := e) in Hnone;
        done.
Qed.

Lemma delete_routes_witness :
  let e := sample_entry "e1" "alice" "approved" false None in
  delete_api_entries_id "alice" "e1" (with_entry e)
  = (Sent 204, deleteEntry "e1" (with_entry e))
  ∧ deleteEntry "e9" (with_entry e) = with_entry e.
Proof.
  intros e. split.
  - apply (proj1 (delete_routes (with_entry e) "alice" "e1") e); reflexivity.
  - apply (proj2 (proj2 (proj2 (proj2 (proj2 (proj2
             (delete_routes (with_entry e) "alice" "e9"))))))); [|reflexivity].
    split.
    + intros e' ->%list_elem_of_singleton. by_evaluation.
    + intros l Hl. by apply elem_of_nil in Hl.
Defined.

(** ** Bans *)

Lemma getUser_update_users_other (f : User.t → User.t) (id id' : string)
    (db : Store) :
  (∀ u, User.id (f u) = User.id u) → id' ≠ id →
  getUser (update_users f id db).2 id' = getUser db id'.
Proof. intros Hid Hne. by apply first_with_rewrite_other. Qed.

(** X12. [checkUserBanned] answers false for an unknown user and writes
    nothing then; checking again at the same instant gives the same
    answer and writes nothing more; a check never touches another user,
    an entry or a like; and an answer of true is never accompanied by a
    write. *)
Theorem checkUserBanned_stable (db : Store) (userId : string) (now now' : Z) :
  let r := checkUserBanned userId now now' db in
  (getUser db userId = None → r = (false, db))
  ∧ (∀ now'', checkUserBanned userId now now'' r.2 = (r.1, r.2))
  ∧ (∀ other, other ≠ userId → getUser r.2 other = getUser db other)
  ∧ wikiEntries r.2 = wikiEntries db
  ∧ likes r.2 = likes db
  ∧ (r.1 = true → r.2 = db).
Proof.
  intros r. unfold r, checkUserBanned.
  destruct (getUser db userId) as [user|] eqn:Hu.
  2: { split_and!; try done. intros now''. cbn [fst snd]. by rewrite Hu. }
  destruct (User.isBanned user) eqn:Hb; cbn [negb].
  2: { split_and!; try done. intros now''. cbn [fst snd].
       by rewrite Hu, Hb. }
  destruct (User.bannedUntil user) as [t|] eqn:Ht.
  2: { split_and!; try done. intros now''. cbn [fst snd].
       by rewrite Hu, Hb, Ht. }
  case_decide as Hexp.
  - split_and!; try done.
    + intros now''. cbn [fst snd].
      rewrite getUser_unbanUser, Hu. done.
    + intros other Hne. cbn [snd].
      by apply getUser_update_users_other; [apply set_ban_id|].
  - split_and!; try done. intros now''. cbn [fst snd].
    by rewrite Hu, Hb, Ht, decide_False.
Qed.

Lemma checkUserBanned_stable_witness :
  checkUserBanned "carol" 1000 1001 (with_banned (sample_banned "bob" None))
  = (false, with_banned (sample_banned "bob" None)).
Proof.
  apply (proj1 (checkUserBanned_stable
                  (with_banned (sample_banned "bob" None)) "carol" 1000 1001)).
  reflexivity.
Defined.




(** X14. POST /api/admin/users/:userId/unban answers 404 for an unknown
    user without writing; for a stored user it clears the three ban fields
    and keeps role and admin flag, after which every check answers false
    and writes nothing. *)
Theorem unban_route (db : Store) (userId : string) (now : Z) :
  let r := post_api_admin_users_userId_unban userId now db in
  (getUser db userId = None → r = (Message 404 "User not found", db))
  ∧ (∀ user, getUser db userId = Some user →
       ∃ user',
         r.1 = Json 200 user'
         ∧ getUser r.2 userId = Some user'
         ∧ User.isBanned user' = false
         ∧ User.banReason user' = None
         ∧ User.bannedUntil user' = None
         ∧ User.role user' = User.role user
         ∧ User.isAdmin user' = User.isAdmin user
         ∧ ∀ t t', checkUserBanned userId t t' r.2 = (false, r.2)).
Proof.
  intros r. unfold r, post_api_admin_users_userId_unban. split.
  - intros Hnone. unfold unbanUser. by rewrite update_users_absent.
  - intros user Hu.
    assert (getUser (unbanUser userId now db).2 userId
            = Some (set_ban false None None now user)) as Hget
      by (by rewrite getUser_unbanUser, Hu).
    assert ((unbanUser userId now db).1
            = Some (set_ban false None None now user)) as Hret.
    { unfold unbanUser, update_users. cbn [fst]. fold (getUser db userId).
      by rewrite Hu. }
    name_store (unbanUser userId now db).
    cbn [fst] in Hret. subst o. cbn [fst snd] in *.
    exists (set_ban false None None now user). split_and!; try done.
    intros t t'. unfold checkUserBanned. by rewrite Hget.
Qed.

Lemma unban_route_witness :
  post_api_admin_users_userId_unban "carol" 10 two_users
  = (Message 404 "User not found", two_users)
  ∧ ∃ user',
      (post_api_admin_users_userId_unban "bob" 10
         (with_banned (sample_banned "bob" None))).1 = Json 200 user'
      ∧ User.isBanned user' = false.
Proof.
  split.
  - apply (proj1 (unban_route two_users "carol" 10)). reflexivity.
  - destruct (proj2 (unban_route (with_banned (sample_banned "bob" None))
                       "bob" 10) (sample_banned "bob" None) eq_refl)
      as (user' & H1 & _ & H3 & _).
    exists user'. by split.
Defined.

(** ** Likes *)

Lemma userLikesEntry_false (db : Store) (entryId userId : string) :
  userLikesEntry db entryId userId = false ↔
  ∀ l, l ∈ likes db → ¬ (Like.entryId l = entryId ∧ Like.userId l = userId).
Proof.
  rewrite <- not_true_iff_false, userLikesEntry_true, list_elem_of_fmap.
  split.
  - intros Hno l Hl [<- <-]. apply Hno. by exists l.
  - intros Hno (l & [= -> ->] & Hl). by apply (Hno l).
Qed.

Lemma removeLike_gone (db : Store) (entryId userId : string) :
  userLikesEntry (removeLike entryId userId db) entryId userId = false.
Proof.
  apply userLikesEntry_false. by intros l [Hne _]%list_elem_of_filter.
Qed.

(** X15. Liking and unliking. After POST /api/likes has created a like
    (201), the user likes the entry and the entry's list of likes has
    grown by that like; DELETE /api/likes/:entryId then restores the
    store exactly. After any DELETE the user does not like the entry, and
    a DELETE for an entry the user does not like changes nothing. *)
Theorem like_unlike (unique : bool) (db : Store) (userId entryId : string) :
  (∀ newId now like db1,
     post_api_likes unique userId (Some entryId) newId now db
     = (Json 201 like, db1) →
     userLikesEntry db entryId userId = false
     ∧ userLikesEntry db1 entryId userId = true
     ∧ like ∈ getLikes db1 entryId
     ∧ length (getLikes db1 entryId) = S (length (getLikes db entryId))
     ∧ delete_api_likes_entryId userId entryId db1 = (Json 200 true, db))
  ∧ userLikesEntry (delete_api_likes_entryId userId entryId db).2
      entryId userId = false
  ∧ (userLikesEntry db entryId userId = false →
     delete_api_likes_entryId userId entryId db = (Json 200 true, db)).
Proof.
  assert (∀ db, userLikesEntry db entryId userId = false →
                removeLike entryId userId db = db) as Hnoop.
  { intros db0 Hfresh. unfold removeLike.
    rewrite filter_all, Store_eta; [done|].
    by apply userLikesEntry_false. }
  split_and!.
  - intros newId now like db1 Hpost.
    destruct (post_api_likes_store unique userId (Some entryId) newId now db)
      as [[Hfail _]|(e & [= <-] & Hfresh & Hreply & Hlikes)].
    { rewrite Hpost in Hfail. by destruct (Hfail like). }
    rewrite Hpost in Hreply, Hlikes. cbn [fst snd] in Hreply, Hlikes.
    injection Hreply as ->.
    assert (users db1 = users db ∧ wikiEntries db1 = wikiEntries db)
      as [Husers Hentries].
    { unfold post_api_likes, createLike in Hpost.
      repeat (case_match || case_decide); by simplify_eq. }
    split_and!; [done| | | |].
    + apply userLikesEntry_true. rewrite Hlikes, fmap_app.
      apply elem_of_app. right. by apply list_elem_of_singleton.
    + unfold getLikes. rewrite elem_of_orderBy_desc, Hlikes.
      apply list_elem_of_filter. split; [done|].
      apply elem_of_app. right. by apply list_elem_of_singleton.
    + unfold getLikes, orderBy_desc.
      rewrite !merge_sort_Permutation, Hlikes, filter_app, length_app.
      rewrite filter_cons, decide_True by done. simpl. lia.
    + unfold delete_api_likes_entryId, removeLike. f_equal.
      rewrite Husers, Hentries, Hlikes, filter_app.
      rewrite filter_all by (by apply userLikesEntry_false).
      rewrite filter_cons, decide_False by (intros H; by apply H).
      by rewrite filter_nil, app_nil_r, Store_eta.
  - apply removeLike_gone.
  - intros Hfresh. unfold delete_api_likes_entryId. by rewrite Hnoop.
Qed.

Lemma like_unlike_witness :
  let db := with_entry (sample_entry "e1" "alice" "approved" false None) in
  let db1 := (post_api_likes false "bob" (Some "e1") "l1" 40 db).2 in
  delete_api_likes_entryId "bob" "e1" db1 = (Json 200 true, db)
  ∧ delete_api_likes_entryId "bob" "e1" db = (Json 200 true, db).
Proof.
  intros db db1. split.
  - apply (proj1 (like_unlike false db "bob" "e1") "l1" 40
             (Like.mk "l1" "e1" "bob" (Some 40)) db1).
    reflexivity.
  - apply (proj2 (proj2 (like_unlike false db "bob" "e1"))). reflexivity.
Defined.

(** X16. Outcomes of POST /api/likes. The route creates the like (201)
    exactly when the entry id is a non-empty string, the user does not
    like the entry yet, the entry and the user exist and the generated id
    is free. A missing or empty entry id and a repeated like are answered
    400; an entry or user that does not exist, or a taken id, 500, not
    404. Every reply other than 201 leaves the store unchanged. *)
Theorem like_route_outcomes (unique : bool) (db : Store) (userId : string)
    (entryId : option string) (newId : string) (now : Z) :
  let r := post_api_likes unique userId entryId newId now db in
  (code_of r.1 = 201%nat ↔
   ∃ e, entryId = Some e ∧ e ≠ EmptyString
        ∧ userLikesEntry db e userId = false
        ∧ getEntry db e ≠ None ∧ getUser db userId ≠ None
        ∧ ¬ Exists (λ l, Like.id l = newId) (likes db))
  ∧ (code_of r.1 ≠ 201%nat → r.2 = db)
  ∧ (entryId = None ∨ entryId = Some EmptyString →
     r.1 = Message 400 "Entry ID required")
  ∧ (∀ e, entryId = Some e → e ≠ EmptyString →
       userLikesEntry db e userId = true →
       r.1 = Message 400 "Already liked this entry")
  ∧ (∀ e, entryId = Some e → e ≠ EmptyString →
       userLikesEntry db e userId = false →
       getEntry db e = None ∨ getUser db userId = None
       ∨ Exists (λ l, Like.id l = newId) (likes db) →
       r.1 = Message 500 "Failed to create like").
Proof.
  intros r. unfold r, post_api_likes.
  destruct entryId as [e|];
    [destruct (decide (e = EmptyString)) as [->|Hne];
     [|destruct (userLikesEntry db e userId) eqn:Hliked;
       [|rewrite insertLikeSchema_strings; unfold createLike;
         cbn [il_entryId il_userId]; rewrite Hliked, andb_false_r;
         destruct (decide (Exists (λ l, Like.id l = newId) (likes db)))
           as [Hid|Hid];
         [|destruct (decide (getEntry db e = None)) as [He|He];
           [|destruct (decide (getUser db userId = None)) as [Hu|Hu]]]]]|].
  all: cbn [fst snd code_of].
  all: split_and!; try done.
  all: try (split; [done|];
            intros (e' & ? & ? & ? & ? & ? & ?); simplify_eq; congruence).
  all: try (intros [?|?]; by simplify_eq).
  all: try (intros e' ? ? ?; simplify_eq; congruence).
  all: try (intros e' ? ? ? [?|[?|?]]; simplify_eq; congruence).
  split; [|done]. intros _. by exists e.
Qed.

Lemma like_route_outcomes_witness :
  let db := with_entry (sample_entry "e1" "alice" "approved" false None) in
  (post_api_likes false "bob" (Some "e9") "l1" 40 db).1
  = Message 500 "Failed to create like"
  ∧ (post_api_likes false "bob" None "l1" 40 db).1
    = Message 400 "Entry ID required".
Proof.
  intros db. split.
  - apply (proj2 (proj2 (proj2 (proj2
             (like_route_outcomes false db "bob" (Some "e9") "l1" 40))))
             "e9"); [reflexivity | discriminate | reflexivity |].
    by left.
  - apply (proj1 (proj2 (proj2
             (like_route_outcomes false db "bob" None "l1" 40)))).
    by left.
Defined.

(** ** Special posts that nobody can open *)

(** X17. GET /api/special/:entryId answers 404 for an id that names no
    entry, and for a special entry whenever the request carries no token
    or an empty one, or the entry's stored token is null or empty, or the
    two differ: a special entry without a proper stored token is closed to
    everybody. A 200 reply always carries the stored entry itself. *)
Theorem special_route_closed (db : Store) (entryId : string)
    (token : option string) :
  (getEntry db entryId = None →
   get_api_special_entryId entryId token db
   = Message 404 "Entry not found or access denied")
  ∧ (∀ e, getEntry db entryId = Some e → WikiEntry.isSpecial e = true →
       token = None ∨ token = Some EmptyString
       ∨ WikiEntry.specialAccessToken e = None
       ∨ WikiEntry.specialAccessToken e = Some EmptyString
       ∨ token ≠ WikiEntry.specialAccessToken e →
       get_api_special_entryId entryId token db
       = Message 404 "Entry not found or access denied")
  ∧ (∀ e, get_api_special_entryId entryId token db = Json 200 e →
       getEntry db entryId = Some e).
Proof.
  unfold get_api_special_entryId. split_and!.
  - intros Hnone. unfold getSpecialPost. by rewrite Hnone.
  - intros e He Hs Hclosed.
    destruct (getSpecialPost db entryId token) as [e'|] eqn:Hget; [|done].
    apply getSpecialPost_Some in Hget as [Hget Htok].
    rewrite He in Hget. injection Hget as <-.
    destruct (Htok Hs) as (t & -> & Hne & Hstored).
    rewrite Hstored in Hclosed.
    destruct Hclosed as [?|[[= ?]|[?|[[= ?]|?]]]]; done.
  - intros e.
    destruct (getSpecialPost db entryId token) as [e'|] eqn:Hget; [|done].
    intros [= <-]. by apply getSpecialPost_Some in Hget as [Hget _].
Qed.

Lemma special_route_closed_witness :
  let e := sample_entry "e1" "alice" "approved" true (Some EmptyString) in
  get_api_special_entryId "e9" (Some "t") (with_entry e)
  = Message 404 "Entry not found or access denied"
  ∧ get_api_special_entryId "e1" (Some EmptyString) (with_entry e)
    = Message 404 "Entry not found or access denied".
Proof.
  intros e. split.
  - apply (proj1 (special_route_closed (with_entry e) "e9" (Some "t"))).
    reflexivity.
  - apply (proj1 (proj2 (special_route_closed (with_entry e) "e1"
                           (Some EmptyString))) e);
      [reflexivity | reflexivity |].
    right. by left.
Defined.

(** ** Roles, badges and signing in *)

Lemma update_users_present (f : User.t → User.t) (id : string) (db : Store)
    (u : User.t) :
  (∀ u, User.id (f u) = User.id u) →
  getUser db id = Some u →
  (update_users f id db).1 = Some (f u)
  ∧ getUser (update_users f id db).2 id = Some (f u)
  ∧ (∀ id', id' ≠ id →
       getUser (update_users f id db).2 id' = getUser db id')
  ∧ wikiEntries (update_users f id db).2 = wikiEntries db
  ∧ likes (update_users f id db).2 = likes db.
Proof.
  intros Hid Hu. split_and!; try done.
  - simpl. fold (getUser db id). by rewrite Hu.
  - by rewrite getUser_update_users, Hu.
  - intros id' Hne. by apply getUser_update_users_other.
Qed.

(** X18. PATCH /api/admin/users/:id/role and .../badge. A role among
    "user", "moderator", "admin" (a badge among "green_check",
    "red_check", "black_check", "none") is written to the user and
    nothing else of the user changes except [updatedAt]: in particular
    the role "admin" does not set the [isAdmin] flag, and neither route
    touches the ban. Any other value is answered 400, whoever the user
    is, and a listed value for an unknown user 404, both without a
    write. *)
Theorem role_and_badge_routes (db : Store) (id : string) (reqBody : body)
    (now : Z) :
  let r := patch_api_admin_users_id_role id reqBody now db in
  let b := patch_api_admin_users_id_badge id reqBody now db in
  (∀ role user,
     reqBody !! "role" = Some (JStr role) →
     role ∈ ["user"; "moderator"; "admin"] →
     getUser db id = Some user →
     r.1 = Json 200 (set_role role now user)
     ∧ getUser r.2 id = Some (set_role role now user)
     ∧ User.role (set_role role now user) = role
     ∧ User.isAdmin (set_role role now user) = User.isAdmin user
     ∧ User.isBanned (set_role role now user) = User.isBanned user
     ∧ User.badge (set_role role now user) = User.badge user)
  ∧ ((∀ role, reqBody !! "role" = Some (JStr role) →
        role ∉ ["user"; "moderator"; "admin"]) →
     r = (Message 400 "Invalid role", db))
  ∧ (∀ role,
       reqBody !! "role" = Some (JStr role) →
       role ∈ ["user"; "moderator"; "admin"] →
       getUser db id = None →
       r = (Message 404 "User not found", db))
  ∧ (∀ badge user,
       reqBody !! "badge" = Some (JStr badge) →
       badge ∈ ["green_check"; "red_check"; "black_check"; "none"] →
       getUser db id = Some user →
       b.1 = Json 200 (set_badge badge now user)
       ∧ getUser b.2 id = Some (set_badge badge now user)
       ∧ User.badge (set_badge badge now user) = Some badge
       ∧ User.role (set_badge badge now user) = User.role user
       ∧ User.isAdmin (set_badge badge now user) = User.isAdmin user)
  ∧ ((∀ badge, reqBody !! "badge" = Some (JStr badge) →
        badge ∉ ["green_check"; "red_check"; "black_check"; "none"]) →
     b = (Message 400 "Invalid badge type", db))
  ∧ (∀ badge,
       reqBody !! "badge" = Some (JStr badge) →
       badge ∈ ["green_check"; "red_check"; "black_check"; "none"] →
       getUser db id = None →
       b = (Message 404 "User not found", db)).
Proof.
  intros r b.
  unfold r, b, patch_api_admin_users_id_role, patch_api_admin_users_id_badge.
  split_and!.
  - intros role user Hs Hin Hu.
    rewrite (proj2 (one_of_Some _ _ role)) by done. unfold updateUserRole.
    destruct (update_users_present (set_role role now) id db user)
      as (H1 & H2 & _); [done..|].
    name_store (update_users (set_role role now) id db).
    cbn [fst snd] in *. subst o. by split_and!.
  - intros Hbad. destruct (one_of _ _) as [s|] eqn:Hone; [|done].
    apply one_of_Some in Hone as [Hs Hin]. by destruct (Hbad s Hs).
  - intros role Hs Hin Hnone.
    rewrite (proj2 (one_of_Some _ _ role)) by done.
    unfold updateUserRole. by rewrite update_users_absent.
  - intros badge user Hs Hin Hu.
    rewrite (proj2 (one_of_Some _ _ badge)) by done. unfold setUserBadge.
    destruct (update_users_present (set_badge badge now) id db user)
      as (H1 & H2 & _); [done..|].
    name_store (update_users (set_badge badge now) id db).
    cbn [fst snd] in *. subst o. by split_and!.
  - intros Hbad. destruct (one_of _ _) as [s|] eqn:Hone; [|done].
    apply one_of_Some in Hone as [Hs Hin]. by destruct (Hbad s Hs).
  - intros badge Hs Hin Hnone.
    rewrite (proj2 (one_of_Some _ _ badge)) by done.
    unfold setUserBadge. by rewrite update_users_absent.
Qed.

Lemma role_and_badge_routes_witness :
  (patch_api_admin_users_id_role "bob" {[ "role" := JStr "admin" ]} 30
     two_users).1
  = Json 200 (set_role "admin" 30 (sample_user "bob"))
  ∧ User.isAdmin (set_role "admin" 30 (sample_user "bob")) = false
  ∧ patch_api_admin_users_id_badge "bob" {[ "badge" := JStr "gold" ]} 30
      two_users
    = (Message 400 "Invalid badge type", two_users)
  ∧ patch_api_admin_users_id_role "carol" {[ "role" := JStr "admin" ]} 30
      two_users
    = (Message 404 "User not found", two_users).
Proof.
  destruct (proj1 (role_and_badge_routes two_users "bob"
                     {[ "role" := JStr "admin" ]} 30)
              "admin" (sample_user "bob"))
    as (H1 & _ & _ & H4 & _); [reflexivity | by_evaluation | reflexivity |].
  split_and!; [exact H1 | exact H4 | |].
  - apply (proj1 (proj2 (proj2 (proj2 (proj2
             (role_and_badge_routes two_users "bob"
                {[ "badge" := JStr "gold" ]} 30)))))).
    intros badge [= <-]. by_evaluation.
  - apply (proj1 (proj2 (proj2
             (role_and_badge_routes two_users "carol"
                {[ "role" := JStr "admin" ]} 30))) "admin");
      [reflexivity | by_evaluation | reflexivity].
Defined.

(** X19. [upsertUser] on a user whose id is stored updates that row and
    inserts nothing. Email, first name, last name, picture and [isAdmin]
    each become what the payload gives where it defines the field (also
    when that is null) and stay as stored where it leaves the field
    undefined; [updatedAt] becomes the time of the call. The role, badge,
    ban fields, username, password, bio, background and creation time are
    kept, whatever the payload says about them; the entries, the likes and
    the other users stay. It is refused when the payload's email belongs
    to another user. *)
Theorem upsertUser_existing (db : Store) (userData : UpsertUser)
    (newId : string) (now : Z) (existing : User.t) :
  getUser db (default newId (up_id userData)) = Some existing →
  (email_taken db (User.id existing) (default None (up_email userData)) →
   upsertUser userData newId now db = DbError)
  ∧ (∀ user db', upsertUser userData newId now db = DbOk (user, db') →
       getUser db' (User.id existing) = Some user
       ∧ User.id <$> users db' = User.id <$> users db
       ∧ User.id user = User.id existing
       ∧ User.role user = User.role existing
       ∧ User.badge user = User.badge existing
       ∧ User.isBanned user = User.isBanned existing
       ∧ User.bannedUntil user = User.bannedUntil existing
       ∧ User.banReason user = User.banReason existing
       ∧ User.username user = User.username existing
       ∧ User.password user = User.password existing
       ∧ User.bio user = User.bio existing
       ∧ User.createdAt user = User.createdAt existing
       ∧ User.isAdmin user
         = default (User.isAdmin existing) (up_isAdmin userData)
       ∧ User.email user = default (User.email existing) (up_email userData)
       ∧ User.firstName user
         = default (User.firstName existing) (up_firstName userData)
       ∧ User.lastName user
         = default (User.lastName existing) (up_lastName userData)
       ∧ User.profileImageUrl user
         = default (User.profileImageUrl existing) (up_profileImageUrl userData)
       ∧ User.profileBackgroundUrl user = User.profileBackgroundUrl existing
       ∧ User.updatedAt user = Some now
       ∧ (∀ id', id' ≠ User.id existing → getUser db' id' = getUser db id')
       ∧ wikiEntries db' = wikiEntries db
       ∧ likes db' = likes db).
Proof.
  intros Hu. pose proof Hu as [_ Hid]%first_with_elem.
  unfold upsertUser. rewrite Hu, <- Hid. split.
  - intros Htaken. by rewrite decide_True.
  - intros user db'. case_decide; [done|]. intros [= <- <-].
    destruct (update_users_present (set_signin userData now)
                (User.id existing) db existing) as (_ & H2 & H3 & H4 & H5);
      [done|by rewrite Hid|].
    split_and!; try done.
    cbn [snd update_users users]. by apply rewrite_with_ids.
Qed.

Lemma upsertUser_existing_witness :
  let banned := sample_banned "bob" None in
  let userData :=
    mkUpsertUser (Some "bob") (Some (Some "bob@example.org")) None None
      (Some (Some "Bob")) None None None None None (Some "admin") None
      (Some false) None None None None in
  ∃ user db',
    upsertUser userData "fresh" 60 (with_banned banned) = DbOk (user, db')
    ∧ User.isBanned user = true
    ∧ User.role user = "user"
    ∧ User.email user = Some "bob@example.org"
    ∧ User.firstName user = Some "Bob"
    ∧ User.lastName user = User.lastName banned.
Proof.
  intros banned userData.
  destruct (upsertUser userData "fresh" 60 (with_banned banned))
    as [[user db']|] eqn:Hup; [|by vm_compute in Hup].
  exists user, db'.
  destruct (proj2 (upsertUser_existing (with_banned banned) userData "fresh" 60
                     banned eq_refl) user db' Hup)
    as (_ & _ & _ & Hrole & _ & Hban & _ & _ & _ & _ & _ & _ & _ & Hmail
        & Hfirst & Hlast & _).
  split_and!;
    [done | exact Hban | exact Hrole | exact Hmail | exact Hfirst | exact Hlast].
Defined.



(** ** Gallery, reports and comments *)

Lemma Database_eta (d : Database) :
  mkDatabase (store d) (userImages d) (contentReports d) (comments d) = d.
Proof. by destruct d. Qed.

Lemma pick_lookup (keys : list string) (b : body) (k : string) :
  k ∈ keys → pick keys b !! k = b !! k.
Proof.
  intros Hk. unfold pick. destruct (b !! k) as [v|] eqn:Hv.
  - by apply map_lookup_filter_Some_2.
  - apply map_lookup_filter_None. by left.
Qed.

Lemma z_string_Some (max : option nat) (v : jval) (s : string) :
  z_string max v = Some s →
  v = JStr s ∧ ∀ n, max = Some n → (String.length s ≤ n)%nat.
Proof.
  destruct v; try done. simpl. destruct max as [n|].
  - case_decide; [|done]. intros [= ->]. split; [done|]. by intros ? [= <-].
  - intros [= ->]. by split.
Qed.

Lemma required_z_string (max : option nat) (k : string) (b : body) (s : string) :
  required (z_string max) k b = Some s →
  b !! k = Some (JStr s) ∧ ∀ n, max = Some n → (String.length s ≤ n)%nat.
Proof.
  unfold required. intros (v & Hv & Hs)%bind_Some.
  apply z_string_Some in Hs as [-> Hlen]. by split.
Qed.

Lemma truthy_JStr (v : option jval) (s : string) :
  v = Some (JStr s) → truthy v = true → s ≠ EmptyString.
Proof. intros -> Ht. simpl in Ht. by apply bool_decide_eq_true in Ht. Qed.

(** X21. POST /api/user/gallery refuses a missing or empty URL with 400.
    An image it adds (201) has the generated id, the caller as owner and
    the URL as given; the caller's gallery is the old one plus that
    image, every other gallery is as before, and the caller is a stored
    user. Every other reply leaves the database unchanged. *)
Theorem gallery_add (d : Database) (userId : string)
    (imageUrl fileName : option string) (newId : string) (now : Z) :
  let r := post_api_user_gallery userId imageUrl fileName newId now d in
  (imageUrl = None ∨ imageUrl = Some EmptyString →
   r = (Message 400 "Image URL required", d))
  ∧ (∀ image, r.1 = Json 201 image →
       UserImage.id image = newId
       ∧ UserImage.userId image = userId
       ∧ imageUrl = Some (UserImage.imageUrl image)
       ∧ is_Some (getUser (store d) userId)
       ∧ (∀ i, i ∈ getUserImages r.2 userId ↔
               i = image ∨ i ∈ getUserImages d userId)
       ∧ (∀ other i, other ≠ userId →
            i ∈ getUserImages r.2 other ↔ i ∈ getUserImages d other)
       ∧ store r.2 = store d
       ∧ contentReports r.2 = contentReports d
       ∧ comments r.2 = comments d)
  ∧ ((∀ image, r.1 ≠ Json 201 image) → r.2 = d).
Proof.
  intros r. unfold r, post_api_user_gallery. split_and!.
  - intros [-> | ->]; [done|]. by rewrite decide_True.
  - destruct imageUrl as [url|]; [|done].
    case_decide; [done|]. unfold addUserImage.
    repeat case_decide; try done.
    intros image [= <-]. cbn [fst snd]. split_and!; try done.
    + by apply not_eq_None_Some.
    + intros i. unfold getUserImages. cbn [userImages].
      rewrite !elem_of_orderBy_desc, filter_app, elem_of_app.
      rewrite filter_cons, decide_True by done.
      rewrite filter_nil, list_elem_of_singleton. tauto.
    + intros other i Hne. unfold getUserImages. cbn [userImages].
      rewrite !elem_of_orderBy_desc, filter_app.
      rewrite (filter_cons _ _ []), decide_False by (simpl; congruence).
      by rewrite filter_nil, app_nil_r.
  - destruct imageUrl as [url|]; [|done].
    case_decide; [done|]. unfold addUserImage.
    repeat case_decide; try done.
    intros Hnot. by edestruct Hnot.
Qed.

Lemma gallery_add_witness :
  let d := mkDatabase two_users [] [] [] in
  post_api_user_gallery "alice" None None "i1" 10 d
  = (Message 400 "Image URL required", d)
  ∧ UserImage.userId (UserImage.mk "i1" "alice" "u.png" None (Some 10))
    = "alice".
Proof.
  intros d. split.
  - apply (proj1 (gallery_add d "alice" None None "i1" 10)). by left.
  - apply (proj1 (proj2 (gallery_add d "alice" (Some "u.png") None "i1" 10))
             (UserImage.mk "i1" "alice" "u.png" None (Some 10))).
    reflexivity.
Defined.

(** X22. DELETE /api/user/gallery/:imageId deletes only from the
    caller's own gallery: when no image with that id belongs to the
    caller (the id is unknown, or the image is someone else's) the route
    answers 403 and the database is unchanged; when one does, it answers
    204, the image is gone and every image with another id stays. *)
Theorem gallery_delete (d : Database) (userId imageId : string) :
  let r := delete_api_user_gallery_imageId userId imageId d in
  ((∀ i, i ∈ userImages d → UserImage.id i = imageId →
         UserImage.userId i ≠ userId) →
   r = (Message 403 "Forbidden - This image doesn't belong to you", d))
  ∧ (∀ i, i ∈ userImages d → UserImage.id i = imageId →
          UserImage.userId i = userId →
          r.1 = Sent 204
          ∧ (∀ j, j ∈ userImages r.2 ↔
                  j ∈ userImages d ∧ UserImage.id j ≠ imageId)
          ∧ store r.2 = store d
          ∧ contentReports r.2 = contentReports d
          ∧ comments r.2 = comments d).
Proof.
  intros r. unfold r, delete_api_user_gallery_imageId. split.
  - intros Hforeign.
    destruct (list_find _ _) as [[n i]|] eqn:Hfind; [|done].
    apply list_find_Some in Hfind as (Hin & Hid & _).
    apply list_elem_of_lookup_2 in Hin. unfold getUserImages in Hin.
    apply elem_of_orderBy_desc, list_elem_of_filter in Hin as [Hown Hin].
    by destruct (Hforeign i Hin Hid).
  - intros i Hin Hid Hown.
    destruct (list_find_elem_of (λ img, UserImage.id img = imageId)
                (getUserImages d userId) i) as [[n j] ->]; [|done|].
    { unfold getUserImages.
      by apply elem_of_orderBy_desc, list_elem_of_filter. }
    cbn [fst snd]. split_and!; try done.
    intros j'. unfold deleteUserImage. cbn [userImages].
    rewrite list_elem_of_filter. tauto.
Qed.

Lemma gallery_delete_witness :
  let mine := UserImage.mk "i1" "alice" "a.png" None (Some 10) in
  let d := mkDatabase two_users [mine] [] [] in
  delete_api_user_gallery_imageId "bob" "i1" d
  = (Message 403 "Forbidden - This image doesn't belong to you", d)
  ∧ (delete_api_user_gallery_imageId "alice" "i1" d).1 = Sent 204.
Proof.
  intros mine d. split.
  - apply (proj1 (gallery_delete d "bob" "i1")).
    intros i ->%list_elem_of_singleton _. discriminate.
  - apply (proj2 (gallery_delete d "alice" "i1") mine);
      [by apply list_elem_of_singleton | reflexivity | reflexivity].
Defined.

Lemma insertContentReportSchema_Some (b : body) (v : InsertContentReport) :
  insertContentReportSchema b = Some v →
  b !! "entryId" = Some (JStr (ir_entryId v))
  ∧ b !! "reporterId" = Some (JStr (ir_reporterId v))
  ∧ b !! "reason" = Some (JStr (ir_reason v))
  ∧ (String.length (ir_reason v) ≤ 100)%nat.
Proof.
  unfold insertContentReportSchema. intros Hparse.
  apply bind_Some in Hparse as (e & [He _]%required_z_string & Hparse).
  apply bind_Some in Hparse as (u & [Hu _]%required_z_string & Hparse).
  apply bind_Some in Hparse as (w & [Hw Hlen]%required_z_string & Hparse).
  apply bind_Some in Hparse as (x & _ & [= <-]). simpl. split_and!; auto.
Qed.

Lemma insertCommentSchema_Some (b : body) (v : InsertComment) :
  insertCommentSchema b = Some v →
  b !! "entryId" = Some (JStr (ic_entryId v))
  ∧ b !! "userId" = Some (JStr (ic_userId v))
  ∧ b !! "content" = Some (JStr (ic_content v)).
Proof.
  unfold insertCommentSchema. intros Hparse.
  apply bind_Some in Hparse as (e & [He _]%required_z_string & Hparse).
  apply bind_Some in Hparse as (u & [Hu _]%required_z_string & Hparse).
  apply bind_Some in Hparse as (c & [Hc _]%required_z_string & [= <-]).
  by split_and!.
Qed.

(** X23. POST /api/reports. A report it creates (201) is filed under the
    caller and starts with status "pending", whatever [reporterId] or
    [status] the body carries; its entry id and reason are the body's,
    both non-empty strings, the reason at most 100 characters, and the
    entry exists. A body without entry id or without reason is answered
    400. Every reply other than 201 leaves the database unchanged. *)
Theorem report_route (d : Database) (userId : string) (reqBody : body)
    (newId : string) (now : Z) :
  let r := post_api_reports userId reqBody newId now d in
  (∀ report, r.1 = Json 201 report →
     ContentReport.id report = newId
     ∧ ContentReport.reporterId report = userId
     ∧ ContentReport.status report = "pending"
     ∧ reqBody !! "entryId" = Some (JStr (ContentReport.entryId report))
     ∧ reqBody !! "reason" = Some (JStr (ContentReport.reason report))
     ∧ ContentReport.entryId report ≠ EmptyString
     ∧ ContentReport.reason report ≠ EmptyString
     ∧ (String.length (ContentReport.reason report) ≤ 100)%nat
     ∧ is_Some (getEntry (store d) (ContentReport.entryId report))
     ∧ contentReports r.2 = (contentReports d ++ [report])%list
     ∧ store r.2 = store d
     ∧ userImages r.2 = userImages d
     ∧ comments r.2 = comments d)
  ∧ ((∀ report, r.1 ≠ Json 201 report) → r.2 = d)
  ∧ (reqBody !! "entryId" = None ∨ reqBody !! "reason" = None →
     r = (Message 400 "Entry ID and reason are required", d)).
Proof.
  intros r. unfold r, post_api_reports. split_and!.
  - destruct (negb (truthy (reqBody !! "entryId"))
              || negb (truthy (reqBody !! "reason"))) eqn:Hgiven; [done|].
    apply orb_false_elim in Hgiven as [He Hr].
    apply negb_false_iff in He, Hr.
    destruct (insertContentReportSchema _) as [v|] eqn:Hparse; [|done].
    apply insertContentReportSchema_Some in Hparse as (H1 & H2 & H3 & H4).
    rewrite lookup_insert_ne, pick_lookup in H1 by (done || by_evaluation).
    rewrite lookup_insert_eq in H2. injection H2 as H2.
    rewrite lookup_insert_ne, pick_lookup in H3 by (done || by_evaluation).
    unfold createReport. repeat case_decide; try done.
    intros report [= <-]. cbn [fst snd]. split_and!; try done.
    + by eapply truthy_JStr.
    + by eapply truthy_JStr.
    + by apply not_eq_None_Some.
  - destruct (negb _ || negb _); [done|].
    destruct (insertContentReportSchema _) as [v|]; [|done].
    unfold createReport. repeat case_decide; try done.
    intros Hnot. by edestruct Hnot.
  - intros [-> | ->]; [done|]. by rewrite orb_true_r.
Qed.

Lemma report_route_witness :
  let d := mkDatabase (with_entry (sample_entry "e1" "alice" "approved" false
                                     None)) [] [] [] in
  let reqBody : body :=
    {[ "entryId" := JStr "e1"; "reason" := JStr "spam";
       "status" := JStr "resolved"; "reporterId" := JStr "alice" ]} in
  let report :=
    ContentReport.mk "r1" "e1" "bob" "spam" None "pending" (Some 50) (Some 50) in
  (post_api_reports "bob" reqBody "r1" 50 d).1 = Json 201 report
  ∧ ContentReport.reporterId report = "bob"
  ∧ ContentReport.status report = "pending"
  ∧ post_api_reports "bob" {[ "entryId" := JStr "e1" ]} "r1" 50 d
    = (Message 400 "Entry ID and reason are required", d).
Proof.
  intros d reqBody report.
  assert ((post_api_reports "bob" reqBody "r1" 50 d).1 = Json 201 report)
    as Hcreated by (by vm_compute).
  destruct (proj1 (report_route d "bob" reqBody "r1" 50) report Hcreated)
    as (_ & H2 & H3 & _).
  split_and!; [exact Hcreated | exact H2 | exact H3 |].
  apply (proj2 (proj2 (report_route d "bob" {[ "entryId" := JStr "e1" ]}
                         "r1" 50))).
  by right.
Defined.






(** X25. Comments. A comment POST /api/comments creates (201) is written
    under the caller, whatever [userId] the body carries, on an existing
    entry, with the body's non-empty content. DELETE
    /api/comments/:commentId never looks at who asks: for every caller it
    answers success, removes the comment with that id, whoever wrote it,
    and keeps all others; when no comment has the id it still answers
    success and changes nothing. *)
Theorem comment_routes (d : Database) (userId : string) (reqBody : body)
    (newId : string) (now : Z) (commentId : string) :
  let r := post_api_comments userId reqBody newId now d in
  let x := delete_api_comments_commentId userId commentId d in
  (∀ comment, r.1 = Json 201 comment →
     Comment.id comment = newId
     ∧ Comment.userId comment = userId
     ∧ reqBody !! "entryId" = Some (JStr (Comment.entryId comment))
     ∧ reqBody !! "content" = Some (JStr (Comment.content comment))
     ∧ Comment.content comment ≠ EmptyString
     ∧ is_Some (getEntry (store d) (Comment.entryId comment))
     ∧ comments r.2 = (comments d ++ [comment])%list
     ∧ store r.2 = store d)
  ∧ ((∀ comment, r.1 ≠ Json 201 comment) → r.2 = d)
  ∧ x.1 = Json 200 true
  ∧ (∀ c, c ∈ comments x.2 ↔ c ∈ comments d ∧ Comment.id c ≠ commentId)
  ∧ store x.2 = store d
  ∧ ((∀ c, c ∈ comments d → Comment.id c ≠ commentId) → x.2 = d).
Proof.
  intros r x. unfold r, x, post_api_comments, delete_api_comments_commentId.
  split_and!; try done.
  - destruct (negb (truthy (reqBody !! "entryId"))
              || negb (truthy (reqBody !! "content"))) eqn:Hgiven; [done|].
    apply orb_false_elim in Hgiven as [He Hc].
    apply negb_false_iff in He, Hc.
    destruct (insertCommentSchema _) as [v|] eqn:Hparse; [|done].
    apply insertCommentSchema_Some in Hparse as (H1 & H2 & H3).
    rewrite lookup_insert_ne, pick_lookup in H1 by (done || by_evaluation).
    rewrite lookup_insert_eq in H2. injection H2 as H2.
    rewrite lookup_insert_ne, pick_lookup in H3 by (done || by_evaluation).
    unfold createComment. repeat case_decide; try done.
    intros comment [= <-]. cbn [fst snd]. split_and!; try done.
    + by eapply truthy_JStr.
    + by apply not_eq_None_Some.
  - destruct (negb _ || negb _); [done|].
    destruct (insertCommentSchema _) as [v|]; [|done].
    unfold createComment. repeat case_decide; try done.
    intros Hnot. by edestruct Hnot.
  - intros c. cbn [snd]. unfold deleteComment. cbn [comments].
    rewrite list_elem_of_filter. tauto.
  - intros Hnone. cbn [snd]. unfold deleteComment.
    by rewrite filter_all, Database_eta.
Qed.

Lemma comment_routes_witness :
  let theirs := Comment.mk "c1" "e1" "alice" "First!" (Some 50) (Some 50) in
  let d := mkDatabase (with_entry (sample_entry "e1" "alice" "approved" false
                                     None)) [] [] [theirs] in
  comments (delete_api_comments_commentId "bob" "c1" d).2 = []
  ∧ (delete_api_comments_commentId "bob" "c9" d).2 = d
  ∧ Comment.userId (Comment.mk "c2" "e1" "bob" "Hi" (Some 60) (Some 60)) = "bob".
Proof.
  intros theirs d. split_and!.
  - reflexivity.
  - apply (proj2 (proj2 (proj2 (proj2 (proj2
             (comment_routes d "bob" ∅ "c2" 60 "c9")))))).
    intros c ->%list_elem_of_singleton. discriminate.
  - apply (proj1 (comment_routes d "bob"
                    {[ "entryId" := JStr "e1"; "content" := JStr "Hi";
                       "userId" := JStr "alice" ]} "c2" 60 "c9")
             (Comment.mk "c2" "e1" "bob" "Hi" (Some 60) (Some 60))).
    by vm_compute.
Defined.

(** ** Foreign keys over the whole database *)

Lemma user_routes_write (db : Store) :
  (∀ id reqBody now,
     writes false db (patch_api_admin_users_id_role id reqBody now db).2)
  ∧ (∀ id reqBody now,
       writes false db (patch_api_admin_users_id_badge id reqBody now db).2)
  ∧ (∀ userId imageUrl now,
       writes false db (patch_api_user_avatar userId imageUrl now db).2)
  ∧ (∀ userId backgroundUrl now,
       writes false db
         (patch_api_user_background userId backgroundUrl now db).2)
  ∧ (∀ userData newId now, writes false db (signed_in userData newId now db)).
Proof.
  split_and!.
  - intros id reqBody now. unfold patch_api_admin_users_id_role.
    destruct (one_of _ _) as [role|]; [|constructor].
    name_store (updateUserRole id role now db). destruct o; by constructor.
  - intros id reqBody now. unfold patch_api_admin_users_id_badge.
    destruct (one_of _ _) as [badge|]; [|constructor].
    name_store (setUserBadge id badge now db). destruct o; by constructor.
  - intros userId [url|] now; unfold patch_api_user_avatar; [|constructor].
    case_decide; [constructor|].
    name_store (updateProfileAvatar userId url now db). by constructor.
  - intros userId [url|] now; unfold patch_api_user_background; [|constructor].
    case_decide; [constructor|].
    name_store (updateProfileBackground userId url now db). by constructor.
  - intros userData newId now. unfold signed_in, upsertUser.
    destruct (getUser db _) as [existing|] eqn:Hu; case_decide;
      try constructor; done.
Qed.

Lemma references_ok_db_on_store (f : Store → Store) (d : Database) :
  writes false (store d) (f (store d)) →
  references_ok_db d → references_ok_db (on_store f d).
Proof.
  intros Hw (Hstore & Himages & Hreports & Hcomments).
  destruct (ids_kept_writes _ _ Hw) as [Husers Hentries].
  unfold references_ok_db, on_store. cbn [store userImages contentReports
                                            comments].
  split_and!.
  - by eapply references_ok_writes.
  - intros i Hi. auto.
  - intros r Hr. destruct (Hreports r Hr). auto.
  - intros c Hc. destruct (Hcomments c Hc). auto.
Qed.

Lemma references_ok_db_deleteEntry (id : string) (d : Database) :
  references_ok_db d → references_ok_db (Full.deleteEntry id d).
Proof.
  intros (Hstore & Himages & Hreports & Hcomments).
  unfold references_ok_db, Full.deleteEntry.
  cbn [store userImages contentReports comments]. split_and!.
  - eapply references_ok_writes; [|done]. by apply (writes_deleteEntry true).
  - done.
  - intros r [Hne Hr]%list_elem_of_filter. destruct (Hreports r Hr).
    split; [|done]. cbn [deleteEntry wikiEntries].
    apply elem_of_ids_filter; [done|]. intros e _ Heq. congruence.
  - intros c [Hne Hc]%list_elem_of_filter. destruct (Hcomments c Hc).
    split; [|done]. cbn [deleteEntry wikiEntries].
    apply elem_of_ids_filter; [done|]. intros e _ Heq. congruence.
Qed.

Lemma references_ok_db_deleteUser (userId : string) (d : Database) :
  references_ok_db d → references_ok_db (Full.deleteUser userId d).
Proof.
  intros (Hstore & Himages & Hreports & Hcomments).
  unfold references_ok_db, Full.deleteUser.
  cbn [store userImages contentReports comments].
  assert (∀ k, k ∈ User.id <$> users (store d) → k ≠ userId →
               k ∈ User.id <$> users (deleteUser userId (store d))) as Husers.
  { intros k Hk Hne. cbn [deleteUser users].
    apply elem_of_ids_filter; [done|]. intros u _ Heq. congruence. }
  assert (∀ k, k ∈ WikiEntry.id <$> wikiEntries (store d) →
               k ∉ WikiEntry.id
                     <$> filter (λ e, WikiEntry.userId e = userId)
                           (wikiEntries (store d)) →
               k ∈ WikiEntry.id <$> wikiEntries (deleteUser userId (store d)))
    as Hentries.
  { intros k Hk Hgone. cbn [deleteUser wikiEntries].
    apply elem_of_ids_filter; [done|]. intros e He Heq Hown.
    apply Hgone, list_elem_of_fmap. exists e. split; [done|].
    by apply list_elem_of_filter. }
  split_and!.
  - eapply references_ok_writes; [|done]. by apply (writes_deleteUser true).
  - intros i [Hne Hi]%list_elem_of_filter. auto.
  - intros r [[Hne Hgone] Hr]%list_elem_of_filter.
    destruct (Hreports r Hr). auto.
  - intros c [[Hne Hgone] Hc]%list_elem_of_filter.
    destruct (Hcomments c Hc). auto.
Qed.

Lemma handle_db_references (unique : bool) (r : DbRequest) (d : Database) :
  references_ok_db d → references_ok_db (handle_db unique r d).
Proof.
  intros Hok. pose proof Hok as (Hstore & Himages & Hreports & Hcomments).
  destruct (user_routes_write (store d)) as (W1 & W2 & W3 & W4 & W5).
  destruct r as [r| | | | | | | | | | |]; cbn [handle_db].
  - destruct r; cbn [handle_db];
      try (apply references_ok_db_on_store; [|done];
           match goal with
           | |- writes false _ (handle ?u ?r _) => apply (handle_writes u r)
           end).
    + unfold delete_api_entries_id_full.
      repeat (case_match || case_decide); try done.
      by apply references_ok_db_deleteEntry.
    + by apply references_ok_db_deleteEntry.
    + by apply references_ok_db_deleteUser.
  - by apply references_ok_db_on_store.
  - by apply references_ok_db_on_store.
  - by apply references_ok_db_on_store.
  - by apply references_ok_db_on_store.
  - by apply references_ok_db_on_store.
  - unfold post_api_user_gallery. destruct imageUrl as [url|]; [|done].
    case_decide; [done|]. unfold addUserImage.
    repeat case_decide; try done.
    cbn [snd]. unfold references_ok_db. cbn [store userImages contentReports
                                              comments].
    split_and!; try done.
    intros i [Hi| ->%list_elem_of_singleton]%elem_of_app; [auto|].
    by apply (first_with_is_Some User.id), not_eq_None_Some.
  - unfold delete_api_user_gallery_imageId.
    destruct (list_find _ _); [|done].
    cbn [snd]. unfold references_ok_db, deleteUserImage.
    cbn [store userImages contentReports comments].
    split_and!; try done. intros i [_ Hi]%list_elem_of_filter. auto.
  - unfold post_api_reports. destruct (negb _ || negb _); [done|].
    destruct (insertContentReportSchema _) as [v|]; [|done].
    unfold createReport. repeat case_decide; try done.
    cbn [snd]. unfold references_ok_db. cbn [store userImages contentReports
                                              comments].
    split_and!; try done.
    intros r [Hr| ->%list_elem_of_singleton]%elem_of_app; [auto|].
    cbn [ContentReport.entryId ContentReport.reporterId]. split.
    + by apply (first_with_is_Some WikiEntry.id), not_eq_None_Some.
    + by apply (first_with_is_Some User.id), not_eq_None_Some.
  - unfold patch_api_admin_reports_id_status.
    destruct status as [status|]; [|done]. case_decide; [done|].
    unfold updateReportStatus.
    destruct (varchar 50 status) as [stored|]; [|done].
    assert (references_ok_db
              (mkDatabase (store d) (userImages d)
                 (rewrite_with ContentReport.id (set_report_status stored now)
                    id (contentReports d))
                 (comments d))) as Hupd.
    { unfold references_ok_db.
      cbn [store userImages contentReports comments].
      split_and!; try done.
      intros r (r0 & -> & Hr)%list_elem_of_fmap.
      destruct (Hreports r0 Hr). by case_decide. }
    by destruct (first_with ContentReport.id id (contentReports d)).
  - unfold post_api_comments. destruct (negb _ || negb _); [done|].
    destruct (insertCommentSchema _) as [v|]; [|done].
    unfold createComment. repeat case_decide; try done.
    cbn [snd]. unfold references_ok_db. cbn [store userImages contentReports
                                              comments].
    split_and!; try done.
    intros c [Hc| ->%list_elem_of_singleton]%elem_of_app; [auto|].
    cbn [Comment.entryId Comment.userId]. split.
    + by apply (first_with_is_Some WikiEntry.id), not_eq_None_Some.
    + by apply (first_with_is_Some User.id), not_eq_None_Some.
  - unfold delete_api_comments_commentId, deleteComment, references_ok_db.
    cbn [snd store userImages contentReports comments].
    split_and!; try done. intros c [_ Hc]%list_elem_of_filter. auto.
Qed.

(** X26. No orphans. Whatever sequence of modelled requests the server
    handles, over all six tables, every image, entry, report, comment and
    like keeps pointing at a stored user and, where it has one, a stored
    entry: inserts are refused when their references are missing, and
    deleting an entry or a user takes every dependent row along,
    including the rows that hang on a deleted user's entries. *)
Theorem foreign_keys_kept_db (unique : bool) (rs : list DbRequest)
    (d : Database) :
  references_ok_db d → references_ok_db (run_db unique rs d).
Proof.
  unfold run_db. revert d. induction rs as [|r rs IH]; intros d Hok; [done|].
  simpl. by apply IH, handle_db_references.
Qed.

Lemma foreign_keys_kept_db_witness :
  let d := run_db false [Core (AdminDeleteUser "alice")] sample_database in
  references_ok_db d
  ∧ wikiEntries (store d) = [sample_entry "e3" "bob" "approved" false None]
  ∧ likes (store d) = []
  ∧ contentReports d = []
  ∧ comments d = []
  ∧ userImages d = [UserImage.mk "i1" "bob" "b.png" None (Some 20)].
Proof.
  intros d. split; [|by vm_compute].
  apply (foreign_keys_kept_db false [Core (AdminDeleteUser "alice")]
           sample_database).
  unfold references_ok_db, references_ok. split_and!; each_row.
Defined.

(** ** Listing reports and comments *)

Lemma getUser_is_Some (db : Store) (id : string) :
  id ∈ User.id <$> users db → is_Some (getUser db id).
Proof. apply first_with_is_Some. Qed.

Lemma getEntry_is_Some (db : Store) (id : string) :
  id ∈ WikiEntry.id <$> wikiEntries db → is_Some (getEntry db id).
Proof. apply first_with_is_Some. Qed.

Lemma filter_none {A} (P : A → Prop) `{∀ x, Decision (P x)} (l : list A) :
  (∀ x, x ∈ l → ¬ P x) → filter P l = [].
Proof.
  induction l as [|x l IH]; [done|]. intros HP.
  rewrite filter_cons, decide_False by (apply HP; left).
  apply IH. intros y Hy. apply HP. by right.
Qed.

(** X27. GET /api/admin/reports lists, newest first, the reports whose
    status is the one asked for, and all reports when no status or an
    empty one is given. In a database whose references are intact every
    listed report comes with its entry, that entry's owner and its
    reporter: none of the three lookups comes back empty. *)
Theorem reports_listing (d : Database) (status : option string) :
  let rows := getReports d status in
  let listed := (λ row, row.1.1.1) <$> rows in
  get_api_admin_reports status d = Json 200 rows
  ∧ (∀ report, report ∈ listed ↔
       report ∈ contentReports d
       ∧ (status = None ∨ status = Some EmptyString
          ∨ status = Some (ContentReport.status report)))
  ∧ newest_first ContentReport.createdAt listed
  ∧ (references_ok_db d →
     ∀ report entry owner reporter,
       (report, entry, owner, reporter) ∈ rows →
       is_Some entry ∧ is_Some owner ∧ is_Some reporter).
Proof.
  intros rows listed.
  set (filtered :=
         if truthy (JStr <$> status)
         then filter (λ r, Some (ContentReport.status r) = status)
                (contentReports d)
         else contentReports d).
  assert (listed = orderBy_desc ContentReport.createdAt filtered) as Hlisted.
  { unfold listed, rows, getReports. fold filtered.
    rewrite <- list_fmap_compose. apply list_fmap_id. }
  split_and!.
  - done.
  - intros report. rewrite Hlisted, elem_of_orderBy_desc. unfold filtered.
    destruct status as [s|]; simpl;
      [|split; [intros ?; split; [done|by left]|by intros [? _]]].
    case_bool_decide as Hs; simpl.
    + rewrite list_elem_of_filter. split.
      * intros [Heq Hin]. split; [done|]. right. right. done.
      * intros [Hin [?|[[= ?]|?]]]; done.
    + subst s. split; [|by intros [? _]].
      intros ?. split; [done|]. right. by left.
  - rewrite Hlisted. apply orderBy_desc_newest_first.
  - intros (Hstore & _ & Hreports & _) report entry owner reporter Hin.
    unfold rows, getReports in Hin. fold filtered in Hin.
    apply list_elem_of_fmap in Hin as (r0 & [= -> -> -> ->] & Hin).
    apply elem_of_orderBy_desc in Hin.
    assert (r0 ∈ contentReports d) as Hr0.
    { unfold filtered in Hin. destruct (truthy _); [|done].
      by apply list_elem_of_filter in Hin as [_ ?]. }
    destruct (Hreports r0 Hr0) as [He Hu].
    apply getEntry_is_Some in He as [e He]. rewrite He. simpl.
    split_and!; [done| |by apply getUser_is_Some].
    apply getUser_is_Some. apply first_with_elem in He as [He _].
    by apply Hstore.
Qed.

Lemma reports_listing_witness :
  Forall (λ row, is_Some row.1.1.2 ∧ is_Some row.1.2 ∧ is_Some row.2)
    (getReports sample_database None).
Proof.
  apply Forall_forall. intros [[[report entry] owner] reporter].
  apply (proj2 (proj2 (proj2 (reports_listing sample_database None)))).
  unfold references_ok_db, references_ok. split_and!; each_row.
Defined.

(** X28. GET /api/entries/:entryId/comments lists, newest first, exactly
    the comments on that entry, each with the row of its author; in a
    database whose references are intact every listed comment has its
    author. An entry without comments, or an unknown id, gives the empty
    list. *)
Theorem comments_listing (d : Database) (entryId : string) :
  let rows := getComments d entryId in
  get_api_entries_entryId_comments entryId d = Json 200 rows
  ∧ (∀ c, c ∈ fst <$> rows ↔ c ∈ comments d ∧ Comment.entryId c = entryId)
  ∧ newest_first Comment.createdAt (fst <$> rows)
  ∧ (∀ c author, (c, author) ∈ rows →
       author = getUser (store d) (Comment.userId c))
  ∧ (references_ok_db d → ∀ c author, (c, author) ∈ rows → is_Some author)
  ∧ ((∀ c, c ∈ comments d → Comment.entryId c ≠ entryId) → rows = []).
Proof.
  intros rows.
  assert (fst <$> rows
          = orderBy_desc Comment.createdAt
              (filter (λ c, Comment.entryId c = entryId) (comments d)))
    as Hlisted.
  { unfold rows, getComments. rewrite <- list_fmap_compose.
    apply list_fmap_id. }
  assert (∀ c author, (c, author) ∈ rows →
            c ∈ comments d ∧ author = getUser (store d) (Comment.userId c))
    as Hrows.
  { intros c author (c0 & [= -> ->] & Hin)%list_elem_of_fmap.
    apply elem_of_orderBy_desc, list_elem_of_filter in Hin. tauto. }
  split_and!.
  - done.
  - intros c. rewrite Hlisted, elem_of_orderBy_desc, list_elem_of_filter.
    tauto.
  - rewrite Hlisted. apply orderBy_desc_newest_first.
  - intros c author Hin. by apply Hrows.
  - intros (_ & _ & _ & Hcomments) c author [Hc ->]%Hrows.
    apply getUser_is_Some. by apply Hcomments.
  - intros Hnone. unfold rows, getComments.
    assert (filter (λ c, Comment.entryId c = entryId) (comments d) = [])
      as ->; [|done].
    by apply filter_none.
Qed.

Lemma comments_listing_witness :
  (∀ c author,
     (c, author) ∈ getComments sample_database "e3" → is_Some author)
  ∧ getComments sample_database "e9" = [].
Proof.
  split.
  - apply (proj1 (proj2 (proj2 (proj2 (proj2
             (comments_listing sample_database "e3")))))).
    unfold references_ok_db, references_ok. split_and!; each_row.
  - apply (proj2 (proj2 (proj2 (proj2 (proj2
             (comments_listing sample_database "e9")))))).
    each_row.
Defined.
